(** * Profiler-Backend: authentication, session and cache layer of [src/index.js]

    A shallow embedding of the Express handlers that decide who the caller
    is (the [loginRequired] middleware, the login, register and session-check
    routes), of the two error-handling middlewares, of the Twitter profile
    cache and of the bookmark-category routes, followed by the properties
    the design document states about them.

    Conventions.
    - JavaScript strings are [string], one character per UTF-16 code
      unit; the strings considered are those whose code units are below
      256. A value that may be [undefined] or [null] is an [option];
      truthiness is written out ([Js.truthy_str], [Js.truthy_num]).
    - Numbers are integers ([Z]); [Date.now()] is a number of milliseconds.
      A number that arrives in a request body is a safe integer
      ([Js.is_safe_integer]), which [String] prints in plain decimal.
    - SQL tables are lists of rows in insertion order, so that [rows[0]] is
      the head of the selected list.
    - Every handler returns its response together with the request object,
      the database and the list of side effects it performed, in order. *)

From Stdlib Require Import ZArith String List Lia Bool Ascii.
From stdpp Require Import base option gmap strings countable pretty.

Local Open Scope Z_scope.

(** ** JavaScript primitives used by the handlers *)

Module Js.

(** [!!s] for a string. *)
Definition truthy_str (s : string) : bool := negb (String.eqb s "").

(** [!!n] for an integer. *)
Definition truthy_num (n : Z) : bool := negb (n =? 0).

(** [!!v] for a value that may be undefined. *)
Definition truthy_opt {A} (t : A → bool) (o : option A) : bool :=
  match o with Some a => t a | None => false end.

(** [a || b] on possibly-undefined strings, with a string default. *)
Definition or_str (o : option string) (d : string) : string :=
  match o with
  | Some s => if truthy_str s then s else d
  | None => d
  end.

(** [a || false] on a possibly-null boolean. *)
Definition or_false (o : option bool) : bool :=
  match o with Some b => b | None => false end.

(** [s.startsWith(p)]. *)
Definition startsWith (s p : string) : bool := String.prefix p s.

(** [s.substring(n)]. *)
Definition substring_from (n : nat) (s : string) : string :=
  String.substring n (String.length s - n) s.

(** [s.includes(p)]. *)
Definition includes (s p : string) : bool :=
  match String.index 0 p s with Some _ => true | None => false end.

(** [s.split(sep)] for a one-character separator: never the empty list. *)
Fixpoint split (sep : ascii) (s : string) : list string :=
  match s with
  | EmptyString => [EmptyString]
  | String c r =>
      if Ascii.eqb c sep then EmptyString :: split sep r
      else match split sep r with
           | w :: ws => String c w :: ws
           | [] => [String c EmptyString]
           end
  end.

(** [w.charAt(0)]: the empty string when [w] is empty. *)
Definition charAt0 (w : string) : string :=
  match w with
  | EmptyString => EmptyString
  | String c _ => String c EmptyString
  end.

(** [ws.join('')]. *)
Definition join (ws : list string) : string :=
  fold_right String.append EmptyString ws.

(** The code units that [s.trim()] removes (WhiteSpace and
    LineTerminator), as far as they are below 256: TAB, LF, VT, FF, CR,
    SPACE and the no-break space U+00A0. *)
Definition is_space (c : ascii) : bool :=
  let n := nat_of_ascii c in
  (Nat.eqb n 32 || Nat.eqb n 160 || (Nat.leb 9 n && Nat.leb n 13))%bool.

Fixpoint trim_start (s : string) : string :=
  match s with
  | EmptyString => EmptyString
  | String c r => if is_space c then trim_start r else s
  end.

(** Removes trailing white space; [String c ""] survives iff [c] is not
    a space. *)
Fixpoint trim_end (s : string) : string :=
  match s with
  | EmptyString => EmptyString
  | String c r =>
      match trim_end r with
      | EmptyString => if is_space c then EmptyString else String c EmptyString
      | r' => String c r'
      end
  end.

Definition trim (s : string) : string := trim_end (trim_start s).

(** [Number.isSafeInteger(n)] for an integer: up to 2^53 - 1 in absolute
    value every integer is a number of its own, and [String] prints all
    its decimal digits. Larger numbers are printed with rounded digits and,
    from 1e21 on, with an exponent. *)
Definition is_safe_integer (n : Z) : bool :=
  Z.abs n <=? 9007199254740991.

(** An id as the front end sends it in a JSON body: a string, or a number
    that is a safe integer, as the values of [Date.now()] are. *)
Inductive Id :=
| IdNum (n : Z) (safe : Is_true (is_safe_integer n))
| IdStr (s : string).

(** [String(id)]: the decimal digits of a safe integer, with [-] before a
    negative one. *)
Definition String_ (i : Id) : string :=
  match i with
  | IdNum n _ => pretty n
  | IdStr s => s
  end.

Definition truthy_id (i : Id) : bool :=
  match i with
  | IdNum n _ => truthy_num n
  | IdStr s => truthy_str s
  end.

Definition digit_of (c : ascii) : option Z :=
  let n := nat_of_ascii c in
  if (Nat.leb 48 n && Nat.leb n 57)%bool then Some (Z.of_nat n - 48) else None.

Fixpoint parse_digits (acc : Z) (s : string) : option Z :=
  match s with
  | EmptyString => Some acc
  | String c r =>
      match digit_of c with
      | Some d => parse_digits (10 * acc + d) r
      | None => None
      end
  end.

(** The integer a PostgreSQL [INT] parameter denotes, when it is one. *)
Definition to_int (i : Id) : option Z :=
  match i with
  | IdNum n _ => Some n
  | IdStr EmptyString => None
  | IdStr (String "-" r) =>
      match r with
      | EmptyString => None
      | _ => Z.opp <$> parse_digits 0 r
      end
  | IdStr s => parse_digits 0 s
  end.

End Js.

(** ** JSON values sent in response bodies *)

#[local] Set Warnings "-register-all".

Inductive Json :=
| JNull
| JBool (b : bool)
| JNum (n : Z)
| JStr (s : string)
| JArr (items : list Json)
| JObj (fields : list (string * Json)).

Definition json_opt_str (o : option string) : Json :=
  match o with Some s => JStr s | None => JNull end.

Definition json_opt_num (o : option Z) : Json :=
  match o with Some n => JNum n | None => JNull end.

(** [o.k] on a JSON value: [None] stands for [undefined]. *)
Fixpoint assoc_get (k : string) (fs : list (string * Json)) : option Json :=
  match fs with
  | [] => None
  | (k', v) :: r => if String.eqb k' k then Some v else assoc_get k r
  end.

Definition json_get (k : string) (j : Json) : option Json :=
  match j with
  | JObj fs => assoc_get k fs
  | _ => None
  end.

Record Response := { status : Z; body : Json }.

(** [res.json(b)] with the default status. *)
Definition res_json (b : Json) : Response := {| status := 200; body := b |}.

(** ** Data model *)

(** A row of [deuss.users], with the columns the handlers read or write.
    Nullable columns are options. *)
Record UserRow := {
  u_id : Z;
  u_email : string;
  u_password : string;
  u_full_name : option string;
  u_country : option string;
  u_avatar_url : option string;
  u_tier : option string;
  u_is_verified : option bool;
  u_verification_token : option string;
  u_verification_token_expiry : option Z;
  u_created_at : Z;
  u_updated_at : Z
}.

(** A row of [deuss.bookmark_categories]. *)
Record CategoryRow := {
  c_id : Z;
  c_user_id : Z;
  c_name : string;
  c_icon : string;
  c_created_at : Z;
  c_updated_at : Z
}.

(** A row of [deuss.social_profiles]. *)
Record SocialRow := {
  s_platform : string;
  s_username : string;
  s_connected : bool;
  s_api_key : option string
}.

(** An error object: [err.code], [err.message], [err.statusCode]. *)
Record Err := {
  code : option string;
  message : string;
  statusCode : option Z
}.

(** The database behind [pool]. When [fault] is [Some e], every
    [pool.query] rejects with [e]. *)
Record Db := {
  users : list UserRow;
  bookmark_categories : list CategoryRow;
  social_profiles : list SocialRow;
  fault : option Err
}.

(** The claim set the program signs into a bearer token (lines 733-739 and
    1419-1425). *)
Record Claims := {
  id : Z;
  email : string;
  full_name : option string;
  tier : string;
  is_verified : bool
}.

(** What [jwt.verify] returns: the claims plus the two timestamps, in
    seconds. *)
Record Decoded := {
  claims : Claims;
  iat : Z;
  exp : Z
}.

(** [req.session]: the object attached by the session middleware, or the
    temporary placeholder built at lines 285-299. Both kinds carry [save],
    [destroy] and [touch], so the [typeof ... === 'function'] guards of the
    handlers pass on every session object the program builds. [save_fails]
    tells whether the store reports an error to the [save] callback;
    [expires] is the expiry instant of the session cookie. *)
Record Session := {
  uid : option Z;
  isTemporary : bool;
  expires : Z;
  save_fails : bool
}.

(** [req.body], at the types the handlers expect. *)
Record Body := {
  b_email : option string;
  b_password : option string;
  b_fullName : option string;
  b_full_name : option string;
  b_country : option string;
  b_name : option string;
  b_icon : option string;
  b_id : option Js.Id
}.

Record Req := {
  session : option Session;
  sessionID : option string;
  authorization : option string;
  cookie : option string;
  user : option Decoded;
  reqbody : Body;
  query_username : option string
}.

(** The process environment and the non-deterministic inputs of one
    request: the clock and the bytes drawn by [bcrypt.genSalt] and
    [crypto.randomBytes]. *)
Record Env := {
  NODE_ENV : option string;
  JWT_SECRET_env : option string;
  EMAIL_VERIFICATION : option string;
  TWITTER_BEARER_TOKEN : option string;
  now : Z;
  salt : string;
  randomHex : string
}.

(** Line 18: [process.env.JWT_SECRET || 'your-secret-key']. *)
Definition JWT_SECRET (env : Env) : string :=
  Js.or_str (JWT_SECRET_env env) "your-secret-key".

Definition is_production (env : Env) : bool :=
  match NODE_ENV env with
  | Some s => String.eqb s "production"
  | None => false
  end.

Definition email_verification_on (env : Env) : bool :=
  match EMAIL_VERIFICATION env with
  | Some s => String.eqb s "true"
  | None => false
  end.

(** SQL statements, as they are logged in the effect trace. *)
Inductive Sql :=
| SelectUserByEmail (e : string)
| SelectUserById (i : Z)
| InsertUser (e : string)
| UpdateUserVerification (i : Z)
| UpdateUserProfile (i : Z)
| SelectCategory (i : Js.Id) (owner : Z)
| InsertCategory (owner : Z) (name icon : string)
| UpdateCategory (i : Js.Id) (owner : Z) (name icon : string)
| SelectApiKey (username : string).

(** Side effects of a handler, in the order they happen. *)
Inductive Effect :=
| EQuery (q : Sql)
| EJwtSign (payload : Claims) (expiresIn : Z)
| ESetCookie (value : string)
| ESessionSave
| ESessionTouch
| ESessionDestroy
| EMail (to token : string)
| EFetch (url key : string).

(** The outcome of a middleware or route: [response = None] means
    [next()] was called. *)
Record Result := {
  response : option Response;
  req_after : Req;
  db_after : Db;
  effects : list Effect
}.

(** ** The database queries issued by the handlers *)

Definition pool_query {A} (db : Db) (rows : A) : Err + A :=
  match fault db with
  | Some e => inl e
  | None => inr rows
  end.

(** [SELECT * FROM deuss.users WHERE email = $1]. *)
Definition select_users_by_email (db : Db) (e : string) : Err + list UserRow :=
  pool_query db (filter (λ u, String.eqb (u_email u) e = true) (users db)).

(** [SELECT ... FROM deuss.users WHERE id = $1]. *)
Definition select_users_by_id (db : Db) (i : Z) : Err + list UserRow :=
  pool_query db (filter (λ u, u_id u = i) (users db)).

(** The next value of a SERIAL key. *)
Definition next_id (ids : list Z) : Z := 1 + fold_right Z.max 0 ids.

(** [INSERT INTO deuss.users (...) VALUES (...) RETURNING ...] (lines
    584-591). Columns not listed take their default, here null. *)
Definition insert_user (db : Db) (e hashed fullName token : string)
    (expiry t : Z) : Err + (UserRow * Db) :=
  let row := {| u_id := next_id (u_id <$> users db);
                u_email := e; u_password := hashed;
                u_full_name := Some fullName; u_country := None;
                u_avatar_url := None; u_tier := None;
                u_is_verified := Some false;
                u_verification_token := Some token;
                u_verification_token_expiry := Some expiry;
                u_created_at := t; u_updated_at := t |} in
  pool_query db
    (row, {| users := users db ++ [row];
             bookmark_categories := bookmark_categories db;
             social_profiles := social_profiles db;
             fault := fault db |}).

Definition map_users (f : UserRow → UserRow) (db : Db) : Db :=
  {| users := f <$> users db;
     bookmark_categories := bookmark_categories db;
     social_profiles := social_profiles db;
     fault := fault db |}.

(** [UPDATE deuss.users SET verification_token = $1,
    verification_token_expiry = $2, updated_at = NOW() WHERE id = $3]. *)
Definition update_user_verification (db : Db) (token : string) (expiry : Z)
    (i t : Z) : Err + Db :=
  pool_query db
    (map_users (λ u,
       if decide (u_id u = i) then
         {| u_id := u_id u; u_email := u_email u; u_password := u_password u;
            u_full_name := u_full_name u; u_country := u_country u;
            u_avatar_url := u_avatar_url u; u_tier := u_tier u;
            u_is_verified := u_is_verified u;
            u_verification_token := Some token;
            u_verification_token_expiry := Some expiry;
            u_created_at := u_created_at u; u_updated_at := t |}
       else u) db).

(** [UPDATE deuss.users SET full_name = $1, country = $2, updated_at =
    NOW() WHERE id = $3 RETURNING ...] (line 1261). *)
Definition set_profile (fullName : string) (country : option string) (t : Z)
    (u : UserRow) : UserRow :=
  {| u_id := u_id u; u_email := u_email u; u_password := u_password u;
     u_full_name := Some fullName; u_country := country;
     u_avatar_url := u_avatar_url u; u_tier := u_tier u;
     u_is_verified := u_is_verified u;
     u_verification_token := u_verification_token u;
     u_verification_token_expiry := u_verification_token_expiry u;
     u_created_at := u_created_at u; u_updated_at := t |}.

Definition update_user_profile (db : Db) (fullName : string)
    (country : option string) (i t : Z) : Err + (list UserRow * Db) :=
  pool_query db
    (set_profile fullName country t <$> filter (λ u, u_id u = i) (users db),
     map_users (λ u, if decide (u_id u = i)
                     then set_profile fullName country t u else u) db).

Definition with_categories (cs : list CategoryRow) (db : Db) : Db :=
  {| users := users db;
     bookmark_categories := cs;
     social_profiles := social_profiles db;
     fault := fault db |}.

(** [INSERT INTO deuss.bookmark_categories (user_id, name, icon,
    created_at, updated_at) VALUES ($1, $2, $3, NOW(), NOW()) RETURNING *]. *)
Definition insert_category (db : Db) (owner : Z) (name icon : string)
    (t : Z) : Err + (CategoryRow * Db) :=
  let row := {| c_id := next_id (c_id <$> bookmark_categories db);
                c_user_id := owner; c_name := name; c_icon := icon;
                c_created_at := t; c_updated_at := t |} in
  pool_query db (row, with_categories (bookmark_categories db ++ [row]) db).

(** The error PostgreSQL raises when an [INT] parameter is not an
    integer. *)
Definition invalid_integer : Err :=
  {| code := Some "22P02";
     message := "invalid input syntax for type integer";
     statusCode := None |}.

(** [SELECT * FROM deuss.bookmark_categories WHERE id = $1 AND user_id =
    $2]. *)
Definition select_category (db : Db) (i : Js.Id) (owner : Z)
    : Err + list CategoryRow :=
  match fault db, Js.to_int i with
  | Some e, _ => inl e
  | None, None => inl invalid_integer
  | None, Some n =>
      inr (filter (λ c, c_id c = n ∧ c_user_id c = owner)
             (bookmark_categories db))
  end.

Definition set_category (name icon : string) (t : Z) (c : CategoryRow)
    : CategoryRow :=
  {| c_id := c_id c; c_user_id := c_user_id c; c_name := name;
     c_icon := icon; c_created_at := c_created_at c; c_updated_at := t |}.

(** [UPDATE deuss.bookmark_categories SET name = $1, icon = $2,
    updated_at = NOW() WHERE id = $3 AND user_id = $4 RETURNING *]. *)
Definition update_category (db : Db) (i : Js.Id) (owner : Z)
    (name icon : string) (t : Z) : Err + (list CategoryRow * Db) :=
  match fault db, Js.to_int i with
  | Some e, _ => inl e
  | None, None => inl invalid_integer
  | None, Some n =>
      inr (set_category name icon t <$>
             filter (λ c, c_id c = n ∧ c_user_id c = owner)
               (bookmark_categories db),
           with_categories
             ((λ c, if decide (c_id c = n ∧ c_user_id c = owner)
                    then set_category name icon t c else c)
                <$> bookmark_categories db) db)
  end.

(** [SELECT api_key FROM deuss.social_profiles WHERE platform = $1 AND
    username = $2 AND connected = true]. *)
Definition select_api_key (db : Db) (username : string)
    : Err + list (option string) :=
  pool_query db
    (s_api_key <$>
       filter (λ p, s_platform p = "twitter"%string ∧ s_username p = username
                    ∧ s_connected p = true)
         (social_profiles db)).

(** ** JSON renderings of rows *)

Definition category_json (c : CategoryRow) : Json :=
  JObj [("id", JNum (c_id c)); ("user_id", JNum (c_user_id c));
        ("name", JStr (c_name c)); ("icon", JStr (c_icon c));
        ("created_at", JNum (c_created_at c));
        ("updated_at", JNum (c_updated_at c))]%string.

(** [result.rows[0]] rendered, [undefined] being dropped by
    [JSON.stringify]. *)
Definition first_category_json (cs : list CategoryRow) : Json :=
  match cs with
  | c :: _ => category_json c
  | [] => JNull
  end.

(** ** The session store and its reconnect logic (lines 228-243, 396-407) *)

(** What the handlers look at in [sessionStore]: whether it has [on] and
    [connect] methods and its [connected] flag, when it has one. *)
Record Store := {
  has_on : bool;
  has_connect : bool;
  connected : option bool
}.

(** The event loop as far as reconnection goes: the clock, the due times
    of the pending [setTimeout] callbacks, and the instants at which
    [sessionStore.connect()] was called. *)
Record Loop := {
  clock : Z;
  timers : list Z;
  connects : list Z
}.

(** The delay passed to [setTimeout] at line 240. *)
Definition RECONNECT_DELAY : Z := 5000.

(** The ['error'] listener of lines 230-242; it is attached only when the
    store has an [on] method (line 229). *)
Definition on_store_error (st : Store) (l : Loop) : Loop :=
  if has_on st then
    if has_connect st then
      {| clock := clock l;
         timers := timers l ++ [clock l + RECONNECT_DELAY];
         connects := connects l |}
    else l
  else l.

(** The middleware of lines 396-407, given whether [req.session] is set
    and [req.sessionStore]. It always calls [next()]. *)
Definition reconnect_middleware (has_session : bool) (st : option Store)
    (l : Loop) : Loop :=
  match st with
  | Some s =>
      if (negb has_session && bool_decide (connected s = Some false))%bool then
        if has_connect s then
          {| clock := clock l; timers := timers l;
             connects := connects l ++ [clock l] |}
        else l
      else l
  | None => l
  end.

(** Time passes until [t]: the timers due by then run their callback, which
    calls [sessionStore.connect()], and leave the pending list. *)
Definition advance (t : Z) (l : Loop) : Loop :=
  {| clock := Z.max (clock l) t;
     timers := filter (λ d, Z.max (clock l) t < d) (timers l);
     connects := connects l ++ filter (λ d, d ≤ Z.max (clock l) t) (timers l) |}.

Inductive StoreEvent :=
| StoreError
| Request (has_session : bool)
| Elapse (t : Z).

Definition store_step (st : Store) (l : Loop) (e : StoreEvent) : Loop :=
  match e with
  | StoreError => on_store_error st l
  | Request b => reconnect_middleware b (Some st) l
  | Elapse t => advance t l
  end.

Definition store_run (st : Store) (l : Loop) (es : list StoreEvent) : Loop :=
  fold_left (store_step st) es l.

(** The two kinds of store the program builds: the store of
    connect-pg-simple ([new pgSession(...)], lines 189 and 206) and the
    [MemoryStore] of express-session (line 217). Both derive from
    express-session's [Store], an event emitter, so they have [on]; neither
    has a [connect] method or a [connected] property. *)
Definition pgSession : Store :=
  {| has_on := true; has_connect := false; connected := None |}.

Definition MemoryStore : Store :=
  {| has_on := true; has_connect := false; connected := None |}.

(** [initSessionStore] (lines 186-221), given whether the first and the
    second call of the [pgSession] constructor throw. *)
Definition initSessionStore (first_throws second_throws : bool) : Store :=
  if first_throws then
    if second_throws then MemoryStore else pgSession
  else pgSession.

(** ** The failure classifier (lines 319-354 and 2511-2558) *)

(** What an error-handling middleware does with the error. *)
Inductive Action :=
| Continue                 (** [next()]: the request goes on as if no error *)
| Forward (e : Err)         (** [next(err)] *)
| Reply (r : Response).

(** The placeholder session of lines 330-335. *)
Definition temporary_session : Session :=
  {| uid := None; isTemporary := true; expires := 0; save_fails := false |}.

(** [req.session.destroy()]: express-session removes [req.session]; the
    placeholder's [destroy] only calls its callback. *)
Definition destroy_session (s : Session) : option Session :=
  if isTemporary s then Some s else None.

Definition with_session (r : Req) (s : option Session) : Req :=
  {| session := s; sessionID := sessionID r;
     authorization := authorization r; cookie := cookie r;
     user := user r; reqbody := reqbody r;
     query_username := query_username r |}.

Definition with_user (r : Req) (d : Decoded) : Req :=
  {| session := session r; sessionID := sessionID r;
     authorization := authorization r; cookie := cookie r;
     user := Some d; reqbody := reqbody r;
     query_username := query_username r |}.

Definition code_is (e : Err) (c : string) : bool :=
  match code e with
  | Some c' => String.eqb c' c
  | None => false
  end.

(** The session error middleware of lines 319-354. *)
Definition session_error_handler (e : Err) (r : Req) : Action * Req :=
  if code_is e "EBADSESSION" then
    match session r with
    | Some s => (Continue, with_session r (destroy_session s))
    | None => (Continue, with_session r (Some temporary_session))
    end
  else if (Js.truthy_opt Js.truthy_str (code e)
           && (code_is e "57P01" || code_is e "57P02"
               || code_is e "57P03" || code_is e "57P04"))%bool
  then (Continue, r)
  else (Forward e, r).

(** The last part of the global handler (lines 2544-2557). *)
Definition generic_error (env : Env) (e : Err) : Response :=
  {| status := match statusCode e with
               | Some n => if Js.truthy_num n then n else 500
               | None => 500
               end;
     body := JObj [("error",
                    JStr (if is_production env
                          then "An unexpected error occurred"
                          else message e));
                   ("status", JStr "error")]%string |}.

(** The global error handler of lines 2511-2558. *)
Definition global_error_handler (env : Env) (e : Err) : Action :=
  if Js.truthy_opt Js.truthy_str (code e) then
    if code_is e "42P01" then Continue
    else if code_is e "42P07" then Continue
    else if code_is e "23505" then
      if (Js.truthy_str (message e)
          && Js.includes (message e) "session_pkey")%bool
      then Continue
      else Reply (generic_error env e)
    else if (code_is e "ETIMEDOUT" || code_is e "ECONNREFUSED"
             || code_is e "ENOTFOUND")%bool
    then Reply {| status := 503;
                  body := JObj [("error",
                                 JStr "Database service temporarily unavailable");
                                ("status", JStr "error")]%string |}
    else Reply (generic_error env e)
  else Reply (generic_error env e).

(** The two error middlewares in the order in which they are registered.
    The global handler is registered while the file is loaded (line
    2511); the session error middleware is registered by the
    asynchronous initialiser after its [await] (line 226), that is, later.
    So an error meets the global handler first, and the session error
    middleware only if the global handler forwards it. *)
Definition classify (env : Env) (e : Err) (r : Req) : Action * Req :=
  match global_error_handler env e with
  | Forward e' => session_error_handler e' r
  | other => (other, r)
  end.

(** ** The Twitter response cache (lines 2169-2177) *)

Record CacheEntry := { data : Json; timestamp : Z }.

Definition PROFILE_CACHE_TTL : Z := 15 * 60 * 1000.

(** What [fetch] resolves to: the status and the parsed body. *)
Record Upstream := { up_status : Z; up_body : Json }.

(** [response.ok]. *)
Definition up_ok (u : Upstream) : bool :=
  ((200 <=? up_status u) && (up_status u <=? 299))%bool.

Definition json_truthy (j : Json) : bool :=
  match j with
  | JNull => false
  | JBool b => b
  | JNum n => Js.truthy_num n
  | JStr s => Js.truthy_str s
  | JArr _ | JObj _ => true
  end.

(** [j.k || d]. *)
Definition json_get_or (k : string) (j : Json) (d : Json) : Json :=
  match json_get k j with
  | Some v => if json_truthy v then v else d
  | None => d
  end.

Record TwResult := {
  tw_response : Response;
  tw_cache : gmap string CacheEntry;
  tw_effects : list Effect
}.

(** ** Bearer tokens *)

(** A signed token before serialisation: the key it was signed with, the
    payload and the two timestamps (seconds). *)
Record Jws := {
  jws_key : string;
  jws_payload : Claims;
  jws_iat : Z;
  jws_exp : Z
}.

Inductive JwtError :=
| ExpiredToken
| MalformedToken.

(** [expiresIn: '30d'], in seconds; also the [Max-Age] of the cookie. *)
Definition THIRTY_DAYS : Z := 30 * 24 * 60 * 60.

(** [maxAge] of the session cookie (line 263), in milliseconds. *)
Definition SESSION_MAX_AGE : Z := 30 * 24 * 60 * 60 * 1000.

Definition set_uid (s : Session) (i : Z) : Session :=
  {| uid := Some i; isTemporary := isTemporary s;
     expires := expires s; save_fails := save_fails s |}.

(** [req.session.touch()]: express-session resets the cookie's expiry to
    now + maxAge; the placeholder's [touch] does nothing. *)
Definition touch (t : Z) (s : Session) : Session :=
  if isTemporary s then s
  else {| uid := uid s; isTemporary := false;
          expires := t + SESSION_MAX_AGE; save_fails := save_fails s |}.

Definition session_uid (r : Req) : option Z := session r ≫= uid.

(** [req.session && req.session.uid], as a condition. *)
Definition has_uid (r : Req) : bool :=
  Js.truthy_opt Js.truthy_num (session_uid r).

(** The token of an [Authorization: Bearer ...] header (lines 421-424). *)
Definition bearer_token (r : Req) : option string :=
  match authorization r with
  | Some h =>
      if Js.startsWith h "Bearer " then Some (Js.substring_from 7 h) else None
  | None => None
  end.

Fixpoint until_semicolon (s : string) : string :=
  match s with
  | EmptyString => EmptyString
  | String c r => if Ascii.eqb c ";" then EmptyString
                  else String c (until_semicolon r)
  end.

(** [s.match(/jwt=([^;]+)/)[1]]: the leftmost [jwt=] followed by at least
    one character other than [;], and the longest run of such characters. *)
Fixpoint cookie_jwt (s : string) : option string :=
  match s with
  | EmptyString => None
  | String _ r =>
      if Js.startsWith s "jwt=" then
        match until_semicolon (Js.substring_from 4 s) with
        | EmptyString => cookie_jwt r
        | t => Some t
        end
      else cookie_jwt r
  end.

(** The token of the [jwt] cookie (lines 458-462). *)
Definition cookie_token (r : Req) : option string :=
  cookie r ≫= cookie_jwt.

(** The claims signed at login and at session check. *)
Definition user_claims (u : UserRow) : Claims :=
  {| id := u_id u;
     email := u_email u;
     full_name := u_full_name u;
     tier := Js.or_str (u_tier u) "basic";
     is_verified := Js.or_false (u_is_verified u) |}.

(** The [Set-Cookie] value of lines 795-797 and 1446-1448. *)
Definition jwt_cookie (env : Env) (token : string) : string :=
  "jwt=" +:+ token +:+ "; Max-Age=" +:+ pretty THIRTY_DAYS
    +:+ "; Path=/; HttpOnly; "
    +:+ (if is_production env then "Secure; SameSite=None" else "").

Definition reply (st : Z) (b : Json) (r : Req) (db : Db) (es : list Effect)
    : Result :=
  {| response := Some {| status := st; body := b |};
     req_after := r; db_after := db; effects := es |}.

Definition next (r : Req) (db : Db) (es : list Effect) : Result :=
  {| response := None; req_after := r; db_after := db; effects := es |}.

(** A route registered as [app.METHOD(path, mw, handler)]. *)
Definition guarded (mw handler : Db → Req → Result) (db : Db) (r : Req)
    : Result :=
  let m := mw db r in
  match response m with
  | Some _ => m
  | None =>
      let h := handler (db_after m) (req_after m) in
      {| response := response h; req_after := req_after h;
         db_after := db_after h; effects := effects m ++ effects h |}
  end.

(** ** Cross-origin policy (lines 146-183) *)

(** The production origins of lines 154-157. *)
Definition prodOrigins : list string :=
  ["https://deuss.space"; "https://homepage.deuss.space"]%string.

(** The [origin] callback of the CORS middleware: [true] when the request
    is let through, [false] when it is refused with 'Not allowed by
    CORS'. A request without an [Origin] header has [origin = None]. *)
Definition cors_allows (env : Env) (origin : option string) : bool :=
  match origin with
  | None => true
  | Some o =>
      if negb (Js.truthy_str o) then true
      else if is_production env then
        existsb (λ allowedOrigin,
                   (Js.includes o allowedOrigin
                    || Js.includes allowedOrigin o)%bool)
          prodOrigins
      else (Js.startsWith o "http://localhost"
            || Js.startsWith o "http://127.0.0.1")%bool
  end.

(** ** Cookie values *)

(** Whether [;] occurs in a string. *)
Fixpoint has_semicolon (s : string) : bool :=
  match s with
  | EmptyString => false
  | String c r => (Ascii.eqb c ";" || has_semicolon r)%bool
  end.

(** [req.headers.cookie] set to [h]. *)
Definition with_cookie (r : Req) (h : string) : Req :=
  {| session := session r; sessionID := sessionID r;
     authorization := authorization r; cookie := Some h; user := user r;
     reqbody := reqbody r; query_username := query_username r |}.

(** ** The application as Express runs it *)

(** What [app.use] and [app.METHOD] register, as far as one request is
    concerned: a route stands for the handlers of an [app.METHOD(path,
    h1, ..., hn)] whose method and path are those of the request. *)
Inductive Layer :=
| Use (mw : Db → Req → Result)
| UseError (h : Err → Req → Action * Req)
| Route (handlers : list (Db → Req → Result)).

(** The handlers of a route run one after the other for as long as they
    call [next()]. *)
Fixpoint run_handlers (hs : list (Db → Req → Result)) (db : Db) (r : Req)
    (es : list Effect) : Result :=
  match hs with
  | [] => next r db es
  | h :: hs' =>
      let m := h db r in
      match response m with
      | Some resp =>
          {| response := Some resp; req_after := req_after m;
             db_after := db_after m; effects := es ++ effects m |}
      | None => run_handlers hs' (db_after m) (req_after m) (es ++ effects m)
      end
  end.

(** Express's router: a request meets the layers in the order in which
    they were registered, until one of them sends the response. Without
    an error the error-handling layers are skipped; with an error ([err]
    is what was passed to [next(err)]) only they are run. A result without
    a response means that no layer answered. *)
Fixpoint dispatch (ls : list Layer) (err : option Err) (db : Db) (r : Req)
    (es : list Effect) : Result :=
  match ls with
  | [] => next r db es
  | l :: ls' =>
      match err, l with
      | None, Use mw =>
          let m := run_handlers [mw] db r es in
          match response m with
          | Some _ => m
          | None => dispatch ls' None (db_after m) (req_after m) (effects m)
          end
      | None, Route hs =>
          let m := run_handlers hs db r es in
          match response m with
          | Some _ => m
          | None => dispatch ls' None (db_after m) (req_after m) (effects m)
          end
      | None, UseError _ => dispatch ls' None db r es
      | Some e, UseError h =>
          match h e r with
          | (Reply resp, r') =>
              {| response := Some resp; req_after := r'; db_after := db;
                 effects := es |}
          | (Continue, r') => dispatch ls' None db r' es
          | (Forward e', r') => dispatch ls' (Some e') db r' es
          end
      | Some e, _ => dispatch ls' (Some e) db r es
      end
  end.

(** The 404 handler of lines 2561-2563. *)
Definition not_found (db : Db) (r : Req) : Result :=
  reply 404 (JObj [("error", JStr "Endpoint not found")]%string) r db [].

(** A middleware that only calls [next()]: the one of lines 396-407 as far
    as the request goes (what it does to the store is
    [reconnect_middleware]), and the one of lines 2574-2581. *)
Definition pass (db : Db) (r : Req) : Result := next r db [].

(** ** Concrete libraries and data, used to run the handlers on examples *)

Module Sample.

(** A serialisation of signed tokens: the binary digits of the code that
    [Countable] gives to the tuple of a token's fields. *)
Fixpoint bits (p : positive) : string :=
  match p with
  | xH => EmptyString
  | xO q => String "0" (bits q)
  | xI q => String "1" (bits q)
  end.

Fixpoint unbits (s : string) : option positive :=
  match s with
  | EmptyString => Some xH
  | String c r =>
      if Ascii.eqb c "0" then xO <$> unbits r
      else if Ascii.eqb c "1" then xI <$> unbits r
      else None
  end.

Definition jws_fields (j : Jws)
    : string * (Z * string * option string * string * bool) * Z * Z :=
  (jws_key j,
   (id (jws_payload j), email (jws_payload j), full_name (jws_payload j),
    tier (jws_payload j), is_verified (jws_payload j)),
   jws_iat j, jws_exp j).

Definition jws_of_fields
    (t : string * (Z * string * option string * string * bool) * Z * Z)
    : Jws :=
  let '(k, (i, e, n, ti, v), a, x) := t in
  {| jws_key := k;
     jws_payload := {| id := i; email := e; full_name := n; tier := ti;
                       is_verified := v |};
     jws_iat := a; jws_exp := x |}.

Definition wire_encode (j : Jws) : string := bits (encode (jws_fields j)).

Definition wire_decode (s : string) : option Jws :=
  jws_of_fields <$> (unbits s ≫= decode).

(** A stand-in for bcrypt: the hash of [p] is [p] behind a marker. *)
Definition bcrypt_hash (p salt : string) : string := "$2a$" +:+ p.

Definition bcrypt_compare (p h : string) : bool :=
  String.eqb (bcrypt_hash p EmptyString) h.

(** Case conversion of ASCII letters. *)
Definition upper (c : ascii) : ascii :=
  let n := nat_of_ascii c in
  if (Nat.leb 97 n && Nat.leb n 122)%bool then ascii_of_nat (n - 32) else c.

Definition lower (c : ascii) : ascii :=
  let n := nat_of_ascii c in
  if (Nat.leb 65 n && Nat.leb n 90)%bool then ascii_of_nat (n + 32) else c.

Fixpoint map_string (f : ascii → ascii) (s : string) : string :=
  match s with
  | EmptyString => EmptyString
  | String c r => String (f c) (map_string f r)
  end.

Definition toUpperCase : string → string := map_string upper.
Definition toLowerCase : string → string := map_string lower.

(** An upstream that answers every request with the given status and
    body. *)
Definition upstream (st : Z) (b : Json) (url key : string) : Upstream :=
  {| up_status := st; up_body := b |}.

Definition env (t : Z) : Env :=
  {| NODE_ENV := None; JWT_SECRET_env := Some "s3cret"%string;
     EMAIL_VERIFICATION := None; TWITTER_BEARER_TOKEN := None;
     now := t; salt := "salt"; randomHex := "c0ffee" |}.

Definition user_row (i : Z) (e p : string) (n : option string) : UserRow :=
  {| u_id := i; u_email := e; u_password := bcrypt_hash p EmptyString;
     u_full_name := n; u_country := None; u_avatar_url := None;
     u_tier := None; u_is_verified := Some true;
     u_verification_token := None; u_verification_token_expiry := None;
     u_created_at := 0; u_updated_at := 0 |}.

Definition alice : UserRow :=
  user_row 1 "alice@example.com" "wonderland" (Some "Alice Liddell"%string).

Definition bob : UserRow :=
  user_row 2 "bob@example.com" "builder" (Some "bob the builder"%string).

Definition db : Db :=
  {| users := [alice; bob]; bookmark_categories := [];
     social_profiles := []; fault := None |}.

Definition no_body : Body :=
  {| b_email := None; b_password := None; b_fullName := None;
     b_full_name := None; b_country := None; b_name := None;
     b_icon := None; b_id := None |}.

Definition request : Req :=
  {| session := None; sessionID := None; authorization := None;
     cookie := None; user := None; reqbody := no_body;
     query_username := None |}.

Definition stored_session (u : option Z) : Session :=
  {| uid := u; isTemporary := false; expires := 0; save_fails := false |}.

(** The token the program issues for [u] at instant [t0] under [env]:
    [jwt.sign] of the claims of [u] with a lifetime of 30 days. *)
Definition token (u : UserRow) (t0 : Z) : string :=
  wire_encode {| jws_key := JWT_SECRET (env t0);
                 jws_payload := user_claims u;
                 jws_iat := t0 / 1000;
                 jws_exp := t0 / 1000 + THIRTY_DAYS |}.

Definition with_authorization (r : Req) (h : string) : Req :=
  {| session := session r; sessionID := sessionID r;
     authorization := Some h; cookie := cookie r; user := user r;
     reqbody := reqbody r; query_username := query_username r |}.

Definition with_body (r : Req) (b : Body) : Req :=
  {| session := session r; sessionID := sessionID r;
     authorization := authorization r; cookie := cookie r; user := user r;
     reqbody := b; query_username := query_username r |}.


(** A request with a session that has no user id yet and Bob's token. *)
Definition token_only_request : Req :=
  with_authorization
    (with_session request (Some (stored_session None)))
    ("Bearer " +:+ token bob 0).

Definition login_body (e p : string) : Body :=
  {| b_email := Some e; b_password := Some p; b_fullName := None;
     b_full_name := None; b_country := None; b_name := None;
     b_icon := None; b_id := None |}.

Definition register_body (e p n : string) : Body :=
  {| b_email := Some e; b_password := Some p; b_fullName := Some n;
     b_full_name := None; b_country := None; b_name := None;
     b_icon := None; b_id := None |}.

Definition category_body (i : Js.Id) (n : option string) : Body :=
  {| b_email := None; b_password := None; b_fullName := None;
     b_full_name := None; b_country := None; b_name := n;
     b_icon := None; b_id := Some i |}.

(** A request on which the token middleware has put Bob's identity. *)
Definition bob_request (b : Body) : Req :=
  with_body
    (with_user request
       {| claims := user_claims bob; iat := 0; exp := THIRTY_DAYS |})
    b.


Definition profile_request (username : string) : Req :=
  {| session := None; sessionID := None; authorization := None;
     cookie := None; user := None; reqbody := no_body;
     query_username := Some username |}.

Definition jack_profile : Json :=
  JObj [("id", JStr "12"); ("name", JStr "Jack")]%string.

(** A profile cache whose only entry was written at instant 0. *)
Definition profile_cache : gmap string CacheEntry :=
  {[ "jack"%string := {| data := jack_profile; timestamp := 0 |} ]}.

(** The environment of [env], with a Twitter token. *)
Definition env_with_twitter (t : Z) : Env :=
  {| NODE_ENV := None; JWT_SECRET_env := Some "s3cret"%string;
     EMAIL_VERIFICATION := None;
     TWITTER_BEARER_TOKEN := Some "AAAA"%string;
     now := t; salt := "salt"; randomHex := "c0ffee" |}.

(** A store that has [on] and [connect] and reports itself
    disconnected, and an event loop with nothing pending. *)
Definition store : Store :=
  {| has_on := true; has_connect := true; connected := Some false |}.

Definition idle : Loop := {| clock := 0; timers := []; connects := [] |}.

Definition timeout_error : Err :=
  {| code := Some "ETIMEDOUT"%string; message := "connect ETIMEDOUT";
     statusCode := None |}.

(** The environment of a production deployment with e-mail verification
    switched on. *)
Definition production_env (t : Z) : Env :=
  {| NODE_ENV := Some "production"%string;
     JWT_SECRET_env := Some "s3cret"%string;
     EMAIL_VERIFICATION := Some "true"%string; TWITTER_BEARER_TOKEN := None;
     now := t; salt := "salt"; randomHex := "c0ffee" |}.

(** A user who registered at instant 0 and has not followed the
    verification link yet. *)
Definition carol : UserRow :=
  {| u_id := 3; u_email := "carol@example.com";
     u_password := bcrypt_hash "carroll" EmptyString;
     u_full_name := Some "Carol"%string; u_country := None;
     u_avatar_url := None; u_tier := None; u_is_verified := Some false;
     u_verification_token := Some "c0ffee"%string;
     u_verification_token_expiry := Some 86400000;
     u_created_at := 0; u_updated_at := 0 |}.

(** Bob's category 7 and Alice's category 8. *)
Definition tools : CategoryRow :=
  {| c_id := 7; c_user_id := 2; c_name := "Tools"; c_icon := "wrench";
     c_created_at := 0; c_updated_at := 0 |}.

Definition reading : CategoryRow :=
  {| c_id := 8; c_user_id := 1; c_name := "Reading"; c_icon := "book";
     c_created_at := 0; c_updated_at := 0 |}.

(** [db] with Carol, the two categories and a connected Twitter profile
    that has an API key. *)
Definition full_db : Db :=
  {| users := [alice; bob; carol]; bookmark_categories := [tools; reading];
     social_profiles :=
       [{| s_platform := "twitter"; s_username := "jack";
           s_connected := true; s_api_key := Some "KEY"%string |}];
     fault := None |}.

Definition account_body (n : string) : Body :=
  {| b_email := None; b_password := None; b_fullName := None;
     b_full_name := Some n; b_country := None; b_name := None;
     b_icon := None; b_id := None |}.

Definition bad_session_error : Err :=
  {| code := Some "EBADSESSION"%string; message := "bad session";
     statusCode := None |}.

(** A store without a [connect] method. *)
Definition memory_store : Store :=
  {| has_on := true; has_connect := false; connected := None |}.

(** A stand-in for express-session: the session of Alice for the request
    that carries her session cookie, a new session for any other. *)
Definition express_session (db : Db) (r : Req) : Result :=
  next (with_session r
          (Some (match cookie r with
                 | Some "deuss.sid=alice-session"%string =>
                     stored_session (Some 1)
                 | _ => stored_session None
                 end)))
    db [].


End Sample.

(** ** The handlers

    The libraries the handlers call are parameters: [bcrypt], the two case
    conversions of JavaScript strings, the serialisation of a signed token,
    the Twitter API reached through [fetch], and the middleware that
    express-session builds. *)

Section Backend.

Variable bcrypt_compare : string → string → bool.
Variable bcrypt_hash : string → string → string.
Variable toUpperCase : string → string.
Variable toLowerCase : string → string.
Variable wire_encode : Jws → string.
Variable wire_decode : string → option Jws.
Variable twitter_api : string → string → Upstream.

(** [session(sessionConfig)] (line 275): the middleware of express-session,
    which loads the session that the request's [deuss.sid] cookie refers
    to into [req.session]. *)
Variable express_session : Db → Req → Result.

(** A serialised token parses back to itself. Only the round-trip
    property of the codec depends on it. *)
Hypothesis wire_roundtrip : ∀ j : Jws, wire_decode (wire_encode j) = Some j.

(** Modelled from the spec: the Credential Codec, that is [jwt.sign] of
    the jsonwebtoken package, whose code is not part of [src/]. "issue
    serializes identity claims plus expiry, signs with a process-wide
    secret"; the expiry is the issue time plus the lifetime, in whole
    seconds. The signature is symbolic: a token records the key it was
    signed with. *)
Definition jwt_sign (payload : Claims) (secret : string) (expiresIn : Z)
    (t : Z) : string :=
  wire_encode {| jws_key := secret; jws_payload := payload;
                 jws_iat := t / 1000;
                 jws_exp := t / 1000 + expiresIn |}.

(** Modelled from the spec: the Credential Codec, that is [jwt.verify] of
    the jsonwebtoken package, whose code is not part of [src/]. "verify
    checks signature integrity and expiry. Fails with ExpiredToken or
    MalformedToken; does not distinguish tampering from corruption". A
    token is expired from its expiry second on. The [inl] results are
    the exceptions [jwt.verify] throws. *)
Definition jwt_verify (token secret : string) (t : Z) : JwtError + Decoded :=
  match wire_decode token with
  | None => inl MalformedToken
  | Some j =>
      if String.eqb (jws_key j) secret then
        if jws_exp j <=? t / 1000 then inl ExpiredToken
        else inr {| claims := jws_payload j; iat := jws_iat j;
                    exp := jws_exp j |}
      else inl MalformedToken
  end.

(** The instant, in milliseconds, at which a token issued at [t0] with a
    lifetime of [ttl] seconds expires. *)
Definition expiry_instant (t0 ttl : Z) : Z := (t0 / 1000 + ttl) * 1000.

(** The specification's wording for initials, "the first character of
    each space-separated word", read off in one pass over the name.
    [at_start] tells whether the next character begins a word. *)
Fixpoint first_letters (at_start : bool) (s : string) : string :=
  match s with
  | EmptyString => EmptyString
  | String c r =>
      if Ascii.eqb c " " then first_letters true r
      else if at_start then String c (first_letters false r)
      else first_letters false r
  end.

(** Lines 819-826. *)
Definition getInitials (name : option string) : string :=
  match name with
  | None => EmptyString
  | Some s =>
      if Js.truthy_str s
      then toUpperCase (Js.join (Js.charAt0 <$> Js.split " " s))
      else EmptyString
  end.

(** [jwt.verify] inside a [try], followed by [decoded && decoded.id]:
    [None] when verification throws or the id is falsy. *)
Definition verified (env : Env) (token : string) : option Decoded :=
  match jwt_verify token (JWT_SECRET env) (now env) with
  | inr d => if Js.truthy_num (id (claims d)) then Some d else None
  | inl _ => None
  end.

(** Lines 429-447 and 467-485: the token's identity is put on the
    request, and written into a session that has no user id yet. *)
Definition adopt (d : Decoded) (r : Req) (db : Db) : Result :=
  let r1 := with_user r d in
  match session r1 with
  | None => next r1 db []
  | Some s =>
      if Js.truthy_opt Js.truthy_num (uid s) then next r1 db []
      else next (with_session r1 (Some (set_uid s (id (claims d))))) db
             [ESessionSave]
  end.

Definition authentication_required : Json :=
  JObj [("error", JStr "Authentication required");
        ("details", JStr "No valid session or token found")]%string.

(** The local variable [userId] of [loginRequired] when it returns: the
    identity the middleware resolved, [None] being [null]. *)
Definition loginRequired_userId (env : Env) (r : Req) : option Z :=
  if has_uid r then session_uid r
  else
    match bearer_token r ≫= verified env with
    | Some d => Some (id (claims d))
    | None =>
        match cookie_token r ≫= verified env with
        | Some d => Some (id (claims d))
        | None => None
        end
    end.

(** The middleware of lines 410-499. *)
Definition loginRequired (env : Env) (db : Db) (r : Req) : Result :=
  if has_uid r then next r db []
  else
    match bearer_token r ≫= verified env with
    | Some d => adopt d r db
    | None =>
        match cookie_token r ≫= verified env with
        | Some d => adopt d r db
        | None => reply 401 authentication_required r db []
        end
    end.

(** The user object of the login response (lines 746-756). *)
Definition formattedUser (u : UserRow) : Json :=
  JObj [("id", JNum (u_id u));
        ("email", JStr (u_email u));
        ("full_name", json_opt_str (u_full_name u));
        ("avatar_url", json_opt_str (u_avatar_url u));
        ("tier", JStr (Js.or_str (u_tier u) "basic"));
        ("is_verified", JBool (Js.or_false (u_is_verified u)));
        ("created_at", JNum (u_created_at u));
        ("updated_at", JNum (u_updated_at u));
        ("initials", JStr (getInitials (u_full_name u)))]%string.

Definition invalid_credentials : Json :=
  JObj [("success", JBool false);
        ("message", JStr "Invalid credentials")]%string.

Definition login_failed (e : Err) : Json :=
  JObj [("success", JBool false);
        ("message", JStr "Failed to login");
        ("error", JStr (message e))]%string.

(** Lines 730-807: the token, the session and the response of a
    successful login. An undefined [req.sessionID] is rendered as
    [null]. *)
Definition login_success (env : Env) (db : Db) (r : Req) (u : UserRow)
    (es : list Effect) : Result :=
  let token := jwt_sign (user_claims u) (JWT_SECRET env) THIRTY_DAYS (now env) in
  let '(r', sessionStatus, sid, ses) :=
    match session r with
    | None => (r, "unavailable"%string, None, [])
    | Some s =>
        let s' := set_uid s (u_id u) in
        let st := if bool_decide (uid s' = Some (u_id u))
                  then "active"%string else "non-functional"%string in
        (with_session r (Some s'),
         if save_fails s' then "error-saving"%string else st,
         sessionID r, [ESessionSave])
    end in
  {| response :=
       Some (res_json
         (JObj [("success", JBool true);
                ("message", JStr "Logged in successfully");
                ("user", formattedUser u);
                ("token", JStr token);
                ("sessionStatus", JStr sessionStatus);
                ("sessionID", json_opt_str sid)]%string));
     req_after := r';
     db_after := db;
     effects := es ++ [EJwtSign (user_claims u) THIRTY_DAYS] ++ ses
                   ++ [ESetCookie (jwt_cookie env token)] |}.

Definition ONE_DAY_MS : Z := 24 * 60 * 60 * 1000.

(** [!user.verification_token || new Date() >
    new Date(user.verification_token_expiry)] (line 702). *)
Definition needs_new_verification (env : Env) (u : UserRow) : bool :=
  (negb (Js.truthy_opt Js.truthy_str (u_verification_token u))
   || (default 0 (u_verification_token_expiry u) <? now env))%bool.

(** [POST /api/auth/login] (lines 664-816). *)
Definition login (env : Env) (db : Db) (r : Req) : Result :=
  match b_email (reqbody r), b_password (reqbody r) with
  | Some e, Some p =>
      if (Js.truthy_str e && Js.truthy_str p)%bool then
        let q := [EQuery (SelectUserByEmail e)] in
        match select_users_by_email db e with
        | inl err => reply 500 (login_failed err) r db q
        | inr [] => reply 401 invalid_credentials r db q
        | inr (u :: _) =>
            if negb (bcrypt_compare p (u_password u)) then
              reply 401 invalid_credentials r db q
            else if (email_verification_on env
                     && negb (Js.or_false (u_is_verified u)))%bool then
              let needs := JObj [("success", JBool false);
                                 ("message", JStr "Please verify your email before logging in");
                                 ("needsVerification", JBool true)]%string in
              if needs_new_verification env u then
                let q' := q ++ [EQuery (UpdateUserVerification (u_id u))] in
                match update_user_verification db (randomHex env)
                        (now env + ONE_DAY_MS) (u_id u) (now env) with
                | inl err => reply 500 (login_failed err) r db q'
                | inr db' =>
                    reply 403 needs r db'
                      (q' ++ [EMail (u_email u) (randomHex env)])
                end
              else reply 403 needs r db q
            else login_success env db r u q
        end
      else reply 400 (JObj [("success", JBool false);
                            ("message", JStr "Email and password are required")]%string)
             r db []
  | _, _ => reply 400 (JObj [("success", JBool false);
                             ("message", JStr "Email and password are required")]%string)
              r db []
  end.

Definition error_json (msg : string) : Json :=
  JObj [("error", JStr msg)]%string.

(** [POST /api/auth/register] (lines 557-616). *)
Definition register (env : Env) (db : Db) (r : Req) : Result :=
  match b_email (reqbody r), b_password (reqbody r), b_fullName (reqbody r) with
  | Some e, Some p, Some n =>
      if (Js.truthy_str e && Js.truthy_str p && Js.truthy_str n)%bool then
        let q := [EQuery (SelectUserByEmail e)] in
        match select_users_by_email db e with
        | inl _ => reply 500 (error_json "Failed to register user") r db q
        | inr (_ :: _) => reply 400 (error_json "User already exists") r db q
        | inr [] =>
            let hashed := bcrypt_hash p (salt env) in
            let q' := q ++ [EQuery (InsertUser e)] in
            match insert_user db e hashed n (randomHex env)
                    (now env + ONE_DAY_MS) (now env) with
            | inl _ => reply 500 (error_json "Failed to register user") r db q'
            | inr (row, db') =>
                reply 201
                  (JObj [("message", JStr "User registered successfully. Please check your email to verify your account.");
                         ("user", JObj [("id", JNum (u_id row));
                                        ("email", JStr (u_email row));
                                        ("fullName", json_opt_str (u_full_name row));
                                        ("is_verified", JBool (Js.or_false (u_is_verified row)))])]%string)
                  r db'
                  (q' ++ if email_verification_on env
                         then [EMail e (randomHex env)] else [])
            end
        end
      else reply 400 (error_json "All fields are required") r db []
  | _, _, _ => reply 400 (error_json "All fields are required") r db []
  end.

(** The user object of the session-check response (lines 1455-1463). *)
Definition session_user (u : UserRow) : Json :=
  JObj [("id", JNum (u_id u));
        ("email", JStr (u_email u));
        ("full_name", json_opt_str (u_full_name u));
        ("avatar_url", json_opt_str (u_avatar_url u));
        ("tier", JStr (Js.or_str (u_tier u) "basic"));
        ("is_verified", JBool (Js.or_false (u_is_verified u)));
        ("initials", JStr (getInitials (u_full_name u)))]%string.

(** Lines 1355-1379: the id of a verified bearer token, if any. *)
Definition token_user_id (env : Env) (r : Req) : option Z :=
  id ∘ claims <$> (bearer_token r ≫= verified env).

(** Lines 1381-1386: [userId = userId || req.session.uid] once the
    session has a user id. *)
Definition resolved_user_id (env : Env) (r : Req) : option Z :=
  if has_uid r then
    match token_user_id env r with
    | Some i => Some i
    | None => session_uid r
    end
  else token_user_id env r.

(** Lines 1430-1443: the session is touched, and receives the user id
    when it has none. *)
Definition refresh_session (env : Env) (r : Req) (userId : Z)
    : Req * list Effect :=
  match session r with
  | None => (r, [])
  | Some s =>
      let s1 := touch (now env) s in
      if (negb (has_uid r)
          && negb (Js.truthy_opt Js.truthy_num (uid s1)))%bool
      then (with_session r (Some (set_uid s1 userId)),
            [ESessionTouch; ESessionSave])
      else (with_session r (Some s1), [ESessionTouch])
  end.

(** [GET /api/auth/session] (lines 1353-1469). *)
Definition auth_session (env : Env) (db : Db) (r : Req) : Result :=
  match resolved_user_id env r with
  | None =>
      reply 401
        (JObj [("isValid", JBool false);
               ("error", JStr "No valid authentication found");
               ("sessionExists", JBool (bool_decide (is_Some (session r))))]%string)
        r db []
  | Some userId =>
      let q := [EQuery (SelectUserById userId)] in
      match select_users_by_id db userId with
      | inl _ => reply 500 (JObj [("isValid", JBool false)]%string) r db q
      | inr [] =>
          let gone := JObj [("isValid", JBool false);
                            ("error", JStr "User not found in database")]%string in
          match session r with
          | Some s => reply 404 gone (with_session r (destroy_session s)) db
                        (q ++ [ESessionDestroy])
          | None => reply 404 gone r db q
          end
      | inr (u :: _) =>
          let newToken :=
            jwt_sign (user_claims u) (JWT_SECRET env) THIRTY_DAYS (now env) in
          let '(r', ses) := refresh_session env r userId in
          {| response :=
               Some (res_json
                 (JObj [("isValid", JBool true);
                        ("sessionValid", JBool (has_uid r));
                        ("sessionID", json_opt_str
                           (match sessionID r with
                            | Some i => if Js.truthy_str i then Some i else None
                            | None => None
                            end));
                        ("token", JStr newToken);
                        ("user", session_user u)]%string));
             req_after := r';
             db_after := db;
             effects := q ++ [EJwtSign (user_claims u) THIRTY_DAYS] ++ ses
                          ++ [ESetCookie (jwt_cookie env newToken)] |}
      end
  end.

(** The user object of the account response (lines 1275-1284). *)
Definition account_user (u : UserRow) : Json :=
  JObj [("id", JNum (u_id u));
        ("email", JStr (u_email u));
        ("full_name", json_opt_str (u_full_name u));
        ("country", json_opt_str (u_country u));
        ("avatar_url", json_opt_str (u_avatar_url u));
        ("tier", JStr (Js.or_str (u_tier u) "basic"));
        ("is_verified", JBool (Js.or_false (u_is_verified u)));
        ("initials", JStr (getInitials (u_full_name u)))]%string.

(** A user object whose [initials] field is [getInitials] of the
    [full_name] it carries. *)
Definition reports_initials (uj : Json) : Prop :=
  ∃ name : option string,
    json_get "full_name" uj = Some (json_opt_str name)
    ∧ json_get "initials" uj = Some (JStr (getInitials name)).

(** [req.user?.id], when truthy. *)
Definition req_user_id (r : Req) : option Z :=
  match user r with
  | Some d => if Js.truthy_num (id (claims d)) then Some (id (claims d)) else None
  | None => None
  end.

(** The handler of [POST /api/account] (lines 1234-1294). *)
Definition account_handler (env : Env) (db : Db) (r : Req) : Result :=
  match (if has_uid r then session_uid r else req_user_id r) with
  | None => reply 401 (error_json "Authentication required") r db []
  | Some userId =>
      match b_full_name (reqbody r) with
      | Some n =>
          if Js.truthy_str n then
            let country :=
              match b_country (reqbody r) with
              | Some c => if Js.truthy_str c then Some c else None
              | None => None
              end in
            let q := [EQuery (UpdateUserProfile userId)] in
            match update_user_profile db n country userId (now env) with
            | inl err =>
                reply 500 (JObj [("success", JBool false);
                                 ("error", JStr "Failed to update profile");
                                 ("message", JStr (message err))]%string)
                  r db q
            | inr ([], db') => reply 404 (error_json "User not found") r db' q
            | inr (u :: _, db') =>
                reply 200 (JObj [("success", JBool true);
                                 ("message", JStr "Profile updated successfully");
                                 ("user", account_user u)]%string)
                  r db' q
            end
          else reply 400 (error_json "Full name is required") r db []
      | None => reply 400 (error_json "Full name is required") r db []
      end
  end.

Definition account (env : Env) : Db → Req → Result :=
  guarded (loginRequired env) (account_handler env).

(** Lines 1082-1090, 1117-1125 and 1153-1161: a new category row for the
    user. *)
Definition create_category (env : Env) (db : Db) (r : Req) (userId : Z)
    (name : string) : Result :=
  let icon := Js.or_str (b_icon (reqbody r)) "wrench" in
  let q := [EQuery (InsertCategory userId name icon)] in
  match insert_category db userId name icon (now env) with
  | inl _ => reply 500 (error_json "Server error") r db q
  | inr (row, db') =>
      reply 201 (JObj [("message", JStr "Category created successfully");
                       ("category", category_json row)]%string)
        r db' q
  end.

(** Lines 1092-1112 and 1164-1183: the category is looked up, then
    updated. *)
Definition modify_category (env : Env) (db : Db) (r : Req) (userId : Z)
    (i : Js.Id) (name not_found : string) : Result :=
  let icon := Js.or_str (b_icon (reqbody r)) "wrench" in
  let q := [EQuery (SelectCategory i userId)] in
  match select_category db i userId with
  | inl _ => reply 500 (error_json "Server error") r db q
  | inr [] => reply 404 (error_json not_found) r db q
  | inr (_ :: _) =>
      let q' := q ++ [EQuery (UpdateCategory i userId name icon)] in
      match update_category db i userId name icon (now env) with
      | inl _ => reply 500 (error_json "Server error") r db q'
      | inr (rows, db') =>
          reply 200 (JObj [("message", JStr "Category updated successfully");
                           ("category", first_category_json rows)]%string)
            r db' q'
      end
  end.

(** [String(id).length > 10]. *)
Definition is_temporary_id (i : Js.Id) : bool :=
  (10 <? String.length (Js.String_ i))%nat.

(** The handler of [POST /api/bookmarks/category] (lines 1063-1130). *)
Definition category_post_handler (env : Env) (db : Db) (r : Req) : Result :=
  match req_user_id r with
  | None => reply 401 (error_json "Authentication required") r db []
  | Some userId =>
      match b_name (reqbody r) with
      | Some name =>
          if Js.truthy_str name then
            match b_id (reqbody r) with
            | Some i =>
                if Js.truthy_id i then
                  if is_temporary_id i
                  then create_category env db r userId name
                  else modify_category env db r userId i name
                         "Category not found"
                else create_category env db r userId name
            | None => create_category env db r userId name
            end
          else reply 400 (error_json "Category name is required") r db []
      | None => reply 400 (error_json "Category name is required") r db []
      end
  end.

(** The handler of [PUT /api/bookmarks/category] (lines 1133-1188). *)
Definition category_put_handler (env : Env) (db : Db) (r : Req) : Result :=
  match req_user_id r with
  | None => reply 401 (error_json "Authentication required") r db []
  | Some userId =>
      match b_id (reqbody r) with
      | Some i =>
          if Js.truthy_id i then
            match b_name (reqbody r) with
            | Some name =>
                if Js.truthy_str name then
                  if is_temporary_id i
                  then create_category env db r userId name
                  else modify_category env db r userId i name
                         "Category not found or does not belong to you"
                else reply 400 (error_json "Category name is required") r db []
            | None => reply 400 (error_json "Category name is required") r db []
            end
          else reply 400 (error_json "Category ID is required") r db []
      | None => reply 400 (error_json "Category ID is required") r db []
      end
  end.

Definition category_post (env : Env) : Db → Req → Result :=
  guarded (loginRequired env) (category_post_handler env).

Definition category_put (env : Env) : Db → Req → Result :=
  guarded (loginRequired env) (category_put_handler env).

(** [getTwitterApiKey] (lines 2208-2236), with the query it issues. *)
Definition getTwitterApiKey (env : Env) (db : Db) (username : string)
    : option string * list Effect :=
  let trimmed := Js.trim username in
  let cleanUsername :=
    if Js.startsWith trimmed "@" then Js.substring_from 1 trimmed
    else trimmed in
  let q := [EQuery (SelectApiKey cleanUsername)] in
  match select_api_key db cleanUsername with
  | inl _ => (None, q)
  | inr rows =>
      match rows with
      | Some k :: _ =>
          if Js.truthy_str k then (Some k, q)
          else (match TWITTER_BEARER_TOKEN env with
                | Some t => if Js.truthy_str t then Some t else None
                | None => None
                end, q)
      | _ => (match TWITTER_BEARER_TOKEN env with
              | Some t => if Js.truthy_str t then Some t else None
              | None => None
              end, q)
      end
  end.

Definition profile_url (username : string) : string :=
  "https://api.twitter.com/2/users/by/username/" +:+ username
    +:+ "?user.fields=description,profile_image_url,public_metrics,verified".

Definition tw_reply (st : Z) (b : Json) (cache : gmap string CacheEntry)
    (es : list Effect) : TwResult :=
  {| tw_response := {| status := st; body := b |};
     tw_cache := cache; tw_effects := es |}.

(** [cachedProfile && cachedProfile.timestamp > Date.now() -
    PROFILE_CACHE_TTL] (line 2281). *)
Definition fresh (env : Env) (c : CacheEntry) : bool :=
  now env - PROFILE_CACHE_TTL <? timestamp c.

(** Lines 2285-2345: the API key is looked up, the profile fetched and
    the answer cached. [cachedProfile] is the entry read at line 2280,
    whatever its age. *)
Definition twitter_refetch (env : Env) (db : Db)
    (cache : gmap string CacheEntry) (username cacheKey : string)
    (cachedProfile : option CacheEntry) : TwResult :=
  match getTwitterApiKey env db username with
  | (None, es) =>
      tw_reply 404 (error_json "Twitter API key not found for this user")
        cache es
  | (Some apiKey, es) =>
      let twitterResponse := twitter_api (profile_url username) apiKey in
      let es' := es ++ [EFetch (profile_url username) apiKey] in
      if up_status twitterResponse =? 401 then
        tw_reply 401
          (JObj [("error", JStr "Invalid Twitter credentials");
                 ("message", JStr "The Twitter API key is invalid or expired.")]%string)
          cache es'
      else if up_status twitterResponse =? 429 then
        match cachedProfile with
        | Some c => tw_reply 200 (data c) cache es'
        | None =>
            tw_reply 429
              (JObj [("error", JStr "Twitter API rate limit exceeded");
                     ("message", JStr "Please try again later.")]%string)
              cache es'
        end
      else if up_status twitterResponse =? 404 then
        tw_reply 404
          (JObj [("error", JStr "Twitter user not found");
                 ("message", JStr ("No Twitter profile found for username: "
                                     +:+ username))]%string)
          cache es'
      else if negb (up_ok twitterResponse) then
        tw_reply (up_status twitterResponse)
          (JObj [("error", JStr "Twitter API error");
                 ("message",
                  json_get_or "detail" (up_body twitterResponse)
                    (JStr "An error occurred while fetching Twitter data"))]%string)
          cache es'
      else
        let twitterData := default JNull (json_get "data" (up_body twitterResponse)) in
        tw_reply 200 twitterData
          (<[cacheKey := {| data := twitterData; timestamp := now env |}]> cache)
          es'
  end.

(** [GET /api/twitter-profile] (lines 2271-2350). *)
Definition twitter_profile (env : Env) (db : Db)
    (cache : gmap string CacheEntry) (r : Req) : TwResult :=
  match query_username r with
  | None => tw_reply 400 (error_json "Missing username parameter") cache []
  | Some username =>
      if negb (Js.truthy_str username)
      then tw_reply 400 (error_json "Missing username parameter") cache []
      else
        let cacheKey := toLowerCase username in
        let cachedProfile := cache !! cacheKey in
        match cachedProfile with
        | Some c =>
            if fresh env c then tw_reply 200 (data c) cache []
            else twitter_refetch env db cache username cacheKey cachedProfile
        | None => twitter_refetch env db cache username cacheKey cachedProfile
        end
  end.

(** The body of a successful session check (lines 1450-1464). *)
Definition session_check_body (env : Env) (r : Req) (u : UserRow) : Json :=
  JObj [("isValid", JBool true);
        ("sessionValid", JBool (has_uid r));
        ("sessionID", json_opt_str
           (match sessionID r with
            | Some i => if Js.truthy_str i then Some i else None
            | None => None
            end));
        ("token", JStr (jwt_sign (user_claims u) (JWT_SECRET env)
                          THIRTY_DAYS (now env)));
        ("user", session_user u)]%string.

(** The body of the 503 answer (lines 2537-2540). *)
Definition service_unavailable : Response :=
  {| status := 503;
     body := JObj [("error", JStr "Database service temporarily unavailable");
                   ("status", JStr "error")]%string |}.

(** A response of status [st] whose body has [isValid: false]. *)
Definition is_invalid (res : Result) (st : Z) : Prop :=
  ∃ b, response res = Some {| status := st; body := b |}
       ∧ json_get "isValid" b = Some (JBool false).

(** [n] minutes, in milliseconds. *)
Definition minutes (n : Z) : Z := n * 60 * 1000.


(** ** The token middlewares (lines 279-316 and 357-371) *)

(** The middleware of lines 279-316: a request that comes without a
    session receives the temporary placeholder; a bearer token that
    verifies is put on the request and its id into the placeholder. The
    middleware always calls [next()]. *)
Definition session_fallback (env : Env) (r : Req) : Req :=
  match session r with
  | Some _ => r
  | None =>
      let r1 := with_session r (Some temporary_session) in
      match bearer_token r with
      | Some token =>
          match jwt_verify token (JWT_SECRET env) (now env) with
          | inr decoded =>
              with_session (with_user r1 decoded)
                (Some (set_uid temporary_session (id (claims decoded))))
          | inl _ => r1
          end
      | None => r1
      end
  end.

(** The middleware of lines 357-371: without a user id in the session, a
    bearer token that verifies is put on the request. It always calls
    [next()]. *)
Definition jwt_fallback (env : Env) (r : Req) : Req :=
  if has_uid r then r
  else
    match bearer_token r with
    | Some token =>
        match jwt_verify token (JWT_SECRET env) (now env) with
        | inr decoded => with_user r decoded
        | inl _ => r
        end
    | None => r
    end.

(** ** Email verification (lines 619-662) *)

(** [SELECT id, email, verification_token_expiry FROM deuss.users WHERE
    verification_token = $1 AND is_verified = false]. *)
Definition select_unverified_by_token (db : Db) (token : string)
    : Err + list UserRow :=
  pool_query db
    (filter (λ u, u_verification_token u = Some token
                  ∧ u_is_verified u = Some false) (users db)).

Definition set_verified (t : Z) (u : UserRow) : UserRow :=
  {| u_id := u_id u; u_email := u_email u; u_password := u_password u;
     u_full_name := u_full_name u; u_country := u_country u;
     u_avatar_url := u_avatar_url u; u_tier := u_tier u;
     u_is_verified := Some true;
     u_verification_token := None;
     u_verification_token_expiry := None;
     u_created_at := u_created_at u; u_updated_at := t |}.

(** [UPDATE deuss.users SET is_verified = true, verification_token = NULL,
    verification_token_expiry = NULL, updated_at = NOW() WHERE id = $1]. *)
Definition mark_verified (db : Db) (i t : Z) : Err + Db :=
  pool_query db
    (map_users (λ u, if decide (u_id u = i) then set_verified t u else u) db).

(** [GET /api/auth/verify-email], given [req.query.token]: the response
    and the database afterwards. *)
Definition verify_email (env : Env) (db : Db) (token : option string)
    : Response * Db :=
  match token with
  | Some tok =>
      if Js.truthy_str tok then
        match select_unverified_by_token db tok with
        | inl _ => ({| status := 500;
                       body := error_json "Failed to verify email" |}, db)
        | inr [] =>
            ({| status := 400;
                body := error_json "Invalid or expired verification token" |},
             db)
        | inr (u :: _) =>
            if default 0 (u_verification_token_expiry u) <? now env then
              ({| status := 400;
                  body := error_json "Verification token has expired" |}, db)
            else
              match mark_verified db (u_id u) (now env) with
              | inl _ => ({| status := 500;
                             body := error_json "Failed to verify email" |}, db)
              | inr db' =>
                  (res_json (JObj [("message",
                                    JStr "Email verified successfully")]%string),
                   db')
              end
        end
      else ({| status := 400;
               body := error_json "Verification token is required" |}, db)
  | None => ({| status := 400;
                body := error_json "Verification token is required" |}, db)
  end.

(** [process.env.TWITTER_BEARER_TOKEN], when it is set and not empty
    (lines 2227-2229). *)
Definition env_token (env : Env) : option string :=
  match TWITTER_BEARER_TOKEN env with
  | Some t => if Js.truthy_str t then Some t else None
  | None => None
  end.

(** ** Logout (lines 828-841) *)

(** The handler of [POST /api/auth/logout]. [destroy_fails] tells whether
    the store reports an error to the callback of [req.session.destroy];
    the placeholder's [destroy] never does. *)
Definition logout_handler (destroy_fails : bool) (db : Db) (r : Req)
    : Result :=
  match session r with
  | None =>
      reply 200 (JObj [("message",
                        JStr "Session already destroyed or invalid")]%string)
        r db []
  | Some s =>
      if (destroy_fails && negb (isTemporary s))%bool then
        reply 500 (error_json "Could not logout")
          (with_session r (destroy_session s)) db [ESessionDestroy]
      else
        reply 200 (JObj [("message", JStr "Logged out successfully")]%string)
          (with_session r (destroy_session s)) db [ESessionDestroy]
  end.

Definition logout (env : Env) (destroy_fails : bool) : Db → Req → Result :=
  guarded (loginRequired env) (logout_handler destroy_fails).

(** ** The layers of the application *)

(** The layers that a request meets when [route] is the one route of the
    file that matches it, in the order in which they are registered.
    While the file is loaded it registers the middleware of line 396, the
    routes, the global error handler (line 2511), the 404 handler (line
    2561) and the middleware of line 2574. The [app.use] calls of lines
    275-371 stand in the asynchronous initialiser behind its [await]
    (line 226), so they run once loading is over: express-session, the
    placeholder-session middleware, the session error middleware and the
    token middleware are registered last. The request is taken as it is
    after body parsing and the CORS check (lines 144-183). *)
Definition app (env : Env) (route : list (Db → Req → Result)) : list Layer :=
  [Use pass;
   Route route;
   UseError (λ e r, (global_error_handler env e, r));
   Use not_found;
   Use pass;
   Use express_session;
   Use (λ db r, next (session_fallback env r) db []);
   UseError session_error_handler;
   Use (λ db r, next (jwt_fallback env r) db [])].

(** What the application answers to a request that matches [route]. *)
Definition serve (env : Env) (route : list (Db → Req → Result)) (db : Db)
    (r : Req) : Result :=
  dispatch (app env route) None db r [].

(** ** Properties *)

(** Closes a goal [x ∉ l] for a list [l] given by its elements, none of
    which is built with the constructor of [x]. *)
Ltac absent :=
  repeat (apply not_elem_of_cons; split; [discriminate|]);
  apply not_elem_of_nil.

(** *** Strings *)

Lemma substring_all (s : string) : String.substring 0 (String.length s) s = s.
Proof. induction s as [|c s IH]; simpl; [reflexivity | now rewrite IH]. Qed.

Lemma bearer_token_of_header (r : Req) (token : string) :
  authorization r = Some ("Bearer " +:+ token) →
  bearer_token r = Some token.
Proof.
  intros H. unfold bearer_token. rewrite H.
  unfold Js.startsWith, Js.substring_from. simpl.
  rewrite Nat.sub_0_r.
  repeat (destruct (ascii_dec _ _) as [_|ne]; [|now destruct ne]).
  destruct token; simpl; [reflexivity|].
  now rewrite substring_all.
Qed.

Lemma truthy_str_true (s : string) : Js.truthy_str s = true ↔ s ≠ EmptyString.
Proof.
  unfold Js.truthy_str. destruct (String.eqb_spec s "") as [->|ne]; simpl.
  - split; [discriminate | intros H; now destruct H].
  - split; [intros _; exact ne | reflexivity].
Qed.

Lemma truthy_num_true (n : Z) : Js.truthy_num n = true ↔ n ≠ 0.
Proof.
  unfold Js.truthy_num. destruct (Z.eqb_spec n 0) as [->|ne]; simpl.
  - split; [discriminate | intros H; now destruct H].
  - split; [intros _; exact ne | reflexivity].
Qed.

(** [split] followed by [charAt(0)] and [join] is the one-pass reading
    of the initials; the second component covers the words after the
    first one. *)
Lemma split_first_letters (s : string) :
  Js.join (Js.charAt0 <$> Js.split " " s) = first_letters true s
  ∧ Js.join (Js.charAt0 <$> tail (Js.split " " s)) = first_letters false s.
Proof.
  induction s as [|c s [IH1 IH2]]; [now split|].
  cbn [Js.split first_letters].
  destruct (Ascii.eqb c " ").
  - cbn. now split.
  - destruct (Js.split " " s) as [|w ws] eqn:E.
    + cbn in *. rewrite <- IH2. now split.
    + cbn in *. rewrite <- IH2. now split.
Qed.

(** *** Initials *)

Lemma getInitials_cases (name : option string) :
  getInitials name =
    match name with
    | None => EmptyString
    | Some EmptyString => EmptyString
    | Some s => toUpperCase (first_letters true s)
    end.
Proof.
  destruct name as [[|c s]|]; try reflexivity.
  unfold getInitials. cbn [Js.truthy_str String.eqb negb].
  now rewrite (proj1 (split_first_letters (String c s))).
Qed.

(** The user object [uj] reports a full name and the initials computed
    from that name. *)
Lemma formattedUser_initials (u : UserRow) :
  reports_initials (formattedUser u).
Proof. exists (u_full_name u). now split. Qed.

Lemma session_user_initials (u : UserRow) :
  reports_initials (session_user u).
Proof. exists (u_full_name u). now split. Qed.

Lemma account_user_initials (u : UserRow) :
  reports_initials (account_user u).
Proof. exists (u_full_name u). now split. Qed.

Lemma login_user_object env db r resp uj :
  response (login env db r) = Some resp →
  json_get "user" (body resp) = Some uj →
  reports_initials uj.
Proof.
  unfold login. intros H Hu.
  destruct (b_email (reqbody r)) as [e|]; [|simplify_eq/=].
  destruct (b_password (reqbody r)) as [p|]; [|simplify_eq/=].
  destruct (Js.truthy_str e && Js.truthy_str p)%bool; [|simplify_eq/=].
  destruct (select_users_by_email db e) as [err|[|u rest]];
    [simplify_eq/= | simplify_eq/= |].
  destruct (negb (bcrypt_compare p (u_password u))); [simplify_eq/=|].
  destruct (email_verification_on env && negb (Js.or_false (u_is_verified u)))%bool.
  - destruct (needs_new_verification env u); [|simplify_eq/=].
    destruct (update_user_verification _ _ _ _ _); simplify_eq/=.
  - unfold login_success in H.
    destruct (session r); simplify_eq/=; apply formattedUser_initials.
Qed.

Lemma auth_session_user_object env db r resp uj :
  response (auth_session env db r) = Some resp →
  json_get "user" (body resp) = Some uj →
  reports_initials uj.
Proof.
  unfold auth_session. intros H Hu.
  destruct (resolved_user_id env r) as [i|]; [|simplify_eq/=].
  destruct (select_users_by_id db i) as [err|[|u rest]];
    [simplify_eq/= | destruct (session r); simplify_eq/= |].
  destruct (refresh_session env r i). simplify_eq/=.
  apply session_user_initials.
Qed.

Lemma account_user_object env db r resp uj :
  response (account_handler env db r) = Some resp →
  json_get "user" (body resp) = Some uj →
  reports_initials uj.
Proof.
  unfold account_handler. intros H Hu.
  destruct (if has_uid r then session_uid r else req_user_id r) as [i|];
    [|simplify_eq/=].
  destruct (b_full_name (reqbody r)) as [n|]; [|simplify_eq/=].
  destruct (Js.truthy_str n); [|simplify_eq/=].
  destruct (update_user_profile _ _ _ _ _) as [err|[[|u rest] db']];
    simplify_eq/=.
  apply account_user_initials.
Qed.

(** *** Failure classification *)

(** C7. An error whose code is ETIMEDOUT, ECONNREFUSED or ENOTFOUND is
    answered by a 503 whose body says that the database service is
    temporarily unavailable. The handler replies instead of calling
    [next], so nothing of the request runs again, and the request object
    is left as it was. *)
Theorem transient_error_is_503 (env : Env) (e : Err) (r : Req) (c : string) :
  code e = Some c →
  c ∈ ["ETIMEDOUT"; "ECONNREFUSED"; "ENOTFOUND"]%string →
  global_error_handler env e = Reply service_unavailable
  ∧ classify env e r = (Reply service_unavailable, r).
Proof.
  intros Hc Hin.
  assert (c = "ETIMEDOUT" ∨ c = "ECONNREFUSED" ∨ c = "ENOTFOUND")%string
    as Hcases.
  { apply elem_of_cons in Hin as [?|Hin]; [now left|].
    apply elem_of_cons in Hin as [?|Hin]; [now right; left|].
    apply list_elem_of_singleton in Hin. now right; right. }
  unfold classify, session_error_handler, global_error_handler, code_is.
  rewrite Hc.
  destruct Hcases as [ -> | [ -> | -> ] ]; split; cbn; rewrite ?Hc;
    reflexivity.
Qed.

(** *** Login and registration *)

(** C5. When the email of a login request selects a stored user and the
    handler's call of [bcrypt.compare] on the request's password returns
    false, the response is 401 with [success: false]; the only effect is
    the SELECT, so no token is signed and no cookie set, and the request
    object, hence the session, and the database are unchanged. *)
Theorem login_wrong_password (env : Env) (db : Db) (r : Req)
    (e p : string) (u : UserRow) (rest : list UserRow) :
  b_email (reqbody r) = Some e → e ≠ EmptyString →
  b_password (reqbody r) = Some p → p ≠ EmptyString →
  select_users_by_email db e = inr (u :: rest) →
  bcrypt_compare p (u_password u) = false →
  let res := login env db r in
  response res = Some {| status := 401; body := invalid_credentials |}
  ∧ json_get "success" invalid_credentials = Some (JBool false)
  ∧ effects res = [EQuery (SelectUserByEmail e)]
  ∧ (∀ c t, EJwtSign c t ∉ effects res)
  ∧ (∀ v, ESetCookie v ∉ effects res)
  ∧ (ESessionSave ∉ effects res)
  ∧ req_after res = r
  ∧ db_after res = db.
Proof.
  intros He Hne Hp Hnp Hq Hc res. subst res. unfold login.
  rewrite He, Hp, Hq, Hc.
  apply truthy_str_true in Hne, Hnp. rewrite Hne, Hnp. cbn.
  repeat split; try reflexivity; intros; absent.
Qed.

(** C6. When the email of a registration request selects an existing
    row of [users], the response is 400, no INSERT is issued and the
    database is unchanged. *)
Theorem register_existing_email (env : Env) (db : Db) (r : Req)
    (e : string) (u : UserRow) (rest : list UserRow) :
  b_email (reqbody r) = Some e →
  select_users_by_email db e = inr (u :: rest) →
  let res := register env db r in
  (∃ b, response res = Some {| status := 400; body := b |})
  ∧ (∀ e', EQuery (InsertUser e') ∉ effects res)
  ∧ db_after res = db
  ∧ req_after res = r.
Proof.
  intros He Hq res. subst res. unfold register. rewrite He.
  destruct (b_password (reqbody r)) as [p|];
    [|cbn; repeat split; eauto; intros; absent].
  destruct (b_fullName (reqbody r)) as [n|];
    [|cbn; repeat split; eauto; intros; absent].
  destruct (Js.truthy_str e && Js.truthy_str p && Js.truthy_str n)%bool;
    [|cbn; repeat split; eauto; intros; absent].
  rewrite Hq. cbn. repeat split; eauto. intros; absent.
Qed.

(** *** Identity resolution *)

Lemma has_uid_session_uid (r : Req) :
  has_uid r = true → ∃ i, session_uid r = Some i ∧ i ≠ 0.
Proof.
  unfold has_uid. destruct (session_uid r) as [i|]; [|discriminate].
  intros H. exists i. split; [reflexivity | now apply truthy_num_true].
Qed.

(** [loginRequired] looks at the session first: with a user id in the
    session it calls [next()] at once, whatever the headers carry. *)
Lemma loginRequired_session_first (env : Env) (db : Db) (r : Req) :
  has_uid r = true →
  loginRequired env db r = next r db []
  ∧ loginRequired_userId env r = session_uid r.
Proof.
  intros H. unfold loginRequired, loginRequired_userId. now rewrite H.
Qed.

(** The session check keeps the id of a verified bearer token, also when
    the session has another one. *)
Lemma auth_session_token_first (env : Env) (r : Req) (i : Z) :
  token_user_id env r = Some i → resolved_user_id env r = Some i.
Proof.
  intros H. unfold resolved_user_id. rewrite H. now destruct (has_uid r).
Qed.

Lemma auth_session_session_only (env : Env) (r : Req) :
  token_user_id env r = None →
  resolved_user_id env r = if has_uid r then session_uid r else None.
Proof. intros H. unfold resolved_user_id. now rewrite H. Qed.

(** *** The session check *)

Lemma auth_session_found (env : Env) (db : Db) (r : Req) (userId : Z)
    (u : UserRow) (rest : list UserRow) :
  resolved_user_id env r = Some userId →
  select_users_by_id db userId = inr (u :: rest) →
  let res := auth_session env db r in
  response res = Some (res_json (session_check_body env r u))
  ∧ EJwtSign (user_claims u) THIRTY_DAYS ∈ effects res
  ∧ ESetCookie (jwt_cookie env (jwt_sign (user_claims u) (JWT_SECRET env)
                                  THIRTY_DAYS (now env))) ∈ effects res
  ∧ (∀ s, session r = Some s →
       ESessionTouch ∈ effects res
       ∧ ∃ s', session (req_after res) = Some s'
               ∧ expires s' = expires (touch (now env) s)
               ∧ (isTemporary s = false →
                  expires s' = now env + SESSION_MAX_AGE))
  ∧ (∀ s, session r = Some s → has_uid r = false →
       session_uid (req_after res) = Some userId
       ∧ ESessionSave ∈ effects res)
  ∧ (has_uid r = true → session_uid (req_after res) = session_uid r)
  ∧ db_after res = db.
Proof.
  intros Hid Hq res. subst res. unfold auth_session. rewrite Hid, Hq.
  unfold refresh_session, session_check_body.
  destruct (session r) as [s|] eqn:Hs.
  - assert (uid (touch (now env) s) = uid s) as Hu
      by (unfold touch; now destruct (isTemporary s)).
    assert (isTemporary s = false →
            expires (touch (now env) s) = now env + SESSION_MAX_AGE) as Hx
      by (unfold touch; now intros ->).
    assert (has_uid r = Js.truthy_opt Js.truthy_num (uid s)) as Hh
      by (unfold has_uid, session_uid; now rewrite Hs).
    rewrite Hu, <- Hh.
    destruct (has_uid r) eqn:Ht; cbn.
    + repeat split; try discriminate; try (intros; simplify_eq);
        rewrite ?elem_of_cons; eauto 10.
      unfold session_uid. cbn. rewrite Hs. cbn. exact Hu.
    + repeat split; try discriminate; try (intros; simplify_eq);
        rewrite ?elem_of_cons; eauto 10.
  - cbn. repeat split; try discriminate; rewrite ?elem_of_cons; eauto 10.
Qed.

Lemma auth_session_unresolved (env : Env) (db : Db) (r : Req) :
  resolved_user_id env r = None →
  let res := auth_session env db r in
  is_invalid res 401 ∧ effects res = [] ∧ req_after res = r.
Proof.
  intros H res. subst res. unfold auth_session, is_invalid. rewrite H. cbn.
  repeat split; eauto.
Qed.

Lemma auth_session_missing_row (env : Env) (db : Db) (r : Req) (userId : Z) :
  resolved_user_id env r = Some userId →
  select_users_by_id db userId = inr [] →
  let res := auth_session env db r in
  is_invalid res 404 ∧ (∀ c t, EJwtSign c t ∉ effects res).
Proof.
  intros H Hq res. subst res. unfold auth_session, is_invalid.
  rewrite H, Hq. destruct (session r); cbn; split; eauto; intros; absent.
Qed.

(** C2. When the session check resolves a user id whose row [u] the
    database returns, it (a) signs a token of 30 days (2592000 seconds)
    whose payload is made of the id, email, full name, tier (or 'basic')
    and verification state (or false) of [u], and returns it, (b) touches
    the session when there is one, which moves the expiry of a stored
    session to now plus 30 days (2592000000 ms), (c) writes the resolved id
    into a session that has no user id and saves it, and (d) answers 200
    with [isValid: true], [sessionValid], [sessionID], [token] and [user],
    the user object being that of [u]. When no id is resolved the answer
    is 401, and when the row is missing 404, both with [isValid: false]. *)
Theorem session_check_refreshes (env : Env) (db : Db) (r : Req) :
  let res := auth_session env db r in
  (∀ userId u rest,
     resolved_user_id env r = Some userId →
     select_users_by_id db userId = inr (u :: rest) →
     response res = Some (res_json (session_check_body env r u))
     ∧ json_get "token" (session_check_body env r u)
       = Some (JStr (jwt_sign (user_claims u) (JWT_SECRET env)
                       THIRTY_DAYS (now env)))
     ∧ THIRTY_DAYS = 30 * 86400
     ∧ EJwtSign (user_claims u) THIRTY_DAYS ∈ effects res
     ∧ (∀ s, session r = Some s →
          ESessionTouch ∈ effects res
          ∧ ∃ s', session (req_after res) = Some s'
                  ∧ expires s' = expires (touch (now env) s)
                  ∧ (isTemporary s = false →
                     expires s' = now env + SESSION_MAX_AGE))
     ∧ (∀ s, session r = Some s → has_uid r = false →
          session_uid (req_after res) = Some userId
          ∧ ESessionSave ∈ effects res)
     ∧ (∃ payload token b uj,
          id payload = u_id u
          ∧ email payload = u_email u
          ∧ full_name payload = u_full_name u
          ∧ tier payload = match u_tier u with
                           | Some t => if String.eqb t "" then "basic" else t
                           | None => "basic"
                           end%string
          ∧ is_verified payload = match u_is_verified u with
                                  | Some v => v
                                  | None => false
                                  end
          ∧ token = jwt_sign payload (JWT_SECRET env) 2592000 (now env)
          ∧ EJwtSign payload 2592000 ∈ effects res
          ∧ response res = Some {| status := 200; body := b |}
          ∧ json_get "isValid" b = Some (JBool true)
          ∧ json_get "sessionValid" b = Some (JBool (has_uid r))
          ∧ (json_get "sessionID" b = Some JNull
             ∨ ∃ sid, sessionID r = Some sid
                      ∧ json_get "sessionID" b = Some (JStr sid))
          ∧ json_get "token" b = Some (JStr token)
          ∧ json_get "user" b = Some uj
          ∧ json_get "id" uj = Some (JNum (u_id u))
          ∧ json_get "email" uj = Some (JStr (u_email u))
          ∧ json_get "full_name" uj = Some (json_opt_str (u_full_name u))
          ∧ json_get "initials" uj
            = Some (JStr (getInitials (u_full_name u))))
     ∧ (∀ s, session r = Some s → isTemporary s = false →
          ∃ s', session (req_after res) = Some s'
                ∧ expires s' = now env + 2592000000
                ∧ now env < expires s'))
  ∧ (resolved_user_id env r = None → is_invalid res 401)
  ∧ (∀ userId,
       resolved_user_id env r = Some userId →
       select_users_by_id db userId = inr [] →
       is_invalid res 404).
Proof.
  intros res. split; [|split].
  - intros userId u rest Hid Hq.
    destruct (auth_session_found env db r userId u rest Hid Hq)
      as (Hr & Hsign & _ & Htouch & Hfill & _ & _).
    split; [exact Hr|]. split; [reflexivity|]. split; [reflexivity|].
    split; [exact Hsign|]. split; [exact Htouch|]. split; [exact Hfill|].
    split.
    + exists (user_claims u),
             (jwt_sign (user_claims u) (JWT_SECRET env) 2592000 (now env)),
             (session_check_body env r u), (session_user u).
      split; [reflexivity|]. split; [reflexivity|]. split; [reflexivity|].
      split.
      { cbn. unfold Js.or_str, Js.truthy_str.
        destruct (u_tier u) as [t|]; [|reflexivity].
        now destruct (String.eqb t ""). }
      split; [reflexivity|]. split; [reflexivity|].
      split; [exact Hsign|]. split; [exact Hr|].
      split; [reflexivity|]. split; [reflexivity|].
      split.
      { cbn. destruct (sessionID r) as [sid|]; [|now left].
        destruct (Js.truthy_str sid); [right; eauto | now left]. }
      split; [reflexivity|]. split; [reflexivity|].
      split; [reflexivity|]. split; [reflexivity|]. split; reflexivity.
    + intros s Hs Hstored.
      destruct (Htouch s Hs) as (_ & s' & Hs' & _ & Hx).
      exists s'. split; [exact Hs'|].
      rewrite (Hx Hstored). unfold SESSION_MAX_AGE. split; lia.
  - intros H. now apply auth_session_unresolved.
  - intros userId H Hq. now apply (auth_session_missing_row env db r userId).
Qed.

(** *** Token round trip *)

Lemma div_1000_lt (t e : Z) : t < e * 1000 → t / 1000 < e.
Proof. intros H. apply Z.div_lt_upper_bound; lia. Qed.

Lemma div_1000_ge (t e : Z) : e * 1000 < t → e ≤ t / 1000.
Proof. intros H. apply Z.div_le_lower_bound; lia. Qed.

Lemma jwt_verify_fresh (payload : Claims) (secret : string) (ttl t0 t : Z) :
  t < expiry_instant t0 ttl →
  jwt_verify (jwt_sign payload secret ttl t0) secret t
  = inr {| claims := payload; iat := t0 / 1000; exp := t0 / 1000 + ttl |}.
Proof.
  intros H. unfold jwt_verify, jwt_sign. rewrite wire_roundtrip. cbn.
  rewrite String.eqb_refl.
  apply div_1000_lt in H.
  destruct (Z.leb_spec (t0 / 1000 + ttl) (t / 1000)); [lia | reflexivity].
Qed.

Lemma jwt_verify_expired (payload : Claims) (secret : string) (ttl t0 t : Z) :
  expiry_instant t0 ttl < t →
  jwt_verify (jwt_sign payload secret ttl t0) secret t = inl ExpiredToken.
Proof.
  intros H. unfold jwt_verify, jwt_sign. rewrite wire_roundtrip. cbn.
  rewrite String.eqb_refl.
  apply div_1000_ge in H.
  destruct (Z.leb_spec (t0 / 1000 + ttl) (t / 1000)); [reflexivity | lia].
Qed.

Lemma adopt_identity (d : Decoded) (r : Req) (db : Db) :
  response (adopt d r db) = None
  ∧ user (req_after (adopt d r db)) = Some d.
Proof.
  unfold adopt. cbn. destruct (session r) as [s|]; [|now split].
  destruct (Js.truthy_opt Js.truthy_num (uid s)); now split.
Qed.

(** C3. A token issued by signing a payload with the process secret and
    a lifetime verifies to the same claims at any instant strictly before
    its expiry instant, and [loginRequired], given only this token, then
    resolves the payload's id and puts the claims on the request; at any
    instant after the expiry instant verification fails with
    [ExpiredToken], which the callers treat as no identity: [verified] is
    [None], and [loginRequired], given only this token, answers 401. *)
Theorem token_round_trip_until_expiry (env : Env) (db : Db) (r : Req)
    (payload : Claims) (ttl t0 : Z) :
  let token := jwt_sign payload (JWT_SECRET env) ttl t0 in
  (now env < expiry_instant t0 ttl →
     ∃ d, jwt_verify token (JWT_SECRET env) (now env) = inr d
          ∧ claims d = payload
          ∧ exp d * 1000 = expiry_instant t0 ttl
          ∧ (id payload ≠ 0 → has_uid r = false →
             authorization r = Some ("Bearer " +:+ token) →
             loginRequired_userId env r = Some (id payload)
             ∧ response (loginRequired env db r) = None
             ∧ user (req_after (loginRequired env db r)) = Some d))
  ∧ (expiry_instant t0 ttl < now env →
     jwt_verify token (JWT_SECRET env) (now env) = inl ExpiredToken
     ∧ verified env token = None
     ∧ (has_uid r = false →
        authorization r = Some ("Bearer " +:+ token) →
        cookie r = None →
        loginRequired env db r = reply 401 authentication_required r db []
        ∧ loginRequired_userId env r = None)).
Proof.
  intros token. split.
  - intros H. eexists. split; [now apply jwt_verify_fresh|].
    split; [reflexivity|]. split; [reflexivity|].
    intros Hid Hu Ha.
    assert (verified env token
            = Some {| claims := payload; iat := t0 / 1000;
                      exp := t0 / 1000 + ttl |}) as Hv.
    { unfold verified, token. rewrite (jwt_verify_fresh _ _ _ _ _ H). cbn.
      apply truthy_num_true in Hid. now rewrite Hid. }
    unfold loginRequired, loginRequired_userId.
    rewrite Hu, (bearer_token_of_header r token Ha). cbn. rewrite Hv.
    split; [reflexivity|]. apply adopt_identity.
  - intros H.
    assert (jwt_verify token (JWT_SECRET env) (now env) = inl ExpiredToken)
      as Hv by now apply jwt_verify_expired.
    assert (verified env token = None) as Hn
      by (unfold verified; now rewrite Hv).
    split; [exact Hv|]. split; [exact Hn|].
    intros Hu Ha Hc. split.
    + unfold loginRequired, cookie_token.
      rewrite Hu, (bearer_token_of_header r token Ha), Hc. cbn.
      now rewrite Hn.
    + unfold loginRequired_userId, cookie_token.
      rewrite Hu, (bearer_token_of_header r token Ha), Hc. cbn.
      now rewrite Hn.
Qed.

(** *** The profile cache *)

Lemma profile_cached (env : Env) (db : Db) (cache : gmap string CacheEntry)
    (r : Req) (username : string) (c : CacheEntry) :
  query_username r = Some username → username ≠ EmptyString →
  cache !! toLowerCase username = Some c →
  now env - timestamp c < PROFILE_CACHE_TTL →
  twitter_profile env db cache r = tw_reply 200 (data c) cache [].
Proof.
  intros Hq Hne Hc Hage. unfold twitter_profile. rewrite Hq.
  apply truthy_str_true in Hne. rewrite Hne, Hc. cbn.
  unfold fresh. destruct (Z.ltb_spec (now env - PROFILE_CACHE_TTL) (timestamp c));
    [reflexivity | lia].
Qed.

Lemma profile_stale (env : Env) (db : Db) (cache : gmap string CacheEntry)
    (r : Req) (username : string) (c : CacheEntry) :
  query_username r = Some username → username ≠ EmptyString →
  cache !! toLowerCase username = Some c →
  PROFILE_CACHE_TTL ≤ now env - timestamp c →
  twitter_profile env db cache r
  = twitter_refetch env db cache username (toLowerCase username) (Some c).
Proof.
  intros Hq Hne Hc Hage. unfold twitter_profile. rewrite Hq.
  apply truthy_str_true in Hne. rewrite Hne, Hc. cbn.
  unfold fresh. destruct (Z.ltb_spec (now env - PROFILE_CACHE_TTL) (timestamp c));
    [lia | reflexivity].
Qed.

(** Without an API key the handler answers 404 and the upstream is not
    called, whatever the cache holds. *)
Lemma refetch_without_key (env : Env) (db : Db)
    (cache : gmap string CacheEntry) (username key : string)
    (c : option CacheEntry) (es : list Effect) :
  getTwitterApiKey env db username = (None, es) →
  twitter_refetch env db cache username key c
  = tw_reply 404 (error_json "Twitter API key not found for this user")
      cache es.
Proof. intros H. unfold twitter_refetch. now rewrite H. Qed.

Lemma refetch_with_key (env : Env) (db : Db)
    (cache : gmap string CacheEntry) (username key apiKey : string)
    (c : CacheEntry) (es : list Effect) :
  getTwitterApiKey env db username = (Some apiKey, es) →
  let res := twitter_refetch env db cache username key (Some c) in
  let up := twitter_api (profile_url username) apiKey in
  tw_effects res = es ++ [EFetch (profile_url username) apiKey]
  ∧ (up_status up = 429 →
     tw_response res = {| status := 200; body := data c |}
     ∧ tw_cache res = cache)
  ∧ (up_ok up = true →
     tw_response res
     = res_json (default JNull (json_get "data" (up_body up)))
     ∧ tw_cache res
       = <[key := {| data := default JNull (json_get "data" (up_body up));
                     timestamp := now env |}]> cache).
Proof.
  intros H res up. subst res up. unfold twitter_refetch. rewrite H.
  set (up := twitter_api (profile_url username) apiKey).
  split; [|split].
  - destruct (up_status up =? 401); [reflexivity|].
    destruct (up_status up =? 429); [reflexivity|].
    destruct (up_status up =? 404); [reflexivity|].
    destruct (negb (up_ok up)); reflexivity.
  - intros ->. cbn. now split.
  - intros Hok. unfold up_ok in *.
    apply andb_prop in Hok as [H1 H2].
    apply Z.leb_le in H1, H2.
    destruct (Z.eqb_spec (up_status up) 401); [lia|].
    destruct (Z.eqb_spec (up_status up) 429); [lia|].
    destruct (Z.eqb_spec (up_status up) 404); [lia|].
    assert (negb ((200 <=? up_status up) && (up_status up <=? 299)) = false)
      as -> by (apply negb_false_iff, andb_true_intro; split;
                now apply Z.leb_le).
    now split.
Qed.

(** C8, as the code has it. For an entry [c] cached under the lower-cased
    username: a request 14 minutes after its timestamp answers the cached
    payload with no effect at all, so without calling the upstream; a
    request 16 minutes after it, once [getTwitterApiKey] has found a key,
    calls the upstream; if the upstream answers 429, the stale payload is
    returned with status 200 and the cache is unchanged; if it answers
    with a 2xx status, its [data] is returned and cached with the current
    time. *)
Theorem profile_cache_staleness (env : Env) (db : Db)
    (cache : gmap string CacheEntry) (r : Req) (username : string)
    (c : CacheEntry) :
  query_username r = Some username → username ≠ EmptyString →
  cache !! toLowerCase username = Some c →
  let res := twitter_profile env db cache r in
  (now env = timestamp c + minutes 14 →
     res = tw_reply 200 (data c) cache [])
  ∧ (now env = timestamp c + minutes 16 →
     ∀ apiKey es,
       getTwitterApiKey env db username = (Some apiKey, es) →
       let up := twitter_api (profile_url username) apiKey in
       EFetch (profile_url username) apiKey ∈ tw_effects res
       ∧ (up_status up = 429 →
          tw_response res = {| status := 200; body := data c |}
          ∧ tw_cache res = cache)
       ∧ (up_ok up = true →
          tw_response res
          = res_json (default JNull (json_get "data" (up_body up)))
          ∧ tw_cache res !! toLowerCase username
            = Some {| data := default JNull (json_get "data" (up_body up));
                      timestamp := now env |})).
Proof.
  intros Hq Hne Hc res. subst res. split.
  - intros Ht. apply (profile_cached env db cache r username c Hq Hne Hc).
    rewrite Ht. unfold minutes, PROFILE_CACHE_TTL. lia.
  - intros Ht apiKey es Hk up.
    rewrite (profile_stale env db cache r username c Hq Hne Hc)
      by (rewrite Ht; unfold minutes, PROFILE_CACHE_TTL; lia).
    destruct (refetch_with_key env db cache username (toLowerCase username)
                apiKey c es Hk) as (He & H429 & Hok).
    split; [|split].
    + rewrite He. apply elem_of_app. right. left.
    + exact H429.
    + intros Hup. destruct (Hok Hup) as [Hr Hcache]. split; [exact Hr|].
      rewrite Hcache. apply lookup_insert_eq.
Qed.

(** *** Bookmark categories *)

Lemma next_id_above (ids : list Z) (x : Z) : x ∈ ids → x < next_id ids.
Proof.
  unfold next_id. induction ids as [|y ids IH]; intros Hin.
  - now apply elem_of_nil in Hin.
  - apply elem_of_cons in Hin as [->|Hin]; cbn; [lia|].
    specialize (IH Hin). lia.
Qed.

Lemma next_id_fresh (ids : list Z) : next_id ids ∉ ids.
Proof. intros Hin. apply next_id_above in Hin. lia. Qed.





(** ** Further properties of the authentication layer *)

Lemma verified_truthy (env : Env) (token : string) (d : Decoded) :
  verified env token = Some d →
  jwt_verify token (JWT_SECRET env) (now env) = inr d ∧ id (claims d) ≠ 0.
Proof.
  unfold verified.
  destruct (jwt_verify token (JWT_SECRET env) (now env)) as [e|d'];
    [discriminate|].
  destruct (Js.truthy_num (id (claims d'))) eqn:Ht; [|discriminate].
  intros [= <-]. split; [reflexivity | now apply truthy_num_true].
Qed.

Lemma adopt_result (d : Decoded) (r : Req) (db : Db) :
  let res := adopt d r db in
  response res = None ∧ db_after res = db
  ∧ user (req_after res) = Some d
  ∧ authorization (req_after res) = authorization r
  ∧ cookie (req_after res) = cookie r
  ∧ reqbody (req_after res) = reqbody r
  ∧ (session r = None → session (req_after res) = None ∧ effects res = [])
  ∧ (∀ s, session r = Some s →
       (has_uid r = true → session (req_after res) = Some s ∧ effects res = [])
       ∧ (has_uid r = false →
          session (req_after res) = Some (set_uid s (id (claims d)))
          ∧ effects res = [ESessionSave])).
Proof.
  unfold adopt, has_uid, session_uid. cbn.
  destruct (session r) as [s|] eqn:Hs; cbn.
  - destruct (Js.truthy_opt Js.truthy_num (uid s)); cbn;
      repeat split; try discriminate; intros; simplify_eq; try done.
  - repeat split; try discriminate; try done.
Qed.

Lemma loginRequired_pass_identity (env : Env) (db : Db) (r : Req) :
  response (loginRequired env db r) = None →
  ∃ i, loginRequired_userId env r = Some i ∧ i ≠ 0.
Proof.
  unfold loginRequired, loginRequired_userId.
  destruct (has_uid r) eqn:Hu.
  - intros _. destruct (has_uid_session_uid r Hu) as (i & Hi & Hne). eauto.
  - destruct (bearer_token r ≫= verified env) as [d|] eqn:Hb.
    + intros _. exists (id (claims d)). split; [reflexivity|].
      destruct (bearer_token r) as [tok|]; [|discriminate].
      now apply verified_truthy in Hb as [_ ?].
    + destruct (cookie_token r ≫= verified env) as [d|] eqn:Hc;
        [|discriminate].
      intros _. exists (id (claims d)). split; [reflexivity|].
      destruct (cookie_token r) as [tok|]; [|discriminate].
      now apply verified_truthy in Hc as [_ ?].
Qed.

(** X1. [loginRequired] calls [next()] exactly when it resolved an
    identity, from the session, the bearer header or the [jwt] cookie; the
    resolved id is never falsy; otherwise it answers 401 'Authentication
    required' and leaves the request alone. It never touches the
    database. *)
Theorem loginRequired_passes_iff_identity (env : Env) (db : Db) (r : Req) :
  let res := loginRequired env db r in
  (response res = None ↔ is_Some (loginRequired_userId env r))
  ∧ (∀ i, loginRequired_userId env r = Some i → i ≠ 0)
  ∧ (loginRequired_userId env r = None →
     res = reply 401 authentication_required r db [])
  ∧ db_after res = db.
Proof.
  unfold loginRequired, loginRequired_userId.
  destruct (has_uid r) eqn:Hu.
  - destruct (has_uid_session_uid r Hu) as (i & Hi & Hne). rewrite Hi. cbn.
    repeat split; eauto; try discriminate. now intros ? [= <-].
  - destruct (bearer_token r ≫= verified env) as [d|] eqn:Hb.
    + destruct (adopt_result d r db) as (Hr & Hd & _). cbn in Hr, Hd.
      assert (id (claims d) ≠ 0) as Hne.
      { destruct (bearer_token r) as [tok|]; [|discriminate].
        now apply verified_truthy in Hb as [_ ?]. }
      repeat split; eauto; try discriminate. now intros ? [= <-].
    + destruct (cookie_token r ≫= verified env) as [d|] eqn:Hc.
      * destruct (adopt_result d r db) as (Hr & Hd & _). cbn in Hr, Hd.
        assert (id (claims d) ≠ 0) as Hne.
        { destruct (cookie_token r) as [tok|]; [|discriminate].
          now apply verified_truthy in Hc as [_ ?]. }
        repeat split; eauto; try discriminate. now intros ? [= <-].
      * cbn. repeat split; try discriminate; try done.
Qed.

(** X2. When [loginRequired] lets a request through, a request that came
    without a session still has none, and a session that came along has a
    user id afterwards: its own if it had one, else the id of the token,
    written and saved. Headers and body are unchanged. *)
Theorem loginRequired_repairs_session (env : Env) (db : Db) (r : Req) :
  response (loginRequired env db r) = None →
  let res := loginRequired env db r in
  (session r = None → session (req_after res) = None)
  ∧ (∀ s, session r = Some s →
       has_uid (req_after res) = true
       ∧ session_uid (req_after res) = loginRequired_userId env r
       ∧ (has_uid r = true → session (req_after res) = Some s)
       ∧ (has_uid r = false → effects res = [ESessionSave]))
  ∧ authorization (req_after res) = authorization r
  ∧ cookie (req_after res) = cookie r
  ∧ reqbody (req_after res) = reqbody r.
Proof.
  intros Hpass res.
  destruct (loginRequired_pass_identity env db r Hpass) as (i & Hi & Hne).
  subst res. revert Hi. unfold loginRequired, loginRequired_userId.
  destruct (has_uid r) eqn:Hu.
  - intros Hi. cbn. split; [done|]. split; [|done].
    intros s Hs. split; [exact Hu|]. split; [done|].
    split; [done | discriminate].
  - assert (∀ d, Some (id (claims d)) = Some i →
            let res := adopt d r db in
            (session r = None → session (req_after res) = None)
            ∧ (∀ s, session r = Some s →
                 has_uid (req_after res) = true
                 ∧ session_uid (req_after res) = Some (id (claims d))
                 ∧ (false = true → session (req_after res) = Some s)
                 ∧ (false = false → effects res = [ESessionSave]))
            ∧ authorization (req_after res) = authorization r
            ∧ cookie (req_after res) = cookie r
            ∧ reqbody (req_after res) = reqbody r) as Hadopt.
    { intros d [= Hd] res.
      destruct (adopt_result d r db) as (_ & _ & _ & Ha & Hc & Hb & Hn & Hs).
      split; [intros Hnone; now apply Hn|].
      split; [|done].
      intros s Hses. destruct (Hs s Hses) as [_ Hfill].
      destruct (Hfill Hu) as [Hs' He].
      unfold has_uid, session_uid. subst res. rewrite Hs'. cbn.
      rewrite Hd. repeat split; try done.
      now apply truthy_num_true. }
    destruct (bearer_token r ≫= verified env) as [d|].
    + intros Hi. apply Hadopt. exact Hi.
    + destruct (cookie_token r ≫= verified env) as [d|]; [|discriminate].
      intros Hi. apply Hadopt. exact Hi.
Qed.

(** *** The [jwt] cookie *)

Lemma append_cons (c : ascii) (s t : string) :
  String c s +:+ t = String c (s +:+ t).
Proof. reflexivity. Qed.

Lemma append_empty_r (s : string) : s +:+ EmptyString = s.
Proof. induction s as [|c s IH]; [reflexivity|]. now rewrite append_cons, IH. Qed.

Lemma prefix_split (p s : string) :
  String.prefix p s = true → s = p +:+ Js.substring_from (String.length p) s.
Proof.
  revert s. induction p as [|c p IH]; intros s H.
  - unfold Js.substring_from. cbn. rewrite Nat.sub_0_r.
    now rewrite substring_all.
  - destruct s as [|c' s]; [discriminate|]. cbn in H.
    destruct (ascii_dec c c') as [<-|]; [|discriminate].
    change (String c s
            = String c (p +:+ Js.substring_from (String.length p) s)).
    f_equal. exact (IH s H).
Qed.

Lemma until_semicolon_split (u : string) :
  ∃ post, u = until_semicolon u +:+ post
          ∧ (post = EmptyString ∨ ∃ p, post = String ";" p)
          ∧ has_semicolon (until_semicolon u) = false.
Proof.
  induction u as [|c u (post & Hu & Hpost & Hno)].
  - exists EmptyString. repeat split. now left.
  - cbn [until_semicolon]. destruct (Ascii.eqb_spec c ";") as [->|ne].
    + exists (String ";" u). repeat split. right. now exists u.
    + exists post. rewrite append_cons, <- Hu. repeat split; [exact Hpost|].
      cbn. rewrite Hno. now apply Ascii.eqb_neq in ne as ->.
Qed.

Lemma until_semicolon_app (t post : string) :
  has_semicolon t = false →
  post = EmptyString ∨ (∃ p, post = String ";" p) →
  until_semicolon (t +:+ post) = t.
Proof.
  intros Hno Hpost. induction t as [|c t IH].
  - destruct Hpost as [->|[p ->]]; reflexivity.
  - cbn in Hno. apply orb_false_elim in Hno as [Hc Ht].
    rewrite append_cons. cbn [until_semicolon]. rewrite Hc. f_equal.
    now apply IH.
Qed.

(** X3. What [cookie_jwt] extracts is never empty, has no [;], and stands
    in the cookie header right after a [jwt=], up to the next [;] or the
    end of the header. *)
Theorem cookie_jwt_sound (s t : string) :
  cookie_jwt s = Some t →
  t ≠ EmptyString
  ∧ has_semicolon t = false
  ∧ ∃ pre post, s = pre +:+ "jwt=" +:+ t +:+ post
                ∧ (post = EmptyString ∨ ∃ p, post = String ";" p).
Proof.
  induction s as [|c s IH]; [discriminate|].
  cbn [cookie_jwt].
  destruct (Js.startsWith (String c s) "jwt=") eqn:Hp.
  - destruct (until_semicolon (Js.substring_from 4 (String c s))) as [|c' t'] eqn:Hu.
    + intros H. destruct (IH H) as (Hne & Hno & pre & post & -> & Hpost).
      repeat split; try assumption. now exists (String c pre), post.
    + intros [= <-].
      destruct (until_semicolon_split (Js.substring_from 4 (String c s)))
        as (post & Hsplit & Hpost & Hno).
      rewrite Hu in Hsplit, Hno.
      repeat split; [discriminate | exact Hno |].
      exists EmptyString, post. split; [|exact Hpost].
      apply prefix_split in Hp. cbn [String.length] in Hp.
      rewrite Hsplit in Hp. exact Hp.
  - intros H. destruct (IH H) as (Hne & Hno & pre & post & -> & Hpost).
    repeat split; try assumption. now exists (String c pre), post.
Qed.

Lemma cookie_jwt_head (t post : string) :
  t ≠ EmptyString → has_semicolon t = false →
  post = EmptyString ∨ (∃ p, post = String ";" p) →
  cookie_jwt ("jwt=" +:+ t +:+ post) = Some t.
Proof.
  intros Hne Hno Hpost.
  change ("jwt=" +:+ t +:+ post)
    with (String "j" (String "w" (String "t" (String "=" (t +:+ post))))).
  cbn [cookie_jwt]. unfold Js.startsWith, Js.substring_from. simpl.
  repeat (destruct (ascii_dec _ _) as [_|ne]; [|now destruct ne]).
  rewrite Nat.sub_0_r.
  assert (String.substring 0 (String.length (t +:+ post)) (t +:+ post)
          = t +:+ post) as Hall by apply substring_all.
  destruct (t +:+ post) as [|c u] eqn:Htp.
  - destruct t; [now destruct Hne | discriminate].
  - cbn [String.prefix]. rewrite Hall, <- Htp.
    rewrite (until_semicolon_app t post Hno Hpost).
    destruct t; [now destruct Hne | reflexivity].
Qed.

(** X4. The [Set-Cookie] value issued with a token parses back to that
    token: [cookie_jwt] applied to the value built at lines 795-797 and
    1446-1448 is the token, provided it is not empty and has no [;]. *)
Theorem cookie_jwt_of_jwt_cookie (env : Env) (token : string) :
  token ≠ EmptyString → has_semicolon token = false →
  cookie_jwt (jwt_cookie env token) = Some token.
Proof.
  intros Hne Hno. unfold jwt_cookie.
  apply cookie_jwt_head; [exact Hne | exact Hno |].
  right. cbn. eauto.
Qed.

(** X5. A bearer header whose token does not verify does not block the
    cookie: when the [jwt] cookie carries a token that verifies,
    [loginRequired] lets the request through with the cookie's
    identity. *)
Theorem loginRequired_cookie_after_bad_header (env : Env) (db : Db) (r : Req)
    (bad good : string) (d : Decoded) :
  has_uid r = false →
  authorization r = Some ("Bearer " +:+ bad) → verified env bad = None →
  cookie r = Some ("jwt=" +:+ good) →
  good ≠ EmptyString → has_semicolon good = false →
  verified env good = Some d →
  let res := loginRequired env db r in
  response res = None
  ∧ loginRequired_userId env r = Some (id (claims d))
  ∧ user (req_after res) = Some d.
Proof.
  intros Hu Ha Hbad Hc Hne Hno Hgood res. subst res.
  assert (cookie_token r = Some good) as Hct.
  { unfold cookie_token. rewrite Hc. cbn.
    rewrite <- (append_empty_r good) at 1.
    apply cookie_jwt_head; auto. }
  unfold loginRequired, loginRequired_userId.
  rewrite Hu, (bearer_token_of_header r bad Ha), Hct. cbn.
  rewrite Hbad, Hgood.
  destruct (adopt_result d r db) as (Hr & _ & Hus & _).
  repeat split; assumption.
Qed.

(** *** The token middlewares *)

Lemma guarded_pass (mw handler : Db → Req → Result) (db : Db) (r : Req) :
  mw db r = next r db [] → guarded mw handler db r = handler db r.
Proof.
  intros H. unfold guarded. rewrite H. cbn. now destruct (handler db r).
Qed.

(** X6. The placeholder-session middleware followed by the token
    middleware: the request headers and body are not touched; a session
    the request came with is passed on as it is, without the token's id
    being written into it; a request without a session leaves with the
    temporary placeholder, whose user id can only come from the bearer
    token. [req.user] changes only to the payload of a bearer token that
    [jwt.verify] accepts, so the [jwt] cookie is never consulted here, and
    it does change whenever such a token comes without a session user
    id. *)
Theorem token_middlewares_outcome (env : Env) (r : Req) :
  let r' := jwt_fallback env (session_fallback env r) in
  authorization r' = authorization r
  ∧ cookie r' = cookie r
  ∧ reqbody r' = reqbody r
  ∧ (∀ s, session r = Some s → session r' = Some s)
  ∧ (session r = None →
     ∃ s', session r' = Some s' ∧ isTemporary s' = true
           ∧ (uid s' = None
              ∨ ∃ token d, bearer_token r = Some token
                           ∧ jwt_verify token (JWT_SECRET env) (now env) = inr d
                           ∧ uid s' = Some (id (claims d))))
  ∧ (user r' = user r
     ∨ ∃ token d, bearer_token r = Some token
                  ∧ jwt_verify token (JWT_SECRET env) (now env) = inr d
                  ∧ user r' = Some d)
  ∧ (∀ token d, bearer_token r = Some token →
                jwt_verify token (JWT_SECRET env) (now env) = inr d →
                has_uid r = false → user r' = Some d).
Proof.
  intros r'. subst r'. unfold session_fallback.
  destruct (session r) as [s|] eqn:Hs.
  - (* the request has a session: only the token middleware acts *)
    assert (∀ r0, r0 = r →
            authorization r0 = authorization r ∧ cookie r0 = cookie r
            ∧ reqbody r0 = reqbody r
            ∧ (∀ s0, Some s = Some s0 → session r0 = Some s0)) as Hsame.
    { intros ? ->. split; [done|]. split; [done|]. split; [done|].
      intros ? [= <-]. exact Hs. }
    unfold jwt_fallback. destruct (has_uid r) eqn:Hu.
    { destruct (Hsame r eq_refl) as (H1 & H2 & H3 & H4).
      split; [exact H1|]. split; [exact H2|]. split; [exact H3|].
      split; [exact H4|]. split; [discriminate|]. split; [now left|].
      intros; discriminate. }
    destruct (bearer_token r) as [tok|] eqn:Hb.
    2:{ destruct (Hsame r eq_refl) as (H1 & H2 & H3 & H4).
        split; [exact H1|]. split; [exact H2|]. split; [exact H3|].
        split; [exact H4|]. split; [discriminate|]. split; [now left|].
        intros; discriminate. }
    destruct (jwt_verify tok (JWT_SECRET env) (now env)) as [e|d] eqn:Hv.
    { destruct (Hsame r eq_refl) as (H1 & H2 & H3 & H4).
      split; [exact H1|]. split; [exact H2|]. split; [exact H3|].
      split; [exact H4|]. split; [discriminate|]. split; [now left|].
      intros ? ? [= <-] Hv'. congruence. }
    cbn.
    split; [reflexivity|]. split; [reflexivity|]. split; [reflexivity|].
    split; [intros ? [= <-]; exact Hs|]. split; [discriminate|]. split.
    + right. eauto.
    + intros ? ? [= <-] Hv' _. congruence.
  - set (r0 := with_session r (Some temporary_session)).
    assert (has_uid r0 = false) as Hu0 by reflexivity.
    assert (bearer_token r0 = bearer_token r) as Hb0 by reflexivity.
    destruct (bearer_token r) as [tok|] eqn:Hb.
    2:{ unfold jwt_fallback. rewrite Hu0, Hb0. cbn.
        split; [reflexivity|]. split; [reflexivity|]. split; [reflexivity|].
        split; [discriminate|]. split.
        - intros _. exists temporary_session.
          split; [reflexivity|]. split; [reflexivity|]. now left.
        - split; [now left|]. intros; discriminate. }
    destruct (jwt_verify tok (JWT_SECRET env) (now env)) as [e|d] eqn:Hv.
    { unfold jwt_fallback. rewrite Hu0, Hb0, Hv. cbn.
      split; [reflexivity|]. split; [reflexivity|]. split; [reflexivity|].
      split; [discriminate|]. split.
      - intros _. exists temporary_session.
        split; [reflexivity|]. split; [reflexivity|]. now left.
      - split; [now left|]. intros ? ? [= <-] Hv'. congruence. }
    set (r1 := with_session (with_user r0 d)
                 (Some (set_uid temporary_session (id (claims d))))).
    assert (session (jwt_fallback env r1) = session r1
            ∧ authorization (jwt_fallback env r1) = authorization r1
            ∧ cookie (jwt_fallback env r1) = cookie r1
            ∧ reqbody (jwt_fallback env r1) = reqbody r1
            ∧ user (jwt_fallback env r1) = Some d) as (H1 & H2 & H3 & H4 & H5).
    { unfold jwt_fallback. destruct (has_uid r1); [done|].
      assert (bearer_token r1 = Some tok) as -> by exact Hb.
      now rewrite Hv. }
    rewrite H1, H2, H3, H4, H5. cbn.
    split; [reflexivity|]. split; [reflexivity|]. split; [reflexivity|].
    split; [discriminate|]. split.
    + intros _. eexists. split; [reflexivity|]. split; [reflexivity|].
      right. exists tok, d. done.
    + split; [right; eauto|]. intros ? ? [= <-] Hv' _. congruence.
Qed.

(** X7. A request authenticated by its session alone never gets a
    [req.user] from [loginRequired], which lets it through unchanged, so
    the bookmark-category routes, which read [req.user.id], answer 401
    'Authentication required' without querying the database. *)
Theorem session_only_request_rejected_by_category_routes (env : Env)
    (db : Db) (r : Req) :
  has_uid r = true → user r = None →
  response (loginRequired env db r) = None
  ∧ category_post env db r
    = reply 401 (error_json "Authentication required") r db []
  ∧ category_put env db r
    = reply 401 (error_json "Authentication required") r db [].
Proof.
  intros Hu Hn.
  assert (loginRequired env db r = next r db []) as Hl
    by (unfold loginRequired; now rewrite Hu).
  split; [now rewrite Hl|].
  unfold category_post, category_put.
  rewrite !(guarded_pass _ _ _ _ Hl).
  unfold category_post_handler, category_put_handler, req_user_id.
  now rewrite Hn.
Qed.

(** *** Error handling *)

(** Splits a hypothesis [x ∈ [a; b; c; d]] into its four cases. *)
Ltac in_pg H :=
  cbn in H; rewrite !elem_of_cons, elem_of_nil in H;
  destruct H as [H|[H|[H|[H|[]]]]]; simplify_eq.

(** X8. An error that the session error handler recognises never produces
    a response and is never forwarded: for EBADSESSION the request goes
    on with no stored session (none at all, or a temporary one), for the
    PostgreSQL shutdown codes 57P01-57P04 it goes on unchanged. Every
    other error, with another code or with none, is forwarded as it is
    with [next(err)], with the request unchanged. *)
Theorem session_error_handler_outcomes (e : Err) (r : Req) :
  let '(a, r') := session_error_handler e r in
  (code e = Some "EBADSESSION"%string →
     a = Continue
     ∧ (session r' = None ∨ ∃ s, session r' = Some s ∧ isTemporary s = true)
     ∧ authorization r' = authorization r ∧ user r' = user r)
  ∧ (code e ∈ (Some <$> ["57P01"; "57P02"; "57P03"; "57P04"]%string) →
     a = Continue ∧ r' = r)
  ∧ (code e ∉ (Some <$> ["EBADSESSION"; "57P01"; "57P02"; "57P03";
                         "57P04"]%string) →
     a = Forward e ∧ r' = r)
  ∧ (a ≠ Continue → a = Forward e ∧ r' = r)
  ∧ (∀ resp, a ≠ Reply resp).
Proof.
  unfold session_error_handler, code_is.
  destruct (code e) as [c|] eqn:Hc; cbn.
  - destruct (String.eqb_spec c "EBADSESSION") as [->|Hne].
    + assert (Some "EBADSESSION"%string
              ∉ [Some "EBADSESSION"; Some "57P01"; Some "57P02";
                 Some "57P03"; Some "57P04"]%string → False) as Hin
        by (intros H; apply H; left).
      destruct (session r) as [s|] eqn:Hs; cbn.
      * split; [|split; [intros H; in_pg H
                        | split; [intros H; destruct (Hin H) | done]]].
        intros _. repeat split; try done.
        unfold destroy_session. destruct (isTemporary s) eqn:Ht; eauto.
      * split; [|split; [intros H; in_pg H
                        | split; [intros H; destruct (Hin H) | done]]].
        intros _. repeat split; try done. right. eexists. split; reflexivity.
    + destruct (Js.truthy_str c
                && ((c =? "57P01")%string || (c =? "57P02")%string
                    || (c =? "57P03")%string || (c =? "57P04")%string))%bool
        eqn:Hpg.
      * split; [intros [= ->]; now destruct Hne|].
        split; [done|]. split; [|split; done].
        intros Hout. exfalso. apply Hout.
        apply andb_prop in Hpg as [_ Hpg].
        rewrite !orb_true_iff, !String.eqb_eq in Hpg.
        right.
        destruct Hpg as [[[->| ->]| ->]| ->];
          rewrite !elem_of_cons; tauto.
      * split; [intros [= ->]; now destruct Hne|].
        split; [intros H; in_pg H; discriminate Hpg|]. repeat split; done.
  - split; [discriminate|]. split; [intros H; in_pg H|]. repeat split; done.
Qed.

(** X9. The global error handler never forwards an error. In production
    its reply never carries the error's message: the [error] field is one
    of two fixed texts. Its status is 503 for the three connection codes
    and otherwise the error's own non-zero [statusCode], or 500. *)
Theorem global_error_handler_replies (env : Env) (e : Err) :
  let a := global_error_handler env e in
  (∀ e', a ≠ Forward e')
  ∧ (∀ resp, a = Reply resp →
       (status resp = 503
        ∨ status resp = match statusCode e with
                        | Some n => if Js.truthy_num n then n else 500
                        | None => 500
                        end)
       ∧ (is_production env = true →
          json_get "error" (body resp)
          = Some (JStr "An unexpected error occurred")
          ∨ json_get "error" (body resp)
            = Some (JStr "Database service temporarily unavailable"))).
Proof.
  unfold global_error_handler, generic_error.
  destruct (Js.truthy_opt Js.truthy_str (code e)).
  - destruct (code_is e "42P01"); [split; [done | discriminate]|].
    destruct (code_is e "42P07"); [split; [done | discriminate]|].
    destruct (code_is e "23505").
    + destruct (Js.truthy_str (message e) && Js.includes (message e) "session_pkey")%bool;
        [split; [done | discriminate]|].
      split; [done|]. intros resp [= <-]. cbn. split; [now right|].
      intros ->. now left.
    + destruct (code_is e "ETIMEDOUT" || code_is e "ECONNREFUSED"
                || code_is e "ENOTFOUND")%bool.
      * split; [done|]. intros resp [= <-]. cbn. split; [now left|].
        intros _. now right.
      * split; [done|]. intros resp [= <-]. cbn. split; [now right|].
        intros ->. now left.
  - split; [done|]. intros resp [= <-]. cbn. split; [now right|].
    intros ->. now left.
Qed.

(** *** Cross-origin policy *)

Lemma substring_skip (pre s : string) (n : nat) :
  String.substring (String.length pre) n (pre +:+ s) = String.substring 0 n s.
Proof. induction pre as [|c pre IH]; [reflexivity | exact IH]. Qed.

Lemma substring_head (p post : string) :
  String.substring 0 (String.length p) (p +:+ post) = p.
Proof.
  induction p as [|c p IH]; cbn.
  - now destruct post.
  - rewrite append_cons. cbn. now rewrite IH.
Qed.

Lemma includes_infix (pre p post : string) :
  p ≠ EmptyString → Js.includes (pre +:+ p +:+ post) p = true.
Proof.
  intros Hne. unfold Js.includes.
  destruct (String.index 0 p (pre +:+ p +:+ post)) eqn:Hi; [reflexivity|].
  exfalso.
  apply (String.index_correct3 0 (String.length pre) p _ Hi Hne (Nat.le_0_l _)).
  now rewrite substring_skip, substring_head.
Qed.

Lemma startsWith_append (p rest : string) : Js.startsWith (p +:+ rest) p = true.
Proof.
  unfold Js.startsWith. induction p as [|c p IH]; cbn.
  - now destruct rest.
  - rewrite append_cons. cbn. destruct (ascii_dec c c); [exact IH | done].
Qed.

(** X10. The CORS check matches by substring. A request without an
    [Origin] is always let through. In production an origin is accepted
    as soon as it contains one of the two production origins, whatever
    stands before or after it, or is itself a piece of one of them;
    outside production every origin that begins with [http://localhost]
    or [http://127.0.0.1] is accepted, whatever follows. *)
Theorem cors_accepts_by_substring (env : Env) :
  cors_allows env None = true
  ∧ (is_production env = true →
     ∀ a pre post, a ∈ prodOrigins →
       cors_allows env (Some (pre +:+ a +:+ post)) = true
       ∧ (∀ o, a = pre +:+ o +:+ post → cors_allows env (Some o) = true))
  ∧ (is_production env = false →
     ∀ rest,
       cors_allows env (Some ("http://localhost" +:+ rest)) = true
       ∧ cors_allows env (Some ("http://127.0.0.1" +:+ rest)) = true).
Proof.
  split; [reflexivity|]. split.
  - intros Hprod a pre post Ha.
    assert (a ≠ EmptyString) as Hne.
    { unfold prodOrigins in Ha.
      apply elem_of_cons in Ha as [->|Ha]; [discriminate|].
      apply list_elem_of_singleton in Ha as ->. discriminate. }
    apply list_elem_of_In in Ha.
    split.
    + unfold cors_allows. rewrite Hprod.
      destruct (negb (Js.truthy_str (pre +:+ a +:+ post))); [reflexivity|].
      apply existsb_exists. exists a. split; [exact Ha|].
      now rewrite includes_infix.
    + intros o ->. unfold cors_allows. rewrite Hprod.
      destruct (Js.truthy_str o) eqn:Ho; [|reflexivity]. cbn [negb].
      apply existsb_exists. exists (pre +:+ o +:+ post). split; [exact Ha|].
      apply truthy_str_true in Ho.
      rewrite (includes_infix pre o post Ho). apply orb_true_r.
  - intros Hdev rest. unfold cors_allows. rewrite Hdev.
    split.
    + destruct (negb _); [reflexivity|]. now rewrite startsWith_append.
    + destruct (negb _); [reflexivity|].
      rewrite (startsWith_append "http://127.0.0.1" rest). apply orb_true_r.
Qed.

(** *** Login *)

Lemma select_by_email_sound (db : Db) (e : string) (rows : list UserRow) :
  select_users_by_email db e = inr rows →
  fault db = None
  ∧ rows = filter (λ u, String.eqb (u_email u) e = true) (users db).
Proof.
  unfold select_users_by_email, pool_query.
  destruct (fault db); [discriminate|]. now intros [= <-].
Qed.

Lemma select_by_id_sound (db : Db) (i : Z) (rows : list UserRow) :
  select_users_by_id db i = inr rows →
  fault db = None ∧ rows = filter (λ u, u_id u = i) (users db).
Proof.
  unfold select_users_by_id, pool_query.
  destruct (fault db); [discriminate|]. now intros [= <-].
Qed.

(** X11. The login endpoint answers an unknown email and a wrong password
    alike: the same 401 response and the same single query, so the
    response does not tell whether the account exists. *)
Theorem login_unknown_email_like_wrong_password (env : Env) (db : Db)
    (r1 r2 : Req) (e1 p1 e2 p2 : string) (u : UserRow) (rest : list UserRow) :
  b_email (reqbody r1) = Some e1 → e1 ≠ EmptyString →
  b_password (reqbody r1) = Some p1 → p1 ≠ EmptyString →
  select_users_by_email db e1 = inr [] →
  b_email (reqbody r2) = Some e2 → e2 ≠ EmptyString →
  b_password (reqbody r2) = Some p2 → p2 ≠ EmptyString →
  select_users_by_email db e2 = inr (u :: rest) →
  bcrypt_compare p2 (u_password u) = false →
  response (login env db r1) = response (login env db r2)
  ∧ response (login env db r1)
    = Some {| status := 401; body := invalid_credentials |}
  ∧ effects (login env db r1) = [EQuery (SelectUserByEmail e1)]
  ∧ effects (login env db r2) = [EQuery (SelectUserByEmail e2)].
Proof.
  intros He1 Hn1 Hp1 Hm1 Hq1 He2 Hn2 Hp2 Hm2 Hq2 Hc.
  apply truthy_str_true in Hn1, Hm1, Hn2, Hm2.
  unfold login.
  rewrite He1, Hp1, Hn1, Hm1, Hq1, He2, Hp2, Hn2, Hm2, Hq2, Hc. cbn.
  repeat split.
Qed.

(** X12. With email verification switched on, a user who is not verified
    cannot log in even with the right password: the answer is 403 with
    [needsVerification], no token is signed, no cookie set and the request
    is left alone. A verification token that is still valid is kept and
    the database unchanged; a missing or expired one is replaced by a new
    one, valid for 24 hours, which is mailed to the user. *)
Theorem login_unverified_is_blocked (env : Env) (db : Db) (r : Req)
    (e p : string) (u : UserRow) (rest : list UserRow) :
  b_email (reqbody r) = Some e → e ≠ EmptyString →
  b_password (reqbody r) = Some p → p ≠ EmptyString →
  select_users_by_email db e = inr (u :: rest) →
  bcrypt_compare p (u_password u) = true →
  email_verification_on env = true →
  Js.or_false (u_is_verified u) = false →
  let res := login env db r in
  (∃ b, response res = Some {| status := 403; body := b |}
        ∧ json_get "needsVerification" b = Some (JBool true))
  ∧ (∀ c t, EJwtSign c t ∉ effects res)
  ∧ (∀ v, ESetCookie v ∉ effects res)
  ∧ req_after res = r
  ∧ (needs_new_verification env u = false →
     db_after res = db ∧ ∀ a t, EMail a t ∉ effects res)
  ∧ (needs_new_verification env u = true →
     EMail (u_email u) (randomHex env) ∈ effects res
     ∧ ∀ v, v ∈ users (db_after res) → u_id v = u_id u →
         u_verification_token v = Some (randomHex env)
         ∧ u_verification_token_expiry v = Some (now env + ONE_DAY_MS)).
Proof.
  intros He Hne Hp Hnp Hq Hc Hon Hv res. subst res.
  apply truthy_str_true in Hne, Hnp.
  destruct (select_by_email_sound _ _ _ Hq) as [Hf _].
  unfold login. rewrite He, Hp, Hne, Hnp, Hq, Hc, Hon, Hv. cbn.
  destruct (needs_new_verification env u) eqn:Hn.
  - unfold update_user_verification, pool_query. rewrite Hf. cbn.
    split; [eexists; split; reflexivity|].
    split; [intros; absent|]. split; [intros; absent|].
    split; [reflexivity|]. split; [discriminate|]. intros _.
    split; [rewrite !elem_of_cons; auto|].
    intros v Hin Hid. apply list_elem_of_fmap in Hin as (w & -> & _).
    destruct (decide (u_id w = u_id u)) as [_|Hd]; [now split|].
    now destruct Hd.
  - split; [eexists; split; reflexivity|].
    split; [intros; absent|]. split; [intros; absent|].
    split; [reflexivity|]. split; [|discriminate]. intros _.
    split; [reflexivity | intros; absent].
Qed.

Lemma login_reaches_success (env : Env) (db : Db) (r : Req)
    (e p : string) (u : UserRow) (rest : list UserRow) :
  b_email (reqbody r) = Some e → e ≠ EmptyString →
  b_password (reqbody r) = Some p → p ≠ EmptyString →
  select_users_by_email db e = inr (u :: rest) →
  bcrypt_compare p (u_password u) = true →
  (email_verification_on env && negb (Js.or_false (u_is_verified u)))%bool
  = false →
  login env db r = login_success env db r u [EQuery (SelectUserByEmail e)].
Proof.
  intros He Hne Hp Hnp Hq Hc Hv.
  apply truthy_str_true in Hne, Hnp.
  unfold login. now rewrite He, Hp, Hne, Hnp, Hq, Hc, Hv.
Qed.

(** X13. A login with the right password, when email verification does
    not block it, answers 200 with the user, a token of 30 days signed over
    the claims of the user's row and the session status; the same token is
    set as the [jwt] cookie; the user id is written into the session when
    there is one, and the status is 'unavailable' without a session,
    'error-saving' when the store fails to save it and 'active' otherwise.
    The database is not modified. *)
Theorem login_issues_token_and_session (env : Env) (db : Db) (r : Req)
    (e p : string) (u : UserRow) (rest : list UserRow) :
  b_email (reqbody r) = Some e → e ≠ EmptyString →
  b_password (reqbody r) = Some p → p ≠ EmptyString →
  select_users_by_email db e = inr (u :: rest) →
  bcrypt_compare p (u_password u) = true →
  (email_verification_on env && negb (Js.or_false (u_is_verified u)))%bool
  = false →
  let res := login env db r in
  let token := jwt_sign (user_claims u) (JWT_SECRET env) THIRTY_DAYS (now env) in
  ∃ st sid,
    response res
    = Some (res_json (JObj [("success", JBool true);
                            ("message", JStr "Logged in successfully");
                            ("user", formattedUser u);
                            ("token", JStr token);
                            ("sessionStatus", JStr st);
                            ("sessionID", sid)]%string))
    ∧ ESetCookie (jwt_cookie env token) ∈ effects res
    ∧ EJwtSign (user_claims u) THIRTY_DAYS ∈ effects res
    ∧ db_after res = db
    ∧ (session r = None →
       st = "unavailable"%string ∧ sid = JNull ∧ req_after res = r)
    ∧ (∀ s, session r = Some s →
       session_uid (req_after res) = Some (u_id u)
       ∧ ESessionSave ∈ effects res
       ∧ st = (if save_fails s then "error-saving" else "active")%string).
Proof.
  intros He Hne Hp Hnp Hq Hc Hv res token. subst res.
  rewrite (login_reaches_success env db r e p u rest He Hne Hp Hnp Hq Hc Hv).
  unfold login_success. destruct (session r) as [s|] eqn:Hs.
  - eexists _, _. split; [reflexivity|]. cbn.
    split; [rewrite !elem_of_cons; auto|].
    split; [rewrite !elem_of_cons; auto|].
    split; [reflexivity|]. split; [discriminate|].
    intros s' [= <-]. split; [reflexivity|].
    split; [rewrite !elem_of_cons; auto|].
    rewrite bool_decide_eq_true_2 by reflexivity. reflexivity.
  - eexists _, _. split; [reflexivity|]. cbn.
    split; [rewrite !elem_of_cons; auto|].
    split; [rewrite !elem_of_cons; auto|].
    split; [reflexivity|]. split; [done | discriminate].
Qed.

(** X14. The token returned by a successful login is enough for the
    session check: presented alone as a bearer header before its expiry,
    under the same secret and database, it resolves the id of the user who
    logged in, and the check answers 200 with a user object of that id.
    The user id must not be 0, which [decoded.id] would take for
    absent. *)
Theorem login_then_session_check (env env' : Env) (db : Db) (r r' : Req)
    (e p : string) (u : UserRow) (rest : list UserRow) :
  b_email (reqbody r) = Some e → e ≠ EmptyString →
  b_password (reqbody r) = Some p → p ≠ EmptyString →
  select_users_by_email db e = inr (u :: rest) →
  bcrypt_compare p (u_password u) = true →
  (email_verification_on env && negb (Js.or_false (u_is_verified u)))%bool
  = false →
  u_id u ≠ 0 →
  JWT_SECRET env' = JWT_SECRET env →
  now env' < expiry_instant (now env) THIRTY_DAYS →
  session r' = None →
  ∀ token,
    (response (login env db r) ≫= λ resp, json_get "token" (body resp))
    = Some (JStr token) →
    authorization r' = Some ("Bearer " +:+ token) →
    resolved_user_id env' r' = Some (u_id u)
    ∧ ∃ v, u_id v = u_id u
           ∧ response (auth_session env' db r')
             = Some (res_json (session_check_body env' r' v)).
Proof.
  intros He Hne Hp Hnp Hq Hc Hv Hid Hsec Hexp Hs' token Htok Ha.
  rewrite (login_reaches_success env db r e p u rest He Hne Hp Hnp Hq Hc Hv)
    in Htok.
  assert (token = jwt_sign (user_claims u) (JWT_SECRET env) THIRTY_DAYS (now env))
    as ->.
  { unfold login_success in Htok. destruct (session r); cbn in Htok;
      now injection Htok. }
  assert (token_user_id env' r' = Some (u_id u)) as Ht.
  { unfold token_user_id, verified.
    rewrite (bearer_token_of_header r' _ Ha). cbn. rewrite Hsec.
    rewrite (jwt_verify_fresh _ _ _ _ _ Hexp). cbn.
    apply truthy_num_true in Hid. now rewrite Hid. }
  assert (resolved_user_id env' r' = Some (u_id u)) as Hr
    by now apply auth_session_token_first.
  split; [exact Hr|].
  destruct (select_by_email_sound _ _ _ Hq) as [Hf Hrows].
  assert (u ∈ users db) as Hin.
  { assert (u ∈ u :: rest) as Hu by left. rewrite Hrows in Hu.
    now apply list_elem_of_filter in Hu as [_ ?]. }
  assert (u ∈ filter (λ v, u_id v = u_id u) (users db)) as Hsel
    by now apply list_elem_of_filter.
  destruct (filter (λ v, u_id v = u_id u) (users db)) as [|v rest'] eqn:Hfl;
    [now apply elem_of_nil in Hsel|].
  assert (u_id v = u_id u) as Hv'.
  { assert (v ∈ filter (λ v, u_id v = u_id u) (users db)) as Hvin
      by (rewrite Hfl; left).
    now apply list_elem_of_filter in Hvin as [? _]. }
  exists v. split; [exact Hv'|].
  assert (select_users_by_id db (u_id u) = inr (v :: rest')) as Hq'
    by (unfold select_users_by_id, pool_query; now rewrite Hf, Hfl).
  now destruct (auth_session_found env' db r' (u_id u) v rest' Hr Hq')
    as [Hresp _].
Qed.

(** *** Registration *)

Lemma register_outcome (env : Env) (db : Db) (r : Req) :
  let res := register env db r in
  db_after res = db
  ∨ ∃ e p n row,
      b_email (reqbody r) = Some e ∧ b_password (reqbody r) = Some p
      ∧ b_fullName (reqbody r) = Some n
      ∧ e ≠ EmptyString ∧ p ≠ EmptyString ∧ n ≠ EmptyString
      ∧ select_users_by_email db e = inr []
      ∧ insert_user db e (bcrypt_hash p (salt env)) n (randomHex env)
          (now env + ONE_DAY_MS) (now env) = inr (row, db_after res)
      ∧ (∃ b, response res = Some {| status := 201; body := b |}
              ∧ json_get "user" b
                = Some (JObj [("id", JNum (u_id row));
                              ("email", JStr e);
                              ("fullName", JStr n);
                              ("is_verified", JBool false)]%string)).
Proof.
  unfold register.
  destruct (b_email (reqbody r)) as [e|]; [|now left].
  destruct (b_password (reqbody r)) as [p|]; [|now left].
  destruct (b_fullName (reqbody r)) as [n|]; [|now left].
  destruct (Js.truthy_str e) eqn:He; [|now left].
  destruct (Js.truthy_str p) eqn:Hp; [|now left].
  destruct (Js.truthy_str n) eqn:Hn; [|now left]. cbn.
  destruct (select_users_by_email db e) as [err|[|u rest]] eqn:Hq;
    [now left | | now left].
  destruct (insert_user _ _ _ _ _ _ _) as [err|[row db']] eqn:Hi; [now left|].
  right. exists e, p, n, row. apply truthy_str_true in He, Hp, Hn.
  repeat split; try assumption.
  unfold insert_user, pool_query in Hi.
  destruct (fault db); [discriminate|]. injection Hi as <- <-.
  eexists. split; reflexivity.
Qed.

Lemma insert_user_rows (db db' : Db) (e h n tok : string) (x t : Z)
    (row : UserRow) :
  insert_user db e h n tok x t = inr (row, db') →
  users db' = users db ++ [row]
  ∧ u_email row = e ∧ u_password row = h
  ∧ u_id row = next_id (u_id <$> users db)
  ∧ u_is_verified row = Some false
  ∧ u_verification_token row = Some tok
  ∧ u_verification_token_expiry row = Some x
  ∧ fault db' = fault db ∧ fault db = None
  ∧ bookmark_categories db' = bookmark_categories db.
Proof.
  unfold insert_user, pool_query. destruct (fault db) eqn:Hf; [discriminate|].
  intros [= <- <-]. cbn. repeat split.
Qed.

Lemma no_row_with_email (db : Db) (e : string) :
  select_users_by_email db e = inr [] → e ∉ (u_email <$> users db).
Proof.
  intros Hq Hin. apply select_by_email_sound in Hq as [_ Hq].
  apply list_elem_of_fmap in Hin as (u & -> & Hu).
  assert (u ∈ filter (λ v, String.eqb (u_email v) (u_email u) = true) (users db))
    as Hf by (apply list_elem_of_filter; split; [apply String.eqb_refl | exact Hu]).
  rewrite <- Hq in Hf. now apply elem_of_nil in Hf.
Qed.

(** X15. Registration keeps the table of users well formed: if no two
    rows share an email or an id before the request, none do after it,
    whatever the request; existing rows are never modified or removed. *)
Theorem register_keeps_users_distinct (env : Env) (db : Db) (r : Req) :
  NoDup (u_email <$> users db) → NoDup (u_id <$> users db) →
  let db' := db_after (register env db r) in
  NoDup (u_email <$> users db') ∧ NoDup (u_id <$> users db')
  ∧ users db `prefix_of` users db'.
Proof.
  intros He Hi db'. subst db'.
  destruct (register_outcome env db r) as [->|(e & p & n & row & _ & _ & _ & _ & _ & _ & Hq & Hins & _)];
    [done|].
  apply insert_user_rows in Hins as (-> & <- & _ & Hid & _).
  rewrite !fmap_app. cbn. repeat split.
  - apply NoDup_app. split; [exact He|]. split; [|apply NoDup_singleton].
    intros x Hx Hx'. apply list_elem_of_singleton in Hx' as ->.
    now apply (no_row_with_email db (u_email row)).
  - apply NoDup_app. split; [exact Hi|]. split; [|apply NoDup_singleton].
    intros x Hx Hx'. apply list_elem_of_singleton in Hx' as ->.
    rewrite Hid in Hx. now apply next_id_fresh in Hx.
  - now exists [row].
Qed.

(** X16. A user who has just registered can log in with the same email
    and password when email verification is off, whatever else the table
    holds, provided [bcrypt.compare] accepts a password against its own
    hash; the login answers with the new row's user object. *)
Theorem register_then_login (env env2 : Env) (db : Db) (r r2 : Req)
    (e p : string) (resp : Response) :
  (∀ pw s, bcrypt_compare pw (bcrypt_hash pw s) = true) →
  response (register env db r) = Some resp → status resp = 201 →
  b_email (reqbody r) = Some e → b_password (reqbody r) = Some p →
  b_email (reqbody r2) = Some e → b_password (reqbody r2) = Some p →
  email_verification_on env2 = false →
  ∃ row,
    users (db_after (register env db r)) = users db ++ [row]
    ∧ (response (login env2 (db_after (register env db r)) r2)
       ≫= λ resp2, json_get "user" (body resp2))
      = Some (formattedUser row)
    ∧ u_email row = e ∧ u_is_verified row = Some false.
Proof.
  intros Hbc Hresp Hst He Hp He2 Hp2 Hoff.
  destruct (register_outcome env db r)
    as [Hsame|(e' & p' & n & row & He' & Hp' & _ & Hne & Hnp & _ & Hq & Hins & _)].
  - exfalso. revert Hresp Hst Hsame. unfold register. rewrite He, Hp.
    destruct (b_fullName (reqbody r)) as [n|]; [|intros [= <-]; cbn; lia].
    destruct (Js.truthy_str e && Js.truthy_str p && Js.truthy_str n)%bool;
      [|intros [= <-]; cbn; lia].
    destruct (select_users_by_email db e) as [err|[|u rest]];
      [intros [= <-]; cbn; lia | | intros [= <-]; cbn; lia].
    destruct (insert_user _ _ _ _ _ _ _) as [err|[row db']] eqn:Hi;
      [intros [= <-]; cbn; lia|].
    intros _ _ Hsame. apply insert_user_rows in Hi as (Hu & _).
    cbn in Hsame. rewrite Hsame in Hu.
    apply (f_equal length) in Hu. rewrite length_app in Hu. cbn in Hu. lia.
  - rewrite He in He'. injection He' as <-.
    rewrite Hp in Hp'. injection Hp' as <-.
    pose proof (no_row_with_email db e Hq) as Hfresh.
    apply insert_user_rows in Hins
      as (Hu & Hemail & Hpw & _ & Hver & _ & _ & Hf' & Hf & _).
    exists row. split; [exact Hu|].
    assert (select_users_by_email (db_after (register env db r)) e = inr [row])
      as Hq2.
    { unfold select_users_by_email, pool_query. rewrite Hf', Hf, Hu.
      rewrite filter_app.
      apply select_by_email_sound in Hq as [_ Hq]. rewrite <- Hq. cbn.
      destruct (decide ((u_email row =? e)%string = true)) as [_|Hd];
        [reflexivity|].
      destruct Hd. rewrite Hemail. apply String.eqb_refl. }
    rewrite (login_reaches_success env2 _ r2 e p row [] He2 Hne Hp2 Hnp Hq2).
    + split; [|now split].
      unfold login_success. now destruct (session r2).
    + rewrite Hpw. apply Hbc.
    + now rewrite Hoff.
Qed.

(** *** Email verification *)

Lemma filter_none {A} (P : A → Prop) `{∀ x, Decision (P x)} (l : list A) :
  (∀ x, x ∈ l → ¬ P x) → filter P l = [].
Proof.
  induction l as [|x l IH]; intros Hl; [reflexivity|].
  rewrite filter_cons_False by (apply Hl; left).
  apply IH. intros y Hy. apply Hl. now right.
Qed.

Lemma Forall2_fmap_self {A} (R : A → A → Prop) (f : A → A) (l : list A) :
  (∀ x, x ∈ l → R x (f x)) → Forall2 R l (f <$> l).
Proof.
  induction l as [|x l IH]; intros Hl; [constructor|].
  cbn. constructor; [apply Hl; left|].
  apply IH. intros y Hy. apply Hl. now right.
Qed.

Lemma select_unverified_sound (db : Db) (tok : string) (rows : list UserRow) :
  select_unverified_by_token db tok = inr rows →
  fault db = None
  ∧ rows = filter (λ u, u_verification_token u = Some tok
                        ∧ u_is_verified u = Some false) (users db).
Proof.
  unfold select_unverified_by_token, pool_query.
  destruct (fault db); [discriminate|]. now intros [= <-].
Qed.

Lemma verify_email_success (env : Env) (db : Db) (tok : string) (u : UserRow)
    (rest : list UserRow) :
  tok ≠ EmptyString →
  select_unverified_by_token db tok = inr (u :: rest) →
  now env ≤ default 0 (u_verification_token_expiry u) →
  verify_email env db (Some tok)
  = (res_json (JObj [("message", JStr "Email verified successfully")]%string),
     map_users (λ v, if decide (u_id v = u_id u)
                     then set_verified (now env) v else v) db).
Proof.
  intros Hne Hq Hx. apply truthy_str_true in Hne.
  destruct (select_unverified_sound _ _ _ Hq) as [Hf _].
  unfold verify_email. rewrite Hne, Hq.
  destruct (Z.ltb_spec (default 0 (u_verification_token_expiry u)) (now env));
    [lia|].
  unfold mark_verified, pool_query. now rewrite Hf.
Qed.

(** X17. A verification token works once. When it selects exactly one
    unverified user and has not expired, the endpoint answers 200, marks
    every row of that user's id verified and clears its token; no email
    or password changes; and presenting the same token again, at any later
    time, is answered 400 'Invalid or expired verification token' with
    the database unchanged. *)
Theorem verify_email_is_single_use (env env' : Env) (db : Db) (tok : string)
    (u : UserRow) :
  tok ≠ EmptyString →
  select_unverified_by_token db tok = inr [u] →
  now env ≤ default 0 (u_verification_token_expiry u) →
  let '(resp, db') := verify_email env db (Some tok) in
  status resp = 200
  ∧ (∀ v, v ∈ users db' → u_id v = u_id u →
       u_is_verified v = Some true ∧ u_verification_token v = None)
  ∧ u_email <$> users db' = u_email <$> users db
  ∧ u_password <$> users db' = u_password <$> users db
  ∧ verify_email env' db' (Some tok)
    = ({| status := 400;
          body := error_json "Invalid or expired verification token" |}, db').
Proof.
  intros Hne Hq Hx.
  rewrite (verify_email_success env db tok u [] Hne Hq Hx).
  destruct (select_unverified_sound _ _ _ Hq) as [Hf Hrows].
  split; [reflexivity|]. cbn [users map_users]. split; [|split; [|split]].
  - intros v Hin Hid. apply list_elem_of_fmap in Hin as (w & -> & _).
    destruct (decide (u_id w = u_id u)) as [_|Hd]; [now split | now destruct Hd].
  - rewrite <- list_fmap_compose. apply list_fmap_ext. intros i w _. cbn.
    now destruct (decide (u_id w = u_id u)).
  - rewrite <- list_fmap_compose. apply list_fmap_ext. intros i w _. cbn.
    now destruct (decide (u_id w = u_id u)).
  - apply truthy_str_true in Hne.
    unfold verify_email, select_unverified_by_token, pool_query.
    rewrite Hne. cbn [fault map_users users]. rewrite Hf.
    rewrite filter_none; [reflexivity|].
    intros v Hin [Htok Hver].
    apply list_elem_of_fmap in Hin as (w & -> & Hw).
    destruct (decide (u_id w = u_id u)) as [Hid|Hid]; [discriminate Htok|].
    assert (w ∈ [u]) as Hwu
      by (rewrite Hrows; apply list_elem_of_filter; now split).
    apply list_elem_of_singleton in Hwu as ->. now destruct Hid.
Qed.

(** X18. Email verification only ever verifies: whatever token is
    presented, every row keeps its id, email and password, a verified user
    stays verified, and the database is modified only when the answer is
    200; in particular a token past its expiry is answered 400 and changes
    nothing. *)
Theorem verify_email_only_verifies (env : Env) (db : Db)
    (token : option string) :
  let '(resp, db') := verify_email env db token in
  (status resp ≠ 200 → db' = db)
  ∧ Forall2 (λ v v', u_id v' = u_id v ∧ u_email v' = u_email v
                     ∧ u_password v' = u_password v
                     ∧ (u_is_verified v = Some true →
                        u_is_verified v' = Some true))
      (users db) (users db')
  ∧ (∀ tok u rest,
       token = Some tok → tok ≠ EmptyString →
       select_unverified_by_token db tok = inr (u :: rest) →
       default 0 (u_verification_token_expiry u) < now env →
       resp = {| status := 400;
                 body := error_json "Verification token has expired" |}).
Proof.
  assert (Forall2 (λ v v', u_id v' = u_id v ∧ u_email v' = u_email v
                           ∧ u_password v' = u_password v
                           ∧ (u_is_verified v = Some true →
                              u_is_verified v' = Some true))
            (users db) (users db)) as Hsame
    by (apply Forall_Forall2_diag, Forall_forall; now intros).
  unfold verify_email.
  destruct token as [tok|]; [|split; [done|]; split; [done|]; discriminate].
  destruct (Js.truthy_str tok) eqn:Ht.
  2:{ split; [done|]. split; [done|]. intros ? ? ? [= <-] Hne.
      apply truthy_str_true in Hne. congruence. }
  destruct (select_unverified_by_token db tok) as [err|[|u rest]] eqn:Hq.
  1,2: split; [done|]; split; [done|]; intros ? ? ? [= <-] _; congruence.
  destruct (Z.ltb_spec (default 0 (u_verification_token_expiry u)) (now env)).
  - split; [done|]. split; [done|]. reflexivity.
  - unfold mark_verified, pool_query.
    destruct (fault db).
    { split; [done|]. split; [done|].
      intros ? ? ? [= <-] _ Hsel. rewrite Hq in Hsel. simplify_eq. lia. }
    split; [intros Hst; now destruct Hst|]. split.
    + cbn. apply Forall2_fmap_self. intros v _.
      now destruct (decide (u_id v = u_id u)).
    + intros ? ? ? [= <-] _ Hsel. rewrite Hq in Hsel. simplify_eq. lia.
Qed.

Lemma register_created (env : Env) (db : Db) (r : Req) (e p : string)
    (resp : Response) :
  response (register env db r) = Some resp → status resp = 201 →
  b_email (reqbody r) = Some e → b_password (reqbody r) = Some p →
  e ≠ EmptyString ∧ p ≠ EmptyString
  ∧ select_users_by_email db e = inr []
  ∧ ∃ row,
      users (db_after (register env db r)) = users db ++ [row]
      ∧ fault (db_after (register env db r)) = None
      ∧ u_id row = next_id (u_id <$> users db)
      ∧ u_email row = e
      ∧ u_password row = bcrypt_hash p (salt env)
      ∧ u_is_verified row = Some false
      ∧ u_verification_token row = Some (randomHex env)
      ∧ u_verification_token_expiry row = Some (now env + ONE_DAY_MS).
Proof.
  intros Hresp Hst He Hp.
  destruct (register_outcome env db r)
    as [Hsame|(e' & p' & n & row & He' & Hp' & _ & Hne & Hnp & _ & Hq & Hins & _)].
  - exfalso. revert Hresp Hst Hsame. unfold register. rewrite He, Hp.
    destruct (b_fullName (reqbody r)) as [n|]; [|intros [= <-]; cbn; lia].
    destruct (Js.truthy_str e && Js.truthy_str p && Js.truthy_str n)%bool;
      [|intros [= <-]; cbn; lia].
    destruct (select_users_by_email db e) as [err|[|u rest]];
      [intros [= <-]; cbn; lia | | intros [= <-]; cbn; lia].
    destruct (insert_user _ _ _ _ _ _ _) as [err|[row db']] eqn:Hi;
      [intros [= <-]; cbn; lia|].
    intros _ _ Hsame. apply insert_user_rows in Hi as (Hu & _).
    cbn in Hsame. rewrite Hsame in Hu.
    apply (f_equal length) in Hu. rewrite length_app in Hu. cbn in Hu. lia.
  - rewrite He in He'. injection He' as <-.
    rewrite Hp in Hp'. injection Hp' as <-.
    apply insert_user_rows in Hins
      as (Hu & Hemail & Hpw & Hid & Hver & Htok & Hexp & Hf' & Hf & _).
    repeat split; try assumption. exists row.
    repeat split; try assumption. now rewrite Hf'.
Qed.

(** X19. Registration, verification and login compose when email
    verification is on: after a successful registration the new user is
    refused at login with 403 until the mailed token is presented to the
    verification endpoint within 24 hours; that call answers 200, and the
    same login then succeeds. It is assumed that [bcrypt.compare] accepts
    a password against its own hash and that the drawn token is not empty
    and not already the token of an unverified user. *)
Theorem register_verify_login (env env1 env2 : Env) (db : Db) (r r2 : Req)
    (e p : string) (resp : Response) :
  (∀ pw s, bcrypt_compare pw (bcrypt_hash pw s) = true) →
  response (register env db r) = Some resp → status resp = 201 →
  b_email (reqbody r) = Some e → b_password (reqbody r) = Some p →
  b_email (reqbody r2) = Some e → b_password (reqbody r2) = Some p →
  randomHex env ≠ EmptyString →
  select_unverified_by_token db (randomHex env) = inr [] →
  now env1 ≤ now env + ONE_DAY_MS →
  email_verification_on env2 = true →
  let db1 := db_after (register env db r) in
  let '(resp1, db2) := verify_email env1 db1 (Some (randomHex env)) in
  (∃ b, response (login env2 db1 r2) = Some {| status := 403; body := b |})
  ∧ status resp1 = 200
  ∧ ∃ b2, response (login env2 db2 r2) = Some (res_json b2)
          ∧ json_get "success" b2 = Some (JBool true).
Proof.
  intros Hbc Hresp Hst He Hp He2 Hp2 Htne Htok Hx Hon db1.
  destruct (register_created env db r e p resp Hresp Hst He Hp)
    as (Hne & Hnp & Hq & row & Hu & Hf1 & Hid & Hemail & Hpw & Hver & Hrt & Hrx).
  fold db1 in Hu, Hf1.
  pose proof (select_by_email_sound _ _ _ Hq) as [Hf Hqe].
  pose proof (select_unverified_sound _ _ _ Htok) as [_ Hqt].
  (* the row selected by email and by token after registration *)
  assert (select_users_by_email db1 e = inr [row]) as Hq1.
  { unfold select_users_by_email, pool_query. rewrite Hf1, Hu, filter_app.
    rewrite <- Hqe. cbn.
    destruct (decide ((u_email row =? e)%string = true)) as [_|Hd];
      [reflexivity|]. destruct Hd. rewrite Hemail. apply String.eqb_refl. }
  assert (select_unverified_by_token db1 (randomHex env) = inr [row]) as Ht1.
  { unfold select_unverified_by_token, pool_query. rewrite Hf1, Hu, filter_app.
    rewrite <- Hqt. cbn.
    destruct (decide (u_verification_token row = Some (randomHex env)
                      ∧ u_is_verified row = Some false)) as [_|Hd];
      [reflexivity|]. now destruct Hd. }
  rewrite (verify_email_success env1 db1 (randomHex env) row [] Htne Ht1)
    by (rewrite Hrx; cbn; lia).
  apply truthy_str_true in Hne as Hne', Hnp as Hnp'.
  split; [|split; [reflexivity|]].
  - unfold login. rewrite He2, Hp2, Hne', Hnp', Hq1, Hpw, Hbc, Hon, Hver. cbn.
    destruct (needs_new_verification env2 row); [|eauto].
    unfold update_user_verification, pool_query. rewrite Hf1. eauto.
  - set (f := λ v, if decide (u_id v = u_id row)
                   then set_verified (now env1) v else v).
    assert (users (map_users f db1) = users db ++ [set_verified (now env1) row])
      as Hu2.
    { cbn. rewrite Hu, fmap_app. f_equal.
      - rewrite <- (list_fmap_id (users db)) at 2.
        apply list_fmap_ext. intros i v Hv. unfold f.
        destruct (decide (u_id v = u_id row)) as [Heq|]; [|reflexivity].
        exfalso. apply (next_id_fresh (u_id <$> users db)).
        rewrite <- Hid, <- Heq. apply list_elem_of_fmap. exists v.
        split; [reflexivity|]. now apply list_elem_of_lookup_2 in Hv.
      - cbn. unfold f. now rewrite decide_True. }
    assert (select_users_by_email (map_users f db1) e
            = inr [set_verified (now env1) row]) as Hq2.
    { unfold select_users_by_email, pool_query.
      cbn [fault map_users]. rewrite Hf1, Hu2, filter_app, <- Hqe. cbn.
      destruct (decide ((u_email row =? e)%string = true)) as [_|Hd];
        [reflexivity|]. destruct Hd. rewrite Hemail. apply String.eqb_refl. }
    rewrite (login_reaches_success env2 _ r2 e p _ [] He2 Hne Hp2 Hnp Hq2).
    + unfold login_success. destruct (session r2); eexists; now split.
    + cbn. rewrite Hpw. apply Hbc.
    + cbn. apply andb_false_r.
Qed.

(** *** Account update *)

(** X20. The account update changes a name and a country and nothing
    else: whatever the request, every row keeps its id, email, password and
    verification state, rows of other users are left as they are, and the
    [email] of the body is ignored. The user is the one of the session
    when the session has a user id, else the one of [req.user]. *)
Theorem account_update_keeps_credentials (env : Env) (db : Db) (r : Req) :
  let res := account_handler env db r in
  let userId := if has_uid r then session_uid r else req_user_id r in
  Forall2 (λ v v', u_id v' = u_id v ∧ u_email v' = u_email v
                   ∧ u_password v' = u_password v
                   ∧ u_is_verified v' = u_is_verified v
                   ∧ (Some (u_id v) ≠ userId → v' = v))
    (users db) (users (db_after res))
  ∧ (∀ resp, response res = Some resp → status resp = 200 →
       ∃ i n, userId = Some i ∧ b_full_name (reqbody r) = Some n
              ∧ json_get "user" (body resp) ≫= json_get "id" = Some (JNum i)
              ∧ json_get "user" (body resp) ≫= json_get "full_name"
                = Some (JStr n)).
Proof.
  intros res userId. subst res userId.
  assert (∀ P : UserRow → UserRow → Prop, (∀ v, P v v) →
          Forall2 P (users db) (users db)) as Hsame
    by (intros P HP; apply Forall_Forall2_diag, Forall_forall; now intros).
  unfold account_handler.
  destruct (if has_uid r then session_uid r else req_user_id r) as [i|];
    [|split; [now apply Hsame | intros ? [= <-]; cbn; lia]].
  destruct (b_full_name (reqbody r)) as [n|];
    [|split; [now apply Hsame | intros ? [= <-]; cbn; lia]].
  destruct (Js.truthy_str n);
    [|split; [now apply Hsame | intros ? [= <-]; cbn; lia]].
  unfold update_user_profile, pool_query.
  destruct (fault db); [split; [now apply Hsame | intros ? [= <-]; cbn; lia]|].
  assert (Forall2 (λ v v', u_id v' = u_id v ∧ u_email v' = u_email v
                           ∧ u_password v' = u_password v
                           ∧ u_is_verified v' = u_is_verified v
                           ∧ (Some (u_id v) ≠ Some i → v' = v))
            (users db)
            ((λ u, if decide (u_id u = i)
                   then set_profile n
                          match b_country (reqbody r) with
                          | Some c => if Js.truthy_str c then Some c else None
                          | None => None
                          end (now env) u
                   else u) <$> users db)) as Hupd.
  { apply Forall2_fmap_self. intros v _.
    destruct (decide (u_id v = i)) as [Heq|Hneq]; cbn;
      (do 4 (split; [done|])); [|done].
    intros Hne. destruct Hne. now rewrite Heq. }
  destruct (filter (λ u, u_id u = i) (users db)) as [|u rest] eqn:Hfl; cbn.
  - split; [exact Hupd | intros ? [= <-]; cbn; lia].
  - split; [exact Hupd|]. intros resp [= <-] _. exists i, n.
    assert (u_id u = i) as Hid.
    { assert (u ∈ filter (λ u, u_id u = i) (users db)) as Hin
        by (rewrite Hfl; left).
      now apply list_elem_of_filter in Hin as [? _]. }
    cbn. now rewrite Hid.
Qed.

(** *** Bookmark categories *)

Lemma select_category_sound (db : Db) (i : Js.Id) (owner : Z)
    (rows : list CategoryRow) :
  select_category db i owner = inr rows →
  fault db = None
  ∧ ∃ n, Js.to_int i = Some n
         ∧ rows = filter (λ c, c_id c = n ∧ c_user_id c = owner)
                    (bookmark_categories db).
Proof.
  unfold select_category. destruct (fault db); [discriminate|].
  destruct (Js.to_int i) as [n|]; [|discriminate].
  intros [= <-]. eauto.
Qed.

Lemma modify_category_outcome (env : Env) (db : Db) (r : Req) (userId : Z)
    (i : Js.Id) (name nf : string) :
  let res := modify_category env db r userId i name nf in
  users (db_after res) = users db
  ∧ Forall2 (λ c c', c_id c' = c_id c ∧ c_user_id c' = c_user_id c
                     ∧ (c_user_id c ≠ userId → c' = c))
      (bookmark_categories db) (bookmark_categories (db_after res)).
Proof.
  assert (Forall2 (λ c c', c_id c' = c_id c ∧ c_user_id c' = c_user_id c
                           ∧ (c_user_id c ≠ userId → c' = c))
            (bookmark_categories db) (bookmark_categories db)) as Hsame
    by (apply Forall_Forall2_diag, Forall_forall; now intros).
  unfold modify_category.
  destruct (select_category db i userId) as [err|[|c rest]]; [done..|].
  unfold update_category.
  destruct (fault db); [done|]. destruct (Js.to_int i) as [n|]; [|done].
  cbn. split; [reflexivity|].
  apply Forall2_fmap_self. intros c' _.
  destruct (decide (c_id c' = n ∧ c_user_id c' = userId)) as [[_ Ho]|]; cbn;
    (do 2 (split; [done|])); [|done].
  intros Hne. now destruct Hne.
Qed.

Lemma create_category_outcome (env : Env) (db : Db) (r : Req) (userId : Z)
    (name : string) :
  let res := create_category env db r userId name in
  users (db_after res) = users db
  ∧ (bookmark_categories (db_after res) = bookmark_categories db
     ∨ ∃ row, c_user_id row = userId
              ∧ bookmark_categories (db_after res)
                = bookmark_categories db ++ [row]).
Proof.
  unfold create_category, insert_category, pool_query.
  destruct (fault db); cbn; [now split; [|left]|].
  split; [reflexivity|]. right. eexists. split; [|reflexivity]. reflexivity.
Qed.

(** X21. The create-or-update handlers for bookmark categories keep
    users apart: whatever the request, the users table is untouched, no
    category is removed, every category keeps its id and owner, the
    categories of users other than the caller ([req.user.id]) are left
    exactly as they are, and at most one row is added, owned by the
    caller. *)
Theorem category_handlers_keep_users_apart (env : Env) (db : Db) (r : Req) :
  ∀ h, h = category_post_handler ∨ h = category_put_handler →
    let db' := db_after (h env db r) in
    users db' = users db
    ∧ ∃ kept extra,
        bookmark_categories db' = kept ++ extra
        ∧ Forall2 (λ c c', c_id c' = c_id c ∧ c_user_id c' = c_user_id c
                           ∧ (Some (c_user_id c) ≠ req_user_id r → c' = c))
            (bookmark_categories db) kept
        ∧ (length extra ≤ 1)%nat
        ∧ Forall (λ c, Some (c_user_id c) = req_user_id r) extra.
Proof.
  assert (Forall2 (λ c c', c_id c' = c_id c ∧ c_user_id c' = c_user_id c
                           ∧ (Some (c_user_id c) ≠ req_user_id r → c' = c))
            (bookmark_categories db) (bookmark_categories db)) as Hsame
    by (apply Forall_Forall2_diag, Forall_forall; now intros).
  assert (users db = users db
          ∧ ∃ kept extra,
              bookmark_categories db = kept ++ extra
              ∧ Forall2 (λ c c', c_id c' = c_id c ∧ c_user_id c' = c_user_id c
                                 ∧ (Some (c_user_id c) ≠ req_user_id r → c' = c))
                  (bookmark_categories db) kept
              ∧ (length extra ≤ 1)%nat
              ∧ Forall (λ c, Some (c_user_id c) = req_user_id r) extra)
    as Hnone.
  { split; [reflexivity|]. exists (bookmark_categories db), [].
    rewrite app_nil_r. repeat split; [exact Hsame | cbn; lia | constructor]. }
  assert (∀ userId name, req_user_id r = Some userId →
          let db' := db_after (create_category env db r userId name) in
          users db' = users db
          ∧ ∃ kept extra,
              bookmark_categories db' = kept ++ extra
              ∧ Forall2 (λ c c', c_id c' = c_id c ∧ c_user_id c' = c_user_id c
                                 ∧ (Some (c_user_id c) ≠ Some userId → c' = c))
                  (bookmark_categories db) kept
              ∧ (length extra ≤ 1)%nat
              ∧ Forall (λ c, Some (c_user_id c) = Some userId) extra)
    as Hcreate.
  { intros userId name Hu db'. subst db'. rewrite Hu in Hsame.
    destruct (create_category_outcome env db r userId name)
      as [Hus [Hc|(row & Ho & Hc)]]; (split; [exact Hus|]).
    - exists (bookmark_categories db), []. rewrite app_nil_r, Hc.
      repeat split; [exact Hsame | cbn; lia | constructor].
    - exists (bookmark_categories db), [row]. rewrite Hc.
      repeat split; [exact Hsame | cbn; lia |].
      constructor; [now rewrite Ho | constructor]. }
  assert (∀ userId i name nf, req_user_id r = Some userId →
          let db' := db_after (modify_category env db r userId i name nf) in
          users db' = users db
          ∧ ∃ kept extra,
              bookmark_categories db' = kept ++ extra
              ∧ Forall2 (λ c c', c_id c' = c_id c ∧ c_user_id c' = c_user_id c
                                 ∧ (Some (c_user_id c) ≠ Some userId → c' = c))
                  (bookmark_categories db) kept
              ∧ (length extra ≤ 1)%nat
              ∧ Forall (λ c, Some (c_user_id c) = Some userId) extra)
    as Hmodify.
  { intros userId i name nf Hu db'. subst db'.
    destruct (modify_category_outcome env db r userId i name nf) as [Hus Hc].
    split; [exact Hus|].
    exists (bookmark_categories (db_after (modify_category env db r userId i name nf))), [].
    rewrite app_nil_r. repeat split; [|cbn; lia | constructor].
    eapply Forall2_impl; [exact Hc|]. cbn. intros c c' (? & ? & Hk).
    repeat split; try done. intros Hne. apply Hk. congruence. }
  intros h [->| ->] db'; subst db'.
  - unfold category_post_handler.
    destruct (req_user_id r) as [userId|] eqn:Hu; [|exact Hnone].
    destruct (b_name (reqbody r)) as [name|]; [|exact Hnone].
    destruct (Js.truthy_str name); [|exact Hnone].
    destruct (b_id (reqbody r)) as [i|]; [|now apply Hcreate].
    destruct (Js.truthy_id i); [|now apply Hcreate].
    destruct (is_temporary_id i); [now apply Hcreate | now apply Hmodify].
  - unfold category_put_handler.
    destruct (req_user_id r) as [userId|] eqn:Hu; [|exact Hnone].
    destruct (b_id (reqbody r)) as [i|]; [|exact Hnone].
    destruct (Js.truthy_id i); [|exact Hnone].
    destruct (b_name (reqbody r)) as [name|]; [|exact Hnone].
    destruct (Js.truthy_str name); [|exact Hnone].
    destruct (is_temporary_id i); [now apply Hcreate | now apply Hmodify].
Qed.

(** X22. With an id of at most ten characters the handlers update in
    place: when the caller owns a category of that id, the answer is 200
    with the category under its new name and icon, and the table has the
    same number of rows; when the caller owns none, the answer is 404 and
    the database is unchanged, whoever else owns a category of that id. *)
Theorem category_update_in_place (env : Env) (db : Db) (r : Req)
    (userId : Z) (i : Js.Id) (name : string) :
  req_user_id r = Some userId →
  b_id (reqbody r) = Some i → Js.truthy_id i = true →
  is_temporary_id i = false →
  b_name (reqbody r) = Some name → name ≠ EmptyString →
  ∀ rows, select_category db i userId = inr rows →
    ∀ h, h = category_post_handler ∨ h = category_put_handler →
      let res := h env db r in
      (rows = [] →
       (∃ b, response res = Some {| status := 404; body := b |})
       ∧ db_after res = db)
      ∧ (∀ c rest, rows = c :: rest →
         response res
         = Some {| status := 200;
                   body := JObj [("message", JStr "Category updated successfully");
                                 ("category",
                                  category_json
                                    (set_category name
                                       (Js.or_str (b_icon (reqbody r)) "wrench")
                                       (now env) c))]%string |}
         ∧ length (bookmark_categories (db_after res))
           = length (bookmark_categories db)
         ∧ c_user_id c = userId).
Proof.
  intros Hu Hi Ht Htmp Hn Hne rows Hq h Hh res.
  assert (∃ nf, res = modify_category env db r userId i name nf) as [nf Hres].
  { apply truthy_str_true in Hne. subst res.
    destruct Hh as [->| ->]; eexists.
    - unfold category_post_handler. now rewrite Hu, Hn, Hne, Hi, Ht, Htmp.
    - unfold category_put_handler. now rewrite Hu, Hn, Hne, Hi, Ht, Htmp. }
  destruct (select_category_sound _ _ _ _ Hq) as (Hf & n & Hn' & Hrows).
  assert (∀ nf, let res := modify_category env db r userId i name nf in
          (rows = [] →
           (∃ b, response res = Some {| status := 404; body := b |})
           ∧ db_after res = db)
          ∧ (∀ c rest, rows = c :: rest →
             response res
             = Some {| status := 200;
                       body := JObj [("message", JStr "Category updated successfully");
                                     ("category",
                                      category_json
                                        (set_category name
                                           (Js.or_str (b_icon (reqbody r)) "wrench")
                                           (now env) c))]%string |}
             ∧ length (bookmark_categories (db_after res))
               = length (bookmark_categories db)
             ∧ c_user_id c = userId)) as Hmod.
  { clear nf Hres. intros nf res0. subst res0. unfold modify_category.
    rewrite Hq. split.
    - intros ->. split; [eexists; reflexivity | reflexivity].
    - intros c rest ->. unfold update_category. rewrite Hf, Hn', <- Hrows.
      cbn. split; [reflexivity|]. split; [now rewrite length_fmap|].
      assert (c ∈ c :: rest) as Hc by left. rewrite Hrows in Hc.
      now apply list_elem_of_filter in Hc as [[_ ?] _]. }
  subst res. rewrite Hres. apply Hmod.
Qed.

(** *** The Twitter key and cache *)

Lemma trim_end_cons (c : ascii) (s : string) :
  Js.is_space c = false → Js.trim_end (String c s) = String c (Js.trim_end s).
Proof. intros H. cbn. rewrite H. now destruct (Js.trim_end s). Qed.

(** X23. Where the Twitter API key comes from, for a username without
    white space at its ends: a leading [@] makes no difference; a non-empty
    key stored for the connected profile wins over the environment; the
    environment's token is the fallback when no profile matches or its
    key is null or empty; a failing database query gives no key at all,
    even when the environment has a token; and the key is never the empty
    string. A white-space character before the name (TAB, LF, VT, FF, CR,
    SPACE or the no-break space) makes no difference either. *)
Theorem getTwitterApiKey_sources (env : Env) (db : Db) (u : string) :
  Js.trim_start u = u → Js.trim_end u = u → Js.startsWith u "@" = false →
  getTwitterApiKey env db ("@" +:+ u) = getTwitterApiKey env db u
  ∧ (∀ e, fault db = Some e → (getTwitterApiKey env db u).1 = None)
  ∧ (∀ k rest, select_api_key db u = inr (Some k :: rest) →
       k ≠ EmptyString → (getTwitterApiKey env db u).1 = Some k)
  ∧ (select_api_key db u = inr [] →
     (getTwitterApiKey env db u).1 = env_token env)
  ∧ (∀ rest, select_api_key db u = inr (None :: rest) →
     (getTwitterApiKey env db u).1 = env_token env)
  ∧ (getTwitterApiKey env db u).1 ≠ Some EmptyString
  ∧ (∀ c, nat_of_ascii c ∈ [9; 10; 11; 12; 13; 32; 160]%nat →
       getTwitterApiKey env db (String c u) = getTwitterApiKey env db u).
Proof.
  intros Hs He Ha.
  assert (∀ c, nat_of_ascii c ∈ [9; 10; 11; 12; 13; 32; 160]%nat →
          getTwitterApiKey env db (String c u) = getTwitterApiKey env db u)
    as Hspace.
  { intros c Hc.
    assert (Js.is_space c = true) as Hsp.
    { unfold Js.is_space. rewrite !elem_of_cons, elem_of_nil in Hc.
      destruct Hc as [ -> | [ -> | [ -> | [ -> | [ -> | [ -> | [ -> | [] ] ] ] ] ] ] ];
        reflexivity. }
    unfold getTwitterApiKey.
    assert (Js.trim (String c u) = Js.trim u) as ->; [|reflexivity].
    unfold Js.trim. cbn [Js.trim_start]. now rewrite Hsp. }
  assert (∀ v, Js.trim v = u → Js.startsWith (Js.trim v) "@" = false →
          getTwitterApiKey env db v
          = match select_api_key db u with
            | inl _ => (None, [EQuery (SelectApiKey u)])
            | inr (Some k :: _) =>
                if Js.truthy_str k then (Some k, [EQuery (SelectApiKey u)])
                else (env_token env, [EQuery (SelectApiKey u)])
            | inr _ => (env_token env, [EQuery (SelectApiKey u)])
            end) as Hclean.
  { intros v Hv Hat. unfold getTwitterApiKey, env_token. rewrite Hat, Hv.
    destruct (select_api_key db u) as [err|[|[k|] rest]]; try reflexivity. }
  assert (Js.trim u = u) as Htrim by (unfold Js.trim; now rewrite Hs, He).
  assert (getTwitterApiKey env db ("@" +:+ u) = getTwitterApiKey env db u) as Hat.
  { rewrite (Hclean u Htrim) by now rewrite Htrim.
    unfold getTwitterApiKey, env_token.
    assert (Js.trim ("@" +:+ u) = String "@" u) as ->.
    { unfold Js.trim. change ("@" +:+ u) with (String "@" u).
      cbn [Js.trim_start]. change (Js.is_space "@") with false. cbn iota.
      rewrite trim_end_cons by reflexivity. now rewrite He. }
    assert (Js.startsWith (String "@" u) "@" = true) as ->.
    { unfold Js.startsWith. cbn. destruct (ascii_dec "@" "@"); [|done].
      now destruct u. }
    assert (Js.substring_from 1 (String "@" u) = u) as ->.
    { unfold Js.substring_from. cbn. rewrite Nat.sub_0_r.
      destruct u; [reflexivity|]. cbn. now rewrite substring_all. }
    destruct (select_api_key db u) as [err|[|[k|] rest]]; try reflexivity. }
  split; [exact Hat|].
  refine (conj _ (conj _ (conj _ (conj _ (conj _ Hspace)))));
    rewrite (Hclean u Htrim) by now rewrite Htrim.
  - intros e Hf. unfold select_api_key, pool_query. now rewrite Hf.
  - intros k rest -> Hk. apply truthy_str_true in Hk. now rewrite Hk.
  - now intros ->.
  - now intros rest ->.
  - unfold env_token.
    destruct (select_api_key db u) as [err|[|[k|] rest]]; cbn;
      try discriminate;
      try (destruct (TWITTER_BEARER_TOKEN env) as [t|]; [|discriminate];
           destruct (Js.truthy_str t) eqn:Ht; [|discriminate];
           intros [= ->]; discriminate).
    destruct (Js.truthy_str k) eqn:Hk; cbn.
    + intros [= ->]. discriminate.
    + destruct (TWITTER_BEARER_TOKEN env) as [t|]; [|discriminate].
      destruct (Js.truthy_str t) eqn:Ht; [|discriminate].
      intros [= ->]. discriminate.
Qed.

Lemma refetch_success (env : Env) (db : Db) (cache : gmap string CacheEntry)
    (username key apiKey : string) (c : option CacheEntry) (es : list Effect) :
  getTwitterApiKey env db username = (Some apiKey, es) →
  up_ok (twitter_api (profile_url username) apiKey) = true →
  let d := default JNull
             (json_get "data" (up_body (twitter_api (profile_url username) apiKey))) in
  twitter_refetch env db cache username key c
  = tw_reply 200 d (<[key := {| data := d; timestamp := now env |}]> cache)
      (es ++ [EFetch (profile_url username) apiKey]).
Proof.
  intros Hk Hok d. subst d. unfold twitter_refetch. rewrite Hk.
  set (up := twitter_api (profile_url username) apiKey) in *.
  unfold up_ok in Hok. apply andb_prop in Hok as [H1 H2].
  apply Z.leb_le in H1, H2.
  destruct (Z.eqb_spec (up_status up) 401); [lia|].
  destruct (Z.eqb_spec (up_status up) 429); [lia|].
  destruct (Z.eqb_spec (up_status up) 404); [lia|].
  unfold up_ok.
  assert (negb ((200 <=? up_status up) && (up_status up <=? 299)) = false)
    as -> by (apply negb_false_iff, andb_true_intro; split; now apply Z.leb_le).
  reflexivity.
Qed.

Lemma getTwitterApiKey_query (env : Env) (db : Db) (username : string) :
  (getTwitterApiKey env db username).2
  = [EQuery (SelectApiKey (let t := Js.trim username in
                           if Js.startsWith t "@"
                           then Js.substring_from 1 t else t))].
Proof.
  unfold getTwitterApiKey.
  destruct (select_api_key db _) as [err|[|[k|] rest]]; try reflexivity.
  now destruct (Js.truthy_str k).
Qed.

Lemma refetch_shape (env : Env) (db : Db) (cache : gmap string CacheEntry)
    (username key : string) (c : option CacheEntry) :
  let res := twitter_refetch env db cache username key c in
  (tw_cache res = cache
   ∨ (status (tw_response res) = 200
      ∧ tw_cache res
        = <[key := {| data := body (tw_response res);
                      timestamp := now env |}]> cache))
  ∧ (tw_effects res = [EQuery (SelectApiKey
                                 (let t := Js.trim username in
                                  if Js.startsWith t "@"
                                  then Js.substring_from 1 t else t))]
     ∨ ∃ apiKey,
         (getTwitterApiKey env db username).1 = Some apiKey
         ∧ tw_effects res
           = (getTwitterApiKey env db username).2
               ++ [EFetch (profile_url username) apiKey]).
Proof.
  unfold twitter_refetch.
  destruct (getTwitterApiKey env db username) as [[apiKey|] es] eqn:Hk.
  - set (up := twitter_api (profile_url username) apiKey).
    assert (∀ st b ca, tw_effects (tw_reply st b ca
                         (es ++ [EFetch (profile_url username) apiKey]))
                       = [EQuery (SelectApiKey
                                    (let t := Js.trim username in
                                     if Js.startsWith t "@"
                                     then Js.substring_from 1 t else t))]
                       ∨ ∃ k, Some apiKey = Some k
                              ∧ tw_effects (tw_reply st b ca
                                  (es ++ [EFetch (profile_url username) apiKey]))
                                = es ++ [EFetch (profile_url username) k]) as He
      by (intros; right; now exists apiKey).
    destruct (up_status up =? 401); [split; [now left | apply He]|].
    destruct (up_status up =? 429);
      [destruct c; (split; [now left | apply He])|].
    destruct (up_status up =? 404); [split; [now left | apply He]|].
    destruct (negb (up_ok up)); [split; [now left | apply He]|].
    split; [right; now split | apply He].
  - split; [now left|]. left. cbn.
    pose proof (getTwitterApiKey_query env db username) as Hq.
    now rewrite Hk in Hq.
Qed.

(** X24. The profile endpoint writes to the cache only after a successful
    upstream answer: either the cache comes back as it was, or the answer
    is 200 and the only change is the entry at the lower-cased username,
    which holds the body just sent and the current time. Every other key
    keeps its entry. A request makes at most one database query and at
    most one upstream call, and none at all when it is answered from the
    cache. *)
Theorem twitter_profile_cache_discipline (env : Env) (db : Db)
    (cache : gmap string CacheEntry) (r : Req) :
  let res := twitter_profile env db cache r in
  (tw_cache res = cache
   ∨ ∃ u, query_username r = Some u
          ∧ status (tw_response res) = 200
          ∧ tw_cache res
            = <[toLowerCase u := {| data := body (tw_response res);
                                    timestamp := now env |}]> cache)
  ∧ (∀ u k, query_username r = Some u → k ≠ toLowerCase u →
       tw_cache res !! k = cache !! k)
  ∧ (tw_effects res = []
     ∨ (∃ q, tw_effects res = [EQuery q])
     ∨ ∃ q url key, tw_effects res = [EQuery q; EFetch url key]).
Proof.
  intros res.
  assert ((tw_cache res = cache
           ∨ ∃ u, query_username r = Some u
                  ∧ status (tw_response res) = 200
                  ∧ tw_cache res
                    = <[toLowerCase u := {| data := body (tw_response res);
                                            timestamp := now env |}]> cache)
          ∧ (tw_effects res = []
             ∨ (∃ q, tw_effects res = [EQuery q])
             ∨ ∃ q url key, tw_effects res = [EQuery q; EFetch url key]))
    as [Hc He].
  { subst res. unfold twitter_profile.
    destruct (query_username r) as [u|]; [|split; now left].
    destruct (negb (Js.truthy_str u)); [split; now left|].
    assert (∀ c, let res := twitter_refetch env db cache u (toLowerCase u) c in
            (tw_cache res = cache
             ∨ ∃ u', Some u = Some u'
                     ∧ status (tw_response res) = 200
                     ∧ tw_cache res
                       = <[toLowerCase u' := {| data := body (tw_response res);
                                                timestamp := now env |}]> cache)
            ∧ (tw_effects res = []
               ∨ (∃ q, tw_effects res = [EQuery q])
               ∨ ∃ q url key, tw_effects res = [EQuery q; EFetch url key]))
      as Hre.
    { intros c res.
      destruct (refetch_shape env db cache u (toLowerCase u) c) as [Hc He].
      fold res in Hc, He. split.
      - destruct Hc as [Hc|[Hs Hc]]; [now left|]. right. now exists u.
      - destruct He as [He|(k & Hk & He)]; [right; left; eauto|].
        right. right. rewrite He, getTwitterApiKey_query. cbn. eauto. }
    destruct (cache !! toLowerCase u) as [c|].
    - destruct (fresh env c); [split; now left | apply Hre].
    - apply Hre. }
  split; [exact Hc|]. split; [|exact He].
  intros u k Hu Hne. destruct Hc as [->|(u' & Hu' & _ & ->)]; [reflexivity|].
  rewrite Hu in Hu'. injection Hu' as <-. now apply lookup_insert_ne.
Qed.

(** X25. A profile fetched once is served from the cache afterwards: when
    a request misses the cache (or finds a stale entry), an API key is
    found and the upstream answers 2xx, then any request within the next
    15 minutes whose username lower-cases to the same key is answered with
    the same body, without any query or upstream call, and leaves the
    cache as it is. *)
Theorem profile_fetched_once_then_cached (env env2 : Env) (db db2 : Db)
    (cache : gmap string CacheEntry) (r r2 : Req) (u u2 apiKey : string)
    (es : list Effect) :
  query_username r = Some u → u ≠ EmptyString →
  (∀ c, cache !! toLowerCase u = Some c → fresh env c = false) →
  getTwitterApiKey env db u = (Some apiKey, es) →
  up_ok (twitter_api (profile_url u) apiKey) = true →
  query_username r2 = Some u2 → u2 ≠ EmptyString →
  toLowerCase u2 = toLowerCase u →
  now env2 - now env < PROFILE_CACHE_TTL →
  let res := twitter_profile env db cache r in
  let res2 := twitter_profile env2 db2 (tw_cache res) r2 in
  status (tw_response res) = 200
  ∧ tw_response res2 = tw_response res
  ∧ tw_effects res2 = []
  ∧ tw_cache res2 = tw_cache res.
Proof.
  intros Hq Hne Hstale Hk Hok Hq2 Hne2 Hlow Hage res res2.
  assert (res = twitter_refetch env db cache u (toLowerCase u)
                  (cache !! toLowerCase u)) as Hres.
  { subst res. unfold twitter_profile. rewrite Hq.
    apply truthy_str_true in Hne. rewrite Hne. cbn.
    destruct (cache !! toLowerCase u) as [c|] eqn:Hc; [|reflexivity].
    now rewrite (Hstale c eq_refl). }
  rewrite (refetch_success env db cache u _ apiKey _ es Hk Hok) in Hres.
  set (d := default JNull
              (json_get "data" (up_body (twitter_api (profile_url u) apiKey))))
    in *.
  assert (res2 = tw_reply 200 d (tw_cache res) []) as ->.
  { subst res2.
    apply (profile_cached env2 db2 (tw_cache res) r2 u2
             {| data := d; timestamp := now env |} Hq2 Hne2);
      [|exact Hage].
    rewrite Hres, Hlow. cbn. apply lookup_insert_eq. }
  rewrite Hres. repeat split.
Qed.

(** *** Session check, logout and the middleware chain *)

(** X28. The session check only reads the database: whatever the request
    and the outcome, the database afterwards is the one before. When the
    resolved user has no row, the answer is 404 and the session is
    destroyed, so that a stored session is gone from the request; when the
    query fails, the answer is 500 with [isValid: false] and the session is
    left alone. *)
Theorem session_check_reads_only (env : Env) (db : Db) (r : Req) :
  let res := auth_session env db r in
  db_after res = db
  ∧ (∀ userId, resolved_user_id env r = Some userId →
       select_users_by_id db userId = inr [] →
       ∀ s, session r = Some s →
         ESessionDestroy ∈ effects res
         ∧ session (req_after res) = destroy_session s
         ∧ (isTemporary s = false → session (req_after res) = None))
  ∧ (∀ userId e, resolved_user_id env r = Some userId →
       select_users_by_id db userId = inl e →
       is_invalid res 500 ∧ req_after res = r).
Proof.
  intros res. subst res. unfold auth_session.
  destruct (resolved_user_id env r) as [i|]; [|repeat split; discriminate].
  destruct (select_users_by_id db i) as [err|[|u rest]] eqn:Hq.
  - split; [reflexivity|]. split; [intros ? [= <-]; congruence|].
    intros ? ? [= <-] _. split; [|reflexivity].
    eexists. split; reflexivity.
  - split; [now destruct (session r)|]. split.
    + intros ? [= <-] _ s Hs. rewrite Hs. cbn.
      split; [rewrite !elem_of_cons; auto|]. split; [reflexivity|].
      unfold destroy_session. now intros ->.
    + intros ? ? [= <-]. congruence.
  - destruct (refresh_session env r i). cbn.
    split; [reflexivity|]. split; intros ? ?; congruence.
Qed.

Lemma loginRequired_headers (env : Env) (db : Db) (r : Req) :
  authorization (req_after (loginRequired env db r)) = authorization r
  ∧ db_after (loginRequired env db r) = db
  ∧ (session r = None → session (req_after (loginRequired env db r)) = None)
  ∧ (response (loginRequired env db r) = None →
     ∀ s, session r = Some s → has_uid (req_after (loginRequired env db r)) = true)
  ∧ (is_Some (response (loginRequired env db r)) →
     req_after (loginRequired env db r) = r
     ∧ effects (loginRequired env db r) = []).
Proof.
  assert (∀ d, id (claims d) ≠ 0 → has_uid r = false →
          let res := adopt d r db in
          authorization (req_after res) = authorization r
          ∧ db_after res = db
          ∧ (session r = None → session (req_after res) = None)
          ∧ (response res = None →
             ∀ s, session r = Some s → has_uid (req_after res) = true)
          ∧ (is_Some (response res) →
             req_after res = r ∧ effects res = [])) as Hadopt.
  { intros d Hne Hu res. subst res.
    destruct (adopt_result d r db) as (Hr & Hd & _ & Ha & _ & _ & Hn & Hs).
    split; [exact Ha|]. split; [exact Hd|]. split; [intros H; now apply Hn|].
    split.
    - intros _ s Hses. destruct (Hs s Hses) as [_ Hfill].
      destruct (Hfill Hu) as [Hs' _]. unfold has_uid, session_uid.
      rewrite Hs'. cbn. now apply truthy_num_true.
    - rewrite Hr. intros [? ?]. discriminate. }
  unfold loginRequired.
  destruct (has_uid r) eqn:Hu.
  - cbn. repeat split; try done; try (intros [? ?]; discriminate).
  - destruct (bearer_token r ≫= verified env) as [d|] eqn:Hb.
    + apply Hadopt; [|reflexivity].
      destruct (bearer_token r); [|discriminate].
      now apply verified_truthy in Hb as [_ ?].
    + destruct (cookie_token r ≫= verified env) as [d|] eqn:Hc.
      * apply Hadopt; [|reflexivity].
        destruct (cookie_token r); [|discriminate].
        now apply verified_truthy in Hc as [_ ?].
      * cbn. repeat split; try done.
Qed.

Lemma session_fallback_keeps (env : Env) (r : Req) :
  is_Some (session (session_fallback env r))
  ∧ authorization (session_fallback env r) = authorization r
  ∧ reqbody (session_fallback env r) = reqbody r.
Proof.
  unfold session_fallback. destruct (session r) as [s|] eqn:Hs.
  - rewrite Hs. eauto.
  - destruct (bearer_token r) as [tok|]; [|cbn; eauto].
    destruct (jwt_verify tok (JWT_SECRET env) (now env)); cbn; eauto.
Qed.

Lemma jwt_fallback_keeps (env : Env) (r : Req) :
  session (jwt_fallback env r) = session r
  ∧ authorization (jwt_fallback env r) = authorization r
  ∧ reqbody (jwt_fallback env r) = reqbody r.
Proof.
  unfold jwt_fallback. destruct (has_uid r); [done|].
  destruct (bearer_token r) as [tok|]; [|done].
  now destruct (jwt_verify tok (JWT_SECRET env) (now env)).
Qed.

Lemma loginRequired_repairs_body (env : Env) (db : Db) (r : Req) :
  reqbody (req_after (loginRequired env db r)) = reqbody r.
Proof.
  unfold loginRequired. destruct (has_uid r); [reflexivity|].
  destruct (bearer_token r ≫= verified env) as [d|];
    [now destruct (adopt_result d r db) as (_ & _ & _ & _ & _ & ? & _)|].
  destruct (cookie_token r ≫= verified env) as [d|];
    [now destruct (adopt_result d r db) as (_ & _ & _ & _ & _ & ? & _)|].
  reflexivity.
Qed.

(** X29. A route registered behind [loginRequired]: either the request
    is answered 401 and the handler does not run, or the handler runs on a
    request with the same headers and body, and its answer is the
    route's. That request has a session user id exactly when the original
    request had a session; when the original request had no session user
    id it carries as [req.user] the payload that [jwt.verify] returned,
    with a non-zero id, for the token of its bearer header or of its
    [jwt] cookie, and otherwise it is the original request, whose
    [req.user] is not filled in. *)
Theorem handler_behind_loginRequired (env : Env)
    (handler : Db → Req → Result) (db : Db) (r : Req) :
  let res := guarded (loginRequired env) handler db r in
  res = reply 401 authentication_required r db []
  ∨ ∃ r' es, (has_uid r' = true ↔ is_Some (session r))
             ∧ (has_uid r = true → r' = r)
             ∧ (has_uid r = false →
                ∃ token d,
                  (bearer_token r = Some token ∨ cookie_token r = Some token)
                  ∧ jwt_verify token (JWT_SECRET env) (now env) = inr d
                  ∧ id (claims d) ≠ 0
                  ∧ user r' = Some d)
             ∧ authorization r' = authorization r
             ∧ reqbody r' = reqbody r
             ∧ response res = response (handler db r')
             ∧ req_after res = req_after (handler db r')
             ∧ db_after res = db_after (handler db r')
             ∧ effects res = es ++ effects (handler db r').
Proof.
  intros res. subst res. unfold guarded.
  destruct (loginRequired_headers env db r) as (Ha & Hd & Hnone & Hu & Hfail).
  pose proof (loginRequired_repairs_body env db r) as Hb.
  destruct (response (loginRequired env db r)) as [resp|] eqn:Hresp.
  - left. revert Hresp. unfold loginRequired.
    destruct (has_uid r); [discriminate|].
    destruct (bearer_token r ≫= verified env) as [d|];
      [destruct (adopt_result d r db) as [-> _]; discriminate|].
    destruct (cookie_token r ≫= verified env) as [d|];
      [destruct (adopt_result d r db) as [-> _]; discriminate|].
    reflexivity.
  - right. exists (req_after (loginRequired env db r)),
                  (effects (loginRequired env db r)).
    rewrite Hd. cbn.
    split.
    { split.
      - intros Hh. destruct (session r) as [s|] eqn:Hs; [eauto|].
        unfold has_uid, session_uid in Hh.
        rewrite (Hnone eq_refl) in Hh. discriminate.
      - intros [s Hs]. now apply (Hu eq_refl s). }
    split.
    { intros Hh. unfold loginRequired. now rewrite Hh. }
    split.
    { intros Hh. revert Hresp. unfold loginRequired. rewrite Hh.
      destruct (bearer_token r ≫= verified env) as [d|] eqn:Hbt.
      - intros _.
        destruct (adopt_result d r db) as (_ & _ & Hus & _).
        destruct (bearer_token r) as [tok|]; [|discriminate].
        apply verified_truthy in Hbt as [Hv Hne].
        exists tok, d. split; [now left|]. now split.
      - destruct (cookie_token r ≫= verified env) as [d|] eqn:Hct;
          [|discriminate].
        intros _.
        destruct (adopt_result d r db) as (_ & _ & Hus & _).
        destruct (cookie_token r) as [tok|]; [|discriminate].
        apply verified_truthy in Hct as [Hv Hne].
        exists tok, d. split; [now right|]. now split. }
    split; [exact Ha|]. split; [exact Hb|]. repeat split.
Qed.

Lemma loginRequired_decides (env : Env) (db : Db) (r : Req) :
  (loginRequired_userId env r = None →
   loginRequired env db r = reply 401 authentication_required r db [])
  ∧ (is_Some (loginRequired_userId env r) →
     response (loginRequired env db r) = None).
Proof.
  unfold loginRequired, loginRequired_userId.
  destruct (has_uid r) eqn:Hu.
  - destruct (has_uid_session_uid r Hu) as (i & -> & _).
    split; [discriminate | reflexivity].
  - destruct (bearer_token r ≫= verified env) as [d|].
    { split; [discriminate|]. intros _. now destruct (adopt_result d r db). }
    destruct (cookie_token r ≫= verified env) as [d|].
    { split; [discriminate|]. intros _. now destruct (adopt_result d r db). }
    split; [reflexivity|]. intros [? ?]. discriminate.
Qed.

(** X30. Logout destroys the session and nothing else. A request that
    [loginRequired] refuses is answered 401 and its session is not
    touched. Otherwise a stored session is removed from the request, with
    200, or 500 when the store reports an error; without any session the
    answer is 200 'Session already destroyed or invalid'. The database is
    never modified, and the bearer token is not revoked: the same header
    presented afterwards, without a session, still passes
    [loginRequired]. *)
Theorem logout_destroys_only_the_session (env : Env) (destroy_fails : bool)
    (db : Db) (r : Req) :
  let res := logout env destroy_fails db r in
  db_after res = db
  ∧ (loginRequired_userId env r = None →
     res = reply 401 authentication_required r db [])
  ∧ (is_Some (loginRequired_userId env r) →
     (session r = None →
      response res
      = Some (res_json (JObj [("message",
                               JStr "Session already destroyed or invalid")]%string))
      ∧ ESessionDestroy ∉ effects res)
     ∧ (∀ s, session r = Some s →
        ESessionDestroy ∈ effects res
        ∧ (∃ b, response res
                = Some {| status := if (destroy_fails && negb (isTemporary s))%bool
                                    then 500 else 200;
                          body := b |})
        ∧ (isTemporary s = false → session (req_after res) = None)))
  ∧ (∀ d, bearer_token r ≫= verified env = Some d →
     response (loginRequired env db (with_session (req_after res) None))
     = None).
Proof.
  intros res. subst res. unfold logout, guarded.
  destruct (loginRequired_decides env db r) as [Hrej Hacc].
  destruct (loginRequired_headers env db r) as (Ha & Hd & Hnone & Huid & Hfail).
  assert (∀ r', authorization r' = authorization r →
          ∀ d, bearer_token r ≫= verified env = Some d →
          response (loginRequired env db (with_session r' None)) = None)
    as Htoken.
  { intros r' Hr' d Hb. unfold loginRequired.
    assert (has_uid (with_session r' None) = false) as -> by reflexivity.
    assert (bearer_token (with_session r' None) = bearer_token r) as ->
      by (unfold bearer_token; cbn; now rewrite Hr').
    rewrite Hb. now destruct (adopt_result d (with_session r' None) db). }
  destruct (loginRequired_userId env r) as [i|] eqn:Hi.
  - rewrite (Hacc (mk_is_Some _ _ eq_refl)) in *.
    set (r1 := req_after (loginRequired env db r)) in *.
    rewrite Hd. unfold logout_handler.
    destruct (session r) as [s|] eqn:Hs.
    + (* the session is still there after loginRequired, with the same kind *)
      assert (∃ s1, session r1 = Some s1 ∧ isTemporary s1 = isTemporary s)
        as (s1 & Hs1 & Ht1).
      { subst r1. unfold loginRequired.
        destruct (has_uid r); [cbn; eauto|].
        assert (∀ d, ∃ s1, session (req_after (adopt d r db)) = Some s1
                           ∧ isTemporary s1 = isTemporary s) as Had.
        { intros d. unfold adopt. cbn. rewrite Hs.
          destruct (Js.truthy_opt Js.truthy_num (uid s)); cbn; eauto. }
        destruct (bearer_token r ≫= verified env) as [d|]; [apply Had|].
        destruct (cookie_token r ≫= verified env) as [d|]; [apply Had|].
        cbn. eauto. }
      rewrite Hs1, Ht1.
      assert (∀ st b,
        st = (if (destroy_fails && negb (isTemporary s))%bool then 500 else 200) →
        (is_Some (Some i) →
         (Some s = None →
          Some {| status := st; body := b |}
          = Some (res_json (JObj [("message",
                   JStr "Session already destroyed or invalid")]%string))
          ∧ (ESessionDestroy
             ∉ effects (loginRequired env db r) ++ [ESessionDestroy]))
         ∧ (∀ s0, Some s = Some s0 →
            ESessionDestroy
            ∈ effects (loginRequired env db r) ++ [ESessionDestroy]
            ∧ (∃ b0, Some {| status := st; body := b |}
                     = Some {| status := if (destroy_fails
                                             && negb (isTemporary s0))%bool
                                         then 500 else 200;
                               body := b0 |})
            ∧ (isTemporary s0 = false → destroy_session s1 = None)))) as Hout.
      { intros st b -> _. split; [discriminate|]. intros ? [= <-].
        split; [apply elem_of_app; right; left|]. split; [eauto|].
        intros Ht. unfold destroy_session. now rewrite Ht1, Ht. }
      destruct (destroy_fails && negb (isTemporary s))%bool eqn:Hb.
      * split; [reflexivity|]. split; [discriminate|]. split.
        -- apply (Hout 500 _ eq_refl).
        -- intros d Hd'. now apply (Htoken _ Ha d).
      * split; [reflexivity|]. split; [discriminate|]. split.
        -- apply (Hout 200 _ eq_refl).
        -- intros d Hd'. now apply (Htoken _ Ha d).
    + rewrite (Hnone eq_refl). cbn.
      split; [reflexivity|]. split; [discriminate|]. split.
      * intros _. split; [|discriminate]. intros _. split; [reflexivity|].
        rewrite app_nil_r.
        assert (effects (loginRequired env db r) = []) as ->; [|apply not_elem_of_nil].
        unfold loginRequired.
        destruct (has_uid r); [reflexivity|].
        destruct (bearer_token r ≫= verified env) as [d|];
          [now destruct (adopt_result d r db) as (_ & _ & _ & _ & _ & _ & Hn & _);
           destruct (Hn Hs)|].
        destruct (cookie_token r ≫= verified env) as [d|];
          [now destruct (adopt_result d r db) as (_ & _ & _ & _ & _ & _ & Hn & _);
           destruct (Hn Hs)|].
        reflexivity.
      * intros d Hb. now apply (Htoken _ Ha d).
  - rewrite (Hrej eq_refl). cbn.
    split; [reflexivity|]. split; [reflexivity|]. split.
    + intros [? ?]. discriminate.
    + intros d Hb. exfalso. revert Hi. unfold loginRequired_userId.
      destruct (has_uid r) eqn:Hu.
      * destruct (has_uid_session_uid r Hu) as (i & -> & _). discriminate.
      * now rewrite Hb.
Qed.

(** *** The application as registered *)

Lemma run_handlers_guarded (mw h : Db → Req → Result) (db : Db) (r : Req) :
  run_handlers [mw; h] db r [] = guarded mw h db r.
Proof.
  unfold guarded. cbn.
  destruct (mw db r) as [[resp|] r1 db1 es1]; cbn; [reflexivity|].
  destruct (h db1 r1) as [[resp|] r2 db2 es2]; reflexivity.
Qed.

(** A request that its route answers never reaches the layers registered
    behind the routes, express-session among them: the answer is the
    route's, on the request as it was received. *)
Lemma serve_route (env : Env) (route : list (Db → Req → Result)) (db : Db)
    (r : Req) :
  is_Some (response (run_handlers route db r [])) →
  serve env route db r = run_handlers route db r [].
Proof.
  intros [resp H]. unfold serve, app, pass. cbn. now rewrite H.
Qed.

Lemma auth_session_answers (env : Env) (db : Db) (r : Req) :
  is_Some (response (auth_session env db r)).
Proof.
  unfold auth_session.
  destruct (resolved_user_id env r) as [i|]; [|cbn; eauto].
  destruct (select_users_by_id db i) as [e|[|u rest]]; [cbn; eauto| |].
  - destruct (session r); cbn; eauto.
  - destruct (refresh_session env r i). cbn. eauto.
Qed.

Lemma serve_session_check (env : Env) (db : Db) (r : Req) :
  serve env [auth_session env] db r = auth_session env db r.
Proof.
  assert (run_handlers [auth_session env] db r [] = auth_session env db r)
    as Hrun.
  { cbn. destruct (auth_session_answers env db r) as [resp H].
    rewrite H. destruct (auth_session env db r). cbn in *. now rewrite H. }
  rewrite serve_route; [exact Hrun|].
  rewrite Hrun. apply auth_session_answers.
Qed.

Lemma serve_behind_loginRequired (env : Env) (h : Db → Req → Result)
    (db : Db) (r : Req) :
  is_Some (response (guarded (loginRequired env) h db r)) →
  serve env [loginRequired env; h] db r = guarded (loginRequired env) h db r.
Proof.
  intros H. rewrite serve_route; rewrite run_handlers_guarded; done.
Qed.

(** *** Initials in the three responses *)

Lemma account_handler_updates (env : Env) (db : Db) (r : Req) (userId : Z)
    (n : string) (u : UserRow) :
  (if has_uid r then session_uid r else req_user_id r) = Some userId →
  b_full_name (reqbody r) = Some n → n ≠ EmptyString →
  fault db = None → u ∈ users db → u_id u = userId →
  ∃ v, u_id v = userId
       ∧ response (account_handler env db r)
         = Some {| status := 200;
                   body := JObj [("success", JBool true);
                                 ("message", JStr "Profile updated successfully");
                                 ("user", account_user
                                            (set_profile n
                                               (match b_country (reqbody r) with
                                                | Some c =>
                                                    if Js.truthy_str c
                                                    then Some c else None
                                                | None => None
                                                end) (now env) v))]%string |}.
Proof.
  intros Hid Hn Hne Hf Hin Hu. apply truthy_str_true in Hne.
  unfold account_handler. rewrite Hid, Hn, Hne.
  unfold update_user_profile, pool_query. rewrite Hf.
  destruct (filter (λ u0, u_id u0 = userId) (users db)) as [|v vs] eqn:Hfl.
  - assert (u ∈ filter (λ u0, u_id u0 = userId) (users db)) as Hc
      by (apply list_elem_of_filter; now split).
    rewrite Hfl in Hc. now apply elem_of_nil in Hc.
  - assert (v ∈ filter (λ u0, u_id u0 = userId) (users db)) as Hv
      by (rewrite Hfl; left).
    apply list_elem_of_filter in Hv as [Hv _].
    exists v. split; [exact Hv | reflexivity].
Qed.

(** C9. [getInitials] is total: it returns the empty string for a null,
    undefined or empty name and otherwise the upper-cased concatenation of
    the first character of each space-separated word. A successful login,
    a session check that finds the user's row and an account update that
    finds it each answer 200 with a user object whose [initials] field
    is this value, computed from the full name the object reports. More
    generally, whenever one of the three handlers answers with a [user]
    field, that object carries the initials of the full name it
    reports. *)
Theorem getInitials_total_and_reported :
  (∀ name : option string,
     getInitials name =
       match name with
       | None => EmptyString
       | Some EmptyString => EmptyString
       | Some s => toUpperCase (first_letters true s)
       end)
  ∧ (∀ env db r resp uj,
       response (login env db r) = Some resp →
       json_get "user" (body resp) = Some uj →
       reports_initials uj)
  ∧ (∀ env db r resp uj,
       response (auth_session env db r) = Some resp →
       json_get "user" (body resp) = Some uj →
       reports_initials uj)
  ∧ (∀ env db r resp uj,
       response (account_handler env db r) = Some resp →
       json_get "user" (body resp) = Some uj →
       reports_initials uj)
  ∧ (∀ env db r e p u rest,
       b_email (reqbody r) = Some e → e ≠ EmptyString →
       b_password (reqbody r) = Some p → p ≠ EmptyString →
       select_users_by_email db e = inr (u :: rest) →
       bcrypt_compare p (u_password u) = true →
       (email_verification_on env
        && negb (Js.or_false (u_is_verified u)))%bool = false →
       ∃ b uj,
         response (login env db r) = Some {| status := 200; body := b |}
         ∧ json_get "user" b = Some uj
         ∧ json_get "full_name" uj = Some (json_opt_str (u_full_name u))
         ∧ json_get "initials" uj
           = Some (JStr (getInitials (u_full_name u))))
  ∧ (∀ env db r userId u rest,
       resolved_user_id env r = Some userId →
       select_users_by_id db userId = inr (u :: rest) →
       ∃ b uj,
         response (auth_session env db r)
         = Some {| status := 200; body := b |}
         ∧ json_get "user" b = Some uj
         ∧ json_get "full_name" uj = Some (json_opt_str (u_full_name u))
         ∧ json_get "initials" uj
           = Some (JStr (getInitials (u_full_name u))))
  ∧ (∀ env db r userId n u,
       (if has_uid r then session_uid r else req_user_id r) = Some userId →
       b_full_name (reqbody r) = Some n → n ≠ EmptyString →
       fault db = None → u ∈ users db → u_id u = userId →
       ∃ b uj,
         response (account_handler env db r)
         = Some {| status := 200; body := b |}
         ∧ json_get "user" b = Some uj
         ∧ json_get "id" uj = Some (JNum userId)
         ∧ json_get "full_name" uj = Some (JStr n)
         ∧ json_get "initials" uj = Some (JStr (getInitials (Some n)))).
Proof.
  split; [exact getInitials_cases|].
  split; [exact login_user_object|].
  split; [exact auth_session_user_object|].
  split; [exact account_user_object|].
  split; [|split].
  - intros env db r e p u rest He Hne Hp Hnp Hq Hc Hv.
    rewrite (login_reaches_success env db r e p u rest He Hne Hp Hnp Hq Hc Hv).
    unfold login_success. destruct (session r); cbn;
      eexists _, (formattedUser u); repeat split.
  - intros env db r userId u rest Hid Hq.
    destruct (auth_session_found env db r userId u rest Hid Hq) as (Hr & _).
    exists (session_check_body env r u), (session_user u).
    split; [exact Hr|]. repeat split.
  - intros env db r userId n u Hid Hn Hne Hf Hin Hu.
    destruct (account_handler_updates env db r userId n u Hid Hn Hne Hf Hin Hu)
      as (v & Hv & Hr).
    eexists _, _. split; [exact Hr|]. split; [reflexivity|].
    cbn. rewrite Hv. repeat split.
Qed.

End Backend.

(** ** The reconnect logic *)

Lemma store_run_errors (st : Store) (n : nat) (l : Loop) :
  has_on st = true → has_connect st = true →
  store_run st l (replicate n StoreError)
  = {| clock := clock l;
       timers := timers l ++ replicate n (clock l + RECONNECT_DELAY);
       connects := connects l |}.
Proof.
  intros Hon Hc. revert l. induction n as [|n IH]; intros l.
  - cbn. rewrite app_nil_r. now destruct l.
  - cbn [replicate store_run fold_left store_step].
    unfold store_run in IH. rewrite IH.
    unfold on_store_error. rewrite Hon, Hc. cbn.
    now rewrite <- app_assoc.
Qed.

(** A store without a [connect] method is left alone by the listener,
    by the middleware and by the passing of time. *)
Lemma store_run_without_connect (st : Store) (l : Loop)
    (es : list StoreEvent) :
  has_connect st = false → timers l = [] →
  timers (store_run st l es) = []
  ∧ connects (store_run st l es) = connects l.
Proof.
  intros Hc. revert l. induction es as [|e es IH]; intros l Ht; [now split|].
  cbn [store_run fold_left]. unfold store_run in IH.
  assert (timers (store_step st l e) = []
          ∧ connects (store_step st l e) = connects l) as [Ht' Hc'].
  { destruct e as [|b|t]; cbn.
    - unfold on_store_error. rewrite Hc. now destruct (has_on st).
    - rewrite Hc.
      now destruct (negb b && bool_decide (connected st = Some false))%bool.
    - rewrite Ht. cbn. now rewrite app_nil_r. }
  destruct (IH _ Ht') as [H1 H2]. split; [exact H1 | now rewrite H2].
Qed.

Lemma initSessionStore_has_no_connect (first_throws second_throws : bool) :
  has_connect (initSessionStore first_throws second_throws) = false
  ∧ connected (initSessionStore first_throws second_throws) = None.
Proof. now destruct first_throws, second_throws. Qed.

(** C4, as the code has it. The listener schedules a reconnect, 5000 ms
    after the error event, only for a store that has a [connect] method,
    and the middleware calls [connect] only on the store it finds on the
    request. Whichever store [initSessionStore] returns has no [connect]
    method and no [connected] property, and the middleware finds no store
    on the request: starting with nothing pending, no sequence of error
    events, requests and elapsed time leaves a pending reconnect timer
    or calls [connect]. For a store that does have [on] and [connect],
    each error event appends one timer due 5000 ms later, so [n] error
    events leave [n] more pending timers, and a timer calls [connect]
    once its 5 seconds have elapsed. *)
Theorem reconnect_needs_connect_method (first_throws second_throws : bool)
    (l : Loop) (es : list StoreEvent) :
  timers l = [] →
  let st := initSessionStore first_throws second_throws in
  timers (store_run st l es) = []
  ∧ connects (store_run st l es) = connects l
  ∧ (∀ b, reconnect_middleware b None l = l)
  ∧ (∀ st', has_connect st' = false → on_store_error st' l = l)
  ∧ (∀ st', has_on st' = true → has_connect st' = true →
       on_store_error st' l
       = {| clock := clock l;
            timers := timers l ++ [clock l + 5000];
            connects := connects l |}
       ∧ (∀ n : nat,
            timers (store_run st' l (replicate n StoreError))
            = timers l ++ replicate n (clock l + 5000))
       ∧ (∀ t, clock l ≤ t →
            (t < clock l + 5000 →
             clock l + 5000 ∈ timers (advance t (on_store_error st' l)))
            ∧ (clock l + 5000 ≤ t →
               clock l + 5000 ∈ connects (advance t (on_store_error st' l))
               ∧ clock l + 5000 ∉ timers (advance t (on_store_error st' l))))).
Proof.
  intros Ht st.
  destruct (initSessionStore_has_no_connect first_throws second_throws)
    as [Hno _].
  destruct (store_run_without_connect st l es Hno Ht) as [H1 H2].
  split; [exact H1|]. split; [exact H2|]. split; [reflexivity|]. split.
  { intros st' Hc. unfold on_store_error. rewrite Hc.
    now destruct (has_on st'). }
  intros st' Hon Hc.
  assert (on_store_error st' l
          = {| clock := clock l; timers := timers l ++ [clock l + 5000];
               connects := connects l |}) as He
    by (unfold on_store_error; now rewrite Hon, Hc).
  split; [exact He|]. split.
  - intros n. now rewrite store_run_errors.
  - intros t Hle. rewrite He. unfold advance. cbn.
    replace (Z.max (clock l) t) with t by lia. split.
    + intros Hlt. apply list_elem_of_filter. split; [lia|].
      apply elem_of_app. right. left.
    + intros Hge. split.
      * apply elem_of_app. right. apply list_elem_of_filter. split; [lia|].
        apply elem_of_app. right. left.
      * intros Hin. apply list_elem_of_filter in Hin as [Hlt _]. lia.
Qed.

(** ** The handlers at work on the sample data *)

Lemma unbits_bits (p : positive) : Sample.unbits (Sample.bits p) = Some p.
Proof. induction p as [p IH|p IH|]; cbn; [now rewrite IH.. | reflexivity]. Qed.

(** The sample serialisation satisfies the round-trip hypothesis. *)
Lemma sample_wire_roundtrip (j : Jws) :
  Sample.wire_decode (Sample.wire_encode j) = Some j.
Proof.
  unfold Sample.wire_decode, Sample.wire_encode.
  rewrite unbits_bits. cbn. rewrite decode_encode.
  now destruct j as [k [i e n ti v] a x].
Qed.

Lemma sample_token_is_signed (u : UserRow) (t0 : Z) :
  Sample.token u t0
  = jwt_sign Sample.wire_encode (user_claims u) (JWT_SECRET (Sample.env t0))
      THIRTY_DAYS t0.
Proof. reflexivity. Qed.


(** An error event on the store that [initSessionStore] returns schedules
    no reconnect: no timer is pending afterwards, and [connect] is not
    called however much time passes. *)
Lemma store_error_schedules_nothing :
  let st := initSessionStore false false in
  store_run st Sample.idle [StoreError] = Sample.idle
  ∧ ¬ (∃ t, timers (store_run st Sample.idle [StoreError]) = [t])
  ∧ connects (store_run st Sample.idle
                [StoreError; Elapse 5000; Request false; Elapse 3600000])
    = [].
Proof.
  vm_compute. split; [reflexivity|]. split; [|reflexivity].
  intros [t H]. discriminate H.
Qed.

Lemma reconnect_needs_connect_method_witness :
  timers (store_run (initSessionStore true false) Sample.idle
            [StoreError; StoreError; Request false; Elapse 5000]) = []
  ∧ connects (store_run (initSessionStore true false) Sample.idle
                [StoreError; StoreError; Request false; Elapse 5000]) = []
  ∧ timers (store_run Sample.store Sample.idle (replicate 3 StoreError))
    = [5000; 5000; 5000].
Proof.
  destruct (reconnect_needs_connect_method true false Sample.idle
              [StoreError; StoreError; Request false; Elapse 5000] eq_refl)
    as (Ht & Hc & _ & _ & Hwith).
  destruct (Hwith Sample.store eq_refl eq_refl) as (_ & Hn & _).
  split; [exact Ht|]. split; [exact Hc|]. exact (Hn 3%nat).
Defined.

Lemma transient_error_witness :
  classify (Sample.env 0) Sample.timeout_error Sample.request
  = (Reply service_unavailable, Sample.request).
Proof.
  apply (transient_error_is_503 (Sample.env 0) Sample.timeout_error
           Sample.request "ETIMEDOUT" eq_refl).
  left.
Defined.

Lemma login_wrong_password_witness :
  let res := login Sample.bcrypt_compare Sample.toUpperCase Sample.wire_encode
               (Sample.env 0) Sample.db
               (Sample.with_body Sample.request
                  (Sample.login_body "alice@example.com" "looking-glass")) in
  response res = Some {| status := 401; body := invalid_credentials |}
  ∧ effects res = [EQuery (SelectUserByEmail "alice@example.com")].
Proof.
  destruct (login_wrong_password Sample.bcrypt_compare Sample.toUpperCase
              Sample.wire_encode (Sample.env 0) Sample.db
              (Sample.with_body Sample.request
                 (Sample.login_body "alice@example.com" "looking-glass"))
              "alice@example.com" "looking-glass" Sample.alice [])
    as (Hr & _ & He & _); try reflexivity; try discriminate.
  split; [exact Hr | exact He].
Defined.

Lemma register_existing_email_witness :
  let res := register Sample.bcrypt_hash (Sample.env 0) Sample.db
               (Sample.with_body Sample.request
                  (Sample.register_body "alice@example.com" "pw" "Alice")) in
  db_after res = Sample.db
  ∧ ∃ b, response res = Some {| status := 400; body := b |}.
Proof.
  destruct (register_existing_email Sample.bcrypt_hash (Sample.env 0) Sample.db
              (Sample.with_body Sample.request
                 (Sample.register_body "alice@example.com" "pw" "Alice"))
              "alice@example.com" Sample.alice [])
    as (Hr & _ & Hd & _); try reflexivity.
  split; [exact Hd | exact Hr].
Defined.

Lemma session_check_witness :
  let env := Sample.env 5000 in
  let r := Sample.token_only_request in
  let res := auth_session Sample.toUpperCase Sample.wire_encode
               Sample.wire_decode env Sample.db r in
  response res
  = Some (res_json (session_check_body Sample.toUpperCase Sample.wire_encode
                      env r Sample.bob))
  ∧ EJwtSign (user_claims Sample.bob) THIRTY_DAYS ∈ effects res
  ∧ session_uid (req_after res) = Some 2
  ∧ (∃ s', session (req_after res) = Some s' ∧ expires s' = 2592005000)
  ∧ is_invalid (auth_session Sample.toUpperCase Sample.wire_encode
                  Sample.wire_decode env Sample.db Sample.request) 401.
Proof.
  intros env r res.
  destruct (session_check_refreshes Sample.toUpperCase Sample.wire_encode
              Sample.wire_decode env Sample.db r) as (Hok & _ & _).
  destruct (Hok 2 Sample.bob [])
    as (Hr & _ & _ & Hsign & _ & Hfill & _ & Hexp);
    [vm_compute; reflexivity | vm_compute; reflexivity |].
  destruct (session_check_refreshes Sample.toUpperCase Sample.wire_encode
              Sample.wire_decode env Sample.db Sample.request)
    as (_ & H401 & _).
  split; [exact Hr|]. split; [exact Hsign|]. split.
  - apply (Hfill (Sample.stored_session None)); reflexivity.
  - split; [|apply H401; reflexivity].
    destruct (Hexp (Sample.stored_session None) eq_refl eq_refl)
      as (s' & Hs' & Hx & _).
    exists s'. split; [exact Hs' | exact Hx].
Defined.

Lemma token_round_trip_witness :
  let token := jwt_sign Sample.wire_encode (user_claims Sample.bob)
                 "s3cret" THIRTY_DAYS 0 in
  (∃ d, jwt_verify Sample.wire_decode token "s3cret" 2591999999 = inr d
        ∧ claims d = user_claims Sample.bob)
  ∧ jwt_verify Sample.wire_decode token "s3cret" 2592000001 = inl ExpiredToken.
Proof.
  intros token. split.
  - destruct (token_round_trip_until_expiry Sample.wire_encode
                Sample.wire_decode sample_wire_roundtrip
                (Sample.env 2591999999) Sample.db Sample.request
                (user_claims Sample.bob) THIRTY_DAYS 0) as [Hfresh _].
    destruct Hfresh as (d & Hd & Hc & _); [vm_compute; reflexivity|].
    exists d. split; [exact Hd | exact Hc].
  - destruct (token_round_trip_until_expiry Sample.wire_encode
                Sample.wire_decode sample_wire_roundtrip
                (Sample.env 2592000001) Sample.db Sample.request
                (user_claims Sample.bob) THIRTY_DAYS 0) as [_ Hexpired].
    destruct Hexpired as (Hv & _); [vm_compute; reflexivity|].
    exact Hv.
Defined.

(** Sixteen minutes after the entry was written, with an upstream that
    answers 200 but no API key for the username, the handler answers 404
    and does not call the upstream. *)
Lemma profile_not_refetched_without_key :
  let env := Sample.env (minutes 16) in
  let res := twitter_profile Sample.toLowerCase
               (Sample.upstream 200 (JObj [("data", Sample.jack_profile)]%string))
               env Sample.db Sample.profile_cache
               (Sample.profile_request "Jack") in
  Sample.profile_cache !! Sample.toLowerCase "Jack"
  = Some {| data := Sample.jack_profile; timestamp := 0 |}
  ∧ now env = 0 + minutes 16
  ∧ status (tw_response res) = 404
  ∧ tw_effects res = [EQuery (SelectApiKey "Jack")]
  ∧ ¬ (∃ url key, EFetch url key ∈ tw_effects res).
Proof.
  vm_compute. repeat split.
  intros (url & key & Hin).
  apply list_elem_of_singleton in Hin. discriminate.
Qed.

Lemma profile_cache_staleness_witness :
  twitter_profile Sample.toLowerCase (Sample.upstream 429 JNull)
    (Sample.env_with_twitter (minutes 14)) Sample.db Sample.profile_cache
    (Sample.profile_request "Jack")
  = tw_reply 200 Sample.jack_profile Sample.profile_cache []
  ∧ tw_response
      (twitter_profile Sample.toLowerCase (Sample.upstream 429 JNull)
         (Sample.env_with_twitter (minutes 16)) Sample.db Sample.profile_cache
         (Sample.profile_request "Jack"))
    = {| status := 200; body := Sample.jack_profile |}.
Proof.
  split.
  - destruct (profile_cache_staleness Sample.toLowerCase
                (Sample.upstream 429 JNull)
                (Sample.env_with_twitter (minutes 14)) Sample.db
                Sample.profile_cache (Sample.profile_request "Jack") "Jack"
                {| data := Sample.jack_profile; timestamp := 0 |})
      as [Hfresh _];
      [reflexivity | discriminate | vm_compute; reflexivity |].
    apply Hfresh. reflexivity.
  - destruct (profile_cache_staleness Sample.toLowerCase
                (Sample.upstream 429 JNull)
                (Sample.env_with_twitter (minutes 16)) Sample.db
                Sample.profile_cache (Sample.profile_request "Jack") "Jack"
                {| data := Sample.jack_profile; timestamp := 0 |})
      as [_ Hstale];
      [reflexivity | discriminate | vm_compute; reflexivity |].
    destruct (Hstale eq_refl "AAAA"%string [EQuery (SelectApiKey "Jack")])
      as (_ & H429 & _); [reflexivity|].
    destruct H429 as [Hr _]; [reflexivity | exact Hr].
Defined.

Lemma getInitials_witness :
  getInitials Sample.toUpperCase (Some "bob the builder"%string) = "BTB"%string
  ∧ (∃ b uj,
       response (login Sample.bcrypt_compare Sample.toUpperCase
                   Sample.wire_encode (Sample.env 0) Sample.db
                   (Sample.with_body Sample.request
                      (Sample.login_body "bob@example.com" "builder")))
       = Some {| status := 200; body := b |}
       ∧ json_get "user" b = Some uj
       ∧ json_get "initials" uj = Some (JStr "BTB"))
  ∧ (∃ b uj,
       response (auth_session Sample.toUpperCase Sample.wire_encode
                   Sample.wire_decode (Sample.env 5000) Sample.db
                   Sample.token_only_request)
       = Some {| status := 200; body := b |}
       ∧ json_get "user" b = Some uj
       ∧ json_get "initials" uj = Some (JStr "BTB"))
  ∧ (∃ b uj,
       response (account_handler Sample.toUpperCase (Sample.env 0) Sample.db
                   (with_session
                      (Sample.with_body Sample.request
                         (Sample.account_body "alice pleasance liddell"))
                      (Some (Sample.stored_session (Some 1)))))
       = Some {| status := 200; body := b |}
       ∧ json_get "user" b = Some uj
       ∧ json_get "initials" uj = Some (JStr "APL")).
Proof.
  destruct (getInitials_total_and_reported Sample.bcrypt_compare
              Sample.toUpperCase Sample.wire_encode Sample.wire_decode)
    as (Hcases & _ & _ & _ & Hlogin & Hcheck & Haccount).
  split; [rewrite Hcases; reflexivity|]. split; [|split].
  - destruct (Hlogin (Sample.env 0) Sample.db
                (Sample.with_body Sample.request
                   (Sample.login_body "bob@example.com" "builder"))
                "bob@example.com"%string "builder"%string Sample.bob []
                eq_refl ltac:(discriminate) eq_refl ltac:(discriminate)
                eq_refl eq_refl eq_refl)
      as (b & uj & Hr & Hu & _ & Hi).
    exists b, uj. split; [exact Hr|]. split; [exact Hu | exact Hi].
  - destruct (Hcheck (Sample.env 5000) Sample.db Sample.token_only_request
                2 Sample.bob [] ltac:(vm_compute; reflexivity) eq_refl)
      as (b & uj & Hr & Hu & _ & Hi).
    exists b, uj. split; [exact Hr|]. split; [exact Hu | exact Hi].
  - destruct (Haccount (Sample.env 0) Sample.db
                (with_session
                   (Sample.with_body Sample.request
                      (Sample.account_body "alice pleasance liddell"))
                   (Some (Sample.stored_session (Some 1))))
                1 "alice pleasance liddell"%string Sample.alice
                eq_refl eq_refl ltac:(discriminate) eq_refl
                ltac:(left) eq_refl)
      as (b & uj & Hr & Hu & _ & _ & Hi).
    exists b, uj. split; [exact Hr|]. split; [exact Hu | exact Hi].
Defined.



(** ** Further properties of the reconnect logic *)

(** X26. A store without a [connect] method is never reconnected:
    starting with no pending timer, no sequence of error events, requests
    and elapsed time schedules a timer or calls [connect]. *)
Theorem store_without_connect_is_left_alone (st : Store) (l : Loop)
    (es : list StoreEvent) :
  has_connect st = false → timers l = [] →
  timers (store_run st l es) = []
  ∧ connects (store_run st l es) = connects l.
Proof.
  intros Hc. revert l. induction es as [|e es IH]; intros l Ht; [now split|].
  cbn [store_run fold_left]. unfold store_run in IH.
  assert (timers (store_step st l e) = []
          ∧ connects (store_step st l e) = connects l) as [Ht' Hc'].
  { destruct e as [|b|t]; cbn.
    - unfold on_store_error. rewrite Hc. now destruct (has_on st).
    - rewrite Hc. now destruct (negb b && bool_decide (connected st = Some false))%bool.
    - rewrite Ht. cbn. now rewrite app_nil_r. }
  destruct (IH _ Ht') as [H1 H2]. split; [exact H1 | now rewrite H2].
Qed.

Lemma filter_replicate_all {A} (P : A → Prop) `{∀ x, Decision (P x)}
    (n : nat) (x : A) :
  P x → filter P (replicate n x) = replicate n x.
Proof.
  intros Hx. induction n as [|n IH]; [reflexivity|].
  change (replicate (S n) x) with (x :: replicate n x).
  rewrite filter_cons_True by exact Hx. now rewrite IH.
Qed.

Lemma filter_replicate_none {A} (P : A → Prop) `{∀ x, Decision (P x)}
    (n : nat) (x : A) :
  ¬ P x → filter P (replicate n x) = [].
Proof.
  intros Hx. induction n as [|n IH]; [reflexivity|].
  change (replicate (S n) x) with (x :: replicate n x).
  now rewrite filter_cons_False by exact Hx.
Qed.

(** X27. Every scheduled reconnect runs, and runs once: on a store with
    [on] and [connect] and nothing pending, [n] error events at one
    instant followed by the passing of at least 5 seconds call [connect]
    exactly [n] times, all at the due instant, and leave no timer; more
    time passing calls nothing further. Before the 5 seconds are over
    nothing has been called. *)
Theorem every_reconnect_runs_once (st : Store) (l : Loop) (n : nat)
    (t t' : Z) :
  has_on st = true → has_connect st = true → timers l = [] →
  clock l + 5000 ≤ t → t ≤ t' →
  store_run st l (replicate n StoreError ++ [Elapse t; Elapse t'])
  = {| clock := t'; timers := [];
       connects := connects l ++ replicate n (clock l + 5000) |}
  ∧ ∀ t0, clock l ≤ t0 → t0 < clock l + 5000 →
      connects (store_run st l (replicate n StoreError ++ [Elapse t0]))
      = connects l.
Proof.
  intros Hon Hc Ht Hdue Hle. unfold store_run. split.
  - rewrite fold_left_app. fold (store_run st l (replicate n StoreError)).
    rewrite (store_run_errors st n l Hon Hc), Ht. cbn.
    unfold advance. cbn. unfold RECONNECT_DELAY.
    replace (Z.max (clock l) t) with t by lia.
    replace (Z.max t t') with t' by lia.
    rewrite (filter_replicate_none (λ d, t < d)) by lia.
    rewrite (filter_replicate_all (λ d, d ≤ t)) by lia.
    cbn. now rewrite app_nil_r.
  - intros t0 H0 H1. rewrite fold_left_app.
    fold (store_run st l (replicate n StoreError)).
    rewrite (store_run_errors st n l Hon Hc), Ht. cbn.
    unfold RECONNECT_DELAY.
    replace (Z.max (clock l) t0) with t0 by lia.
    rewrite (filter_replicate_none (λ d, d ≤ t0)) by lia.
    now rewrite app_nil_r.
Qed.

(** ** Examples for the further properties *)

(** *** Authentication middleware, error handlers and CORS *)

Lemma loginRequired_passes_iff_identity_witness :
  response (loginRequired Sample.wire_decode (Sample.env 5000) Sample.db
              Sample.token_only_request) = None
  ∧ loginRequired Sample.wire_decode (Sample.env 5000) Sample.db
      Sample.request
    = reply 401 authentication_required Sample.request Sample.db [].
Proof.
  split.
  - destruct (loginRequired_passes_iff_identity Sample.wire_decode
                (Sample.env 5000) Sample.db Sample.token_only_request)
      as ([_ Hpass] & _).
    apply Hpass. exists 2. vm_compute. reflexivity.
  - destruct (loginRequired_passes_iff_identity Sample.wire_decode
                (Sample.env 5000) Sample.db Sample.request)
      as (_ & _ & Hrej & _).
    apply Hrej. reflexivity.
Defined.

Lemma loginRequired_repairs_session_witness :
  let res := loginRequired Sample.wire_decode (Sample.env 5000) Sample.db
               Sample.token_only_request in
  session_uid (req_after res) = Some 2 ∧ effects res = [ESessionSave].
Proof.
  destruct (loginRequired_repairs_session Sample.wire_decode
              (Sample.env 5000) Sample.db Sample.token_only_request)
    as (_ & Hs & _); [vm_compute; reflexivity|].
  destruct (Hs (Sample.stored_session None) eq_refl) as (_ & Hu & _ & He).
  split; [rewrite Hu; vm_compute; reflexivity | apply He; reflexivity].
Defined.

Lemma cookie_jwt_sound_witness :
  ∃ pre post : string,
    "theme=dark; jwt=abc; lang=en"%string = pre +:+ "jwt=" +:+ "abc" +:+ post.
Proof.
  destruct (cookie_jwt_sound "theme=dark; jwt=abc; lang=en" "abc")
    as (_ & _ & pre & post & H & _); [vm_compute; reflexivity|].
  exists pre, post. exact H.
Defined.

Lemma cookie_jwt_of_jwt_cookie_witness :
  cookie_jwt (jwt_cookie (Sample.production_env 0) (Sample.token Sample.bob 0))
  = Some (Sample.token Sample.bob 0).
Proof.
  apply (cookie_jwt_of_jwt_cookie (Sample.production_env 0)
           (Sample.token Sample.bob 0)).
  - intros H. vm_compute in H. discriminate H.
  - vm_compute. reflexivity.
Defined.

Lemma loginRequired_cookie_after_bad_header_witness :
  let r := with_cookie (Sample.with_authorization Sample.request "Bearer garbage")
             ("jwt=" +:+ Sample.token Sample.bob 0) in
  response (loginRequired Sample.wire_decode (Sample.env 5000) Sample.db r)
  = None
  ∧ loginRequired_userId Sample.wire_decode (Sample.env 5000) r = Some 2.
Proof.
  intros r.
  destruct (loginRequired_cookie_after_bad_header Sample.wire_decode
              (Sample.env 5000) Sample.db r "garbage"
              (Sample.token Sample.bob 0)
              {| claims := user_claims Sample.bob; iat := 0;
                 exp := THIRTY_DAYS |})
    as (Hr & Hi & _);
    [reflexivity | reflexivity | vm_compute; reflexivity | reflexivity
    | intros H; vm_compute in H; discriminate H | vm_compute; reflexivity
    | vm_compute; reflexivity |].
  split; [exact Hr | exact Hi].
Defined.

Lemma token_middlewares_outcome_witness :
  let r := Sample.with_authorization Sample.request
             ("Bearer " +:+ Sample.token Sample.bob 0) in
  let r' := jwt_fallback Sample.wire_decode (Sample.env 5000)
              (session_fallback Sample.wire_decode (Sample.env 5000) r) in
  user r' = Some {| claims := user_claims Sample.bob; iat := 0;
                    exp := THIRTY_DAYS |}
  ∧ ∃ s', session r' = Some s' ∧ isTemporary s' = true.
Proof.
  intros r r'.
  destruct (token_middlewares_outcome Sample.wire_decode (Sample.env 5000) r)
    as (_ & _ & _ & _ & Hs & _ & Hu).
  split.
  - apply (Hu (Sample.token Sample.bob 0));
      [vm_compute; reflexivity | vm_compute; reflexivity | reflexivity].
  - destruct (Hs eq_refl) as (s' & Hs' & Ht & _). exists s'.
    split; [exact Hs' | exact Ht].
Defined.

Lemma session_only_request_rejected_by_category_routes_witness :
  let r := with_session Sample.request (Some (Sample.stored_session (Some 1))) in
  response (loginRequired Sample.wire_decode (Sample.env 0) Sample.db r) = None
  ∧ category_post Sample.wire_decode (Sample.env 0) Sample.db r
    = reply 401 (error_json "Authentication required") r Sample.db [].
Proof.
  intros r.
  destruct (session_only_request_rejected_by_category_routes
              Sample.wire_decode (Sample.env 0) Sample.db r)
    as (Hp & Hpost & _); [reflexivity | reflexivity |].
  split; [exact Hp | exact Hpost].
Defined.

Lemma session_error_handler_outcomes_witness :
  (session_error_handler Sample.bad_session_error Sample.request).1 = Continue
  ∧ session_error_handler Sample.timeout_error Sample.request
    = (Forward Sample.timeout_error, Sample.request).
Proof.
  split.
  - pose proof (session_error_handler_outcomes Sample.bad_session_error
                  Sample.request) as H.
    destruct (session_error_handler Sample.bad_session_error Sample.request)
      as [a r'].
    destruct H as ((-> & _) & _); [reflexivity|]. reflexivity.
  - pose proof (session_error_handler_outcomes Sample.timeout_error
                  Sample.request) as H.
    destruct (session_error_handler Sample.timeout_error Sample.request)
      as [a r'].
    destruct H as (_ & _ & Hfwd & _).
    destruct Hfwd as [-> ->]; [|reflexivity].
    cbn. rewrite !not_elem_of_cons. repeat split; try discriminate.
    apply not_elem_of_nil.
Defined.

Lemma global_error_handler_replies_witness :
  ∃ resp, global_error_handler (Sample.production_env 0) Sample.timeout_error
          = Reply resp
          ∧ (status resp = 503 ∨ status resp = 500).
Proof.
  destruct (global_error_handler_replies (Sample.production_env 0)
              Sample.timeout_error) as (_ & Hr).
  eexists. split; [reflexivity|].
  destruct (Hr _ eq_refl) as (Hs & _). exact Hs.
Defined.

Lemma cors_accepts_by_substring_witness :
  cors_allows (Sample.production_env 0)
    (Some "https://deuss.space.evil.example"%string) = true
  ∧ cors_allows (Sample.production_env 0) (Some "deuss"%string) = true.
Proof.
  destruct (cors_accepts_by_substring (Sample.production_env 0))
    as (_ & Hprod & _).
  destruct (Hprod eq_refl "https://deuss.space" "" ".evil.example")%string
    as (Hsup & _); [left|].
  split; [exact Hsup|].
  destruct (Hprod eq_refl "https://deuss.space" "https://" ".space")%string
    as (_ & Hsub2); [left|].
  apply Hsub2. reflexivity.
Defined.

(** *** Login, registration and e-mail verification *)

(** The stand-in for bcrypt accepts the password a hash was made from. *)
Lemma sample_bcrypt_accepts (pw s : string) :
  Sample.bcrypt_compare pw (Sample.bcrypt_hash pw s) = true.
Proof. unfold Sample.bcrypt_compare, Sample.bcrypt_hash. apply String.eqb_refl. Qed.

Lemma login_unknown_email_like_wrong_password_witness :
  response (login Sample.bcrypt_compare Sample.toUpperCase Sample.wire_encode
              (Sample.env 0) Sample.db
              (Sample.with_body Sample.request
                 (Sample.login_body "nobody@example.com" "pw")))
  = response (login Sample.bcrypt_compare Sample.toUpperCase
                Sample.wire_encode (Sample.env 0) Sample.db
                (Sample.with_body Sample.request
                   (Sample.login_body "alice@example.com" "looking-glass"))).
Proof.
  destruct (login_unknown_email_like_wrong_password Sample.bcrypt_compare
              Sample.toUpperCase Sample.wire_encode (Sample.env 0) Sample.db
              (Sample.with_body Sample.request
                 (Sample.login_body "nobody@example.com" "pw"))
              (Sample.with_body Sample.request
                 (Sample.login_body "alice@example.com" "looking-glass"))
              "nobody@example.com" "pw" "alice@example.com" "looking-glass"
              Sample.alice [])
    as (H & _); [(reflexivity || discriminate).. |].
  exact H.
Defined.

Lemma login_unverified_is_blocked_witness :
  let res := login Sample.bcrypt_compare Sample.toUpperCase Sample.wire_encode
               (Sample.production_env 1000) Sample.full_db
               (Sample.with_body Sample.request
                  (Sample.login_body "carol@example.com" "carroll")) in
  (∃ b, response res = Some {| status := 403; body := b |}
        ∧ json_get "needsVerification" b = Some (JBool true))
  ∧ db_after res = Sample.full_db.
Proof.
  destruct (login_unverified_is_blocked Sample.bcrypt_compare
              Sample.toUpperCase Sample.wire_encode
              (Sample.production_env 1000) Sample.full_db
              (Sample.with_body Sample.request
                 (Sample.login_body "carol@example.com" "carroll"))
              "carol@example.com" "carroll" Sample.carol [])
    as (Hr & _ & _ & _ & Hkeep & _); [(reflexivity || discriminate).. |].
  split; [exact Hr|]. destruct (Hkeep eq_refl) as (Hd & _). exact Hd.
Defined.

Lemma login_issues_token_and_session_witness :
  let r := with_session
             (Sample.with_body Sample.request
                (Sample.login_body "alice@example.com" "wonderland"))
             (Some (Sample.stored_session None)) in
  let res := login Sample.bcrypt_compare Sample.toUpperCase Sample.wire_encode
               (Sample.env 0) Sample.db r in
  ESetCookie (jwt_cookie (Sample.env 0) (Sample.token Sample.alice 0))
  ∈ effects res
  ∧ session_uid (req_after res) = Some 1.
Proof.
  intros r res.
  destruct (login_issues_token_and_session Sample.bcrypt_compare
              Sample.toUpperCase Sample.wire_encode (Sample.env 0) Sample.db
              r "alice@example.com" "wonderland" Sample.alice [])
    as (st & sid & _ & Hc & _ & _ & _ & Hs);
    [(reflexivity || discriminate).. |].
  split; [exact Hc|].
  destruct (Hs (Sample.stored_session None) eq_refl) as (Hu & _).
  exact Hu.
Defined.

Lemma login_then_session_check_witness :
  resolved_user_id Sample.wire_decode (Sample.env 5000)
    (Sample.with_authorization Sample.request
       ("Bearer " +:+ Sample.token Sample.alice 0))
  = Some 1.
Proof.
  destruct (login_then_session_check Sample.bcrypt_compare Sample.toUpperCase
              Sample.wire_encode Sample.wire_decode sample_wire_roundtrip
              (Sample.env 0) (Sample.env 5000) Sample.db
              (Sample.with_body Sample.request
                 (Sample.login_body "alice@example.com" "wonderland"))
              (Sample.with_authorization Sample.request
                 ("Bearer " +:+ Sample.token Sample.alice 0))
              "alice@example.com" "wonderland" Sample.alice []
              eq_refl ltac:(discriminate) eq_refl ltac:(discriminate)
              eq_refl eq_refl eq_refl ltac:(discriminate) eq_refl
              ltac:(vm_compute; reflexivity) eq_refl
              (Sample.token Sample.alice 0)
              ltac:(vm_compute; reflexivity) eq_refl)
    as (H & _).
  exact H.
Defined.

Lemma register_keeps_users_distinct_witness :
  let db' := db_after (register Sample.bcrypt_hash (Sample.env 0) Sample.db
                         (Sample.with_body Sample.request
                            (Sample.register_body "dave@example.com" "pw"
                               "Dave"))) in
  NoDup (u_email <$> users db') ∧ NoDup (u_id <$> users db').
Proof.
  destruct (register_keeps_users_distinct Sample.bcrypt_hash (Sample.env 0)
              Sample.db
              (Sample.with_body Sample.request
                 (Sample.register_body "dave@example.com" "pw" "Dave")))
    as (He & Hi & _).
  - apply (bool_decide_unpack _). vm_compute. exact I.
  - apply (bool_decide_unpack _). vm_compute. exact I.
  - split; [exact He | exact Hi].
Defined.

Lemma register_then_login_witness :
  let r := Sample.with_body Sample.request
             (Sample.register_body "dave@example.com" "pw" "Dave") in
  let db' := db_after (register Sample.bcrypt_hash (Sample.env 0) Sample.db r) in
  ∃ row, users db' = users Sample.db ++ [row]
         ∧ response (login Sample.bcrypt_compare Sample.toUpperCase
                       Sample.wire_encode (Sample.env 10) db'
                       (Sample.with_body Sample.request
                          (Sample.login_body "dave@example.com" "pw")))
           ≫= (λ resp2, json_get "user" (body resp2))
           = Some (formattedUser Sample.toUpperCase row).
Proof.
  intros r db'.
  edestruct (register_then_login Sample.bcrypt_compare Sample.bcrypt_hash
               Sample.toUpperCase Sample.wire_encode (Sample.env 0)
               (Sample.env 10) Sample.db r
               (Sample.with_body Sample.request
                  (Sample.login_body "dave@example.com" "pw"))
               "dave@example.com" "pw")
    as (row & Hrows & Hlogin & _);
    [apply sample_bcrypt_accepts | reflexivity | reflexivity | reflexivity
    | reflexivity | reflexivity | reflexivity | reflexivity |].
  exists row. split; [exact Hrows | exact Hlogin].
Defined.

Lemma verify_email_is_single_use_witness :
  let '(resp, db') := verify_email (Sample.production_env 1000)
                        Sample.full_db (Some "c0ffee"%string) in
  status resp = 200
  ∧ status (verify_email (Sample.production_env 2000) db'
              (Some "c0ffee"%string)).1 = 400.
Proof.
  pose proof (verify_email_is_single_use (Sample.production_env 1000)
                (Sample.production_env 2000) Sample.full_db "c0ffee"
                Sample.carol ltac:(discriminate)
                ltac:(vm_compute; reflexivity) ltac:(cbn; lia)) as H.
  destruct (verify_email (Sample.production_env 1000) Sample.full_db
              (Some "c0ffee"%string)) as [resp db'].
  destruct H as (H200 & _ & _ & _ & Hagain).
  split; [exact H200|]. rewrite Hagain. reflexivity.
Defined.

Lemma verify_email_only_verifies_witness :
  (verify_email (Sample.production_env 0) Sample.full_db
     (Some "wrong"%string)).2 = Sample.full_db
  ∧ (verify_email (Sample.production_env 90000000) Sample.full_db
       (Some "c0ffee"%string)).1
    = {| status := 400;
         body := error_json "Verification token has expired" |}.
Proof.
  split.
  - pose proof (verify_email_only_verifies (Sample.production_env 0)
                  Sample.full_db (Some "wrong"%string)) as H.
    destruct (verify_email (Sample.production_env 0) Sample.full_db
                (Some "wrong"%string)) as [resp db'] eqn:E.
    destruct H as (Hkeep & _). apply Hkeep.
    assert (resp = (verify_email (Sample.production_env 0) Sample.full_db
                      (Some "wrong"%string)).1) as -> by now rewrite E.
    vm_compute. discriminate.
  - pose proof (verify_email_only_verifies (Sample.production_env 90000000)
                  Sample.full_db (Some "c0ffee"%string)) as H.
    destruct (verify_email (Sample.production_env 90000000) Sample.full_db
                (Some "c0ffee"%string)) as [resp db'].
    destruct H as (_ & _ & Hexp).
    apply (Hexp "c0ffee"%string Sample.carol []);
      [reflexivity | discriminate | vm_compute; reflexivity | cbn; lia].
Defined.

Lemma register_verify_login_witness :
  let r := Sample.with_body Sample.request
             (Sample.register_body "dave@example.com" "pw" "Dave") in
  let r2 := Sample.with_body Sample.request
              (Sample.login_body "dave@example.com" "pw") in
  let db1 := db_after (register Sample.bcrypt_hash (Sample.production_env 0)
                         Sample.db r) in
  let '(resp1, db2) := verify_email (Sample.production_env 1000) db1
                         (Some "c0ffee"%string) in
  (∃ b, response (login Sample.bcrypt_compare Sample.toUpperCase
                    Sample.wire_encode (Sample.production_env 2000) db1 r2)
        = Some {| status := 403; body := b |})
  ∧ status resp1 = 200
  ∧ ∃ b2, response (login Sample.bcrypt_compare Sample.toUpperCase
                      Sample.wire_encode (Sample.production_env 2000) db2 r2)
          = Some (res_json b2)
          ∧ json_get "success" b2 = Some (JBool true).
Proof.
  intros r r2 db1.
  epose proof (register_verify_login Sample.bcrypt_compare Sample.bcrypt_hash
                 Sample.toUpperCase Sample.wire_encode
                 (Sample.production_env 0) (Sample.production_env 1000)
                 (Sample.production_env 2000) Sample.db r r2
                 "dave@example.com" "pw" _ sample_bcrypt_accepts
                 eq_refl eq_refl eq_refl eq_refl eq_refl eq_refl
                 ltac:(discriminate) eq_refl ltac:(vm_compute; discriminate)
                 eq_refl) as H.
  exact H.
Defined.

Lemma account_update_keeps_credentials_witness :
  let r := with_session
             (Sample.with_body Sample.request (Sample.account_body "Alice L."))
             (Some (Sample.stored_session (Some 1))) in
  let res := account_handler Sample.toUpperCase (Sample.env 0) Sample.db r in
  ∃ resp, response res = Some resp
          ∧ json_get "user" (body resp) ≫= json_get "id" = Some (JNum 1).
Proof.
  intros r res.
  destruct (account_update_keeps_credentials Sample.toUpperCase (Sample.env 0)
              Sample.db r) as (_ & H).
  assert (∃ resp, response res = Some resp ∧ status resp = 200)
    as (resp & Hr & Hs) by (eexists; split; reflexivity).
  destruct (H resp Hr Hs) as (i & n & Hi & _ & Hid & _).
  vm_compute in Hi. injection Hi as <-.
  exists resp. split; [exact Hr | exact Hid].
Defined.

(** *** Categories, Twitter profiles, reconnects and logout *)

Lemma category_handlers_keep_users_apart_witness :
  let r := Sample.bob_request (Sample.category_body (Js.IdNum 8 I)
                                 (Some "Hacked"%string)) in
  let db' := db_after (category_put_handler (Sample.env 0) Sample.full_db r) in
  users db' = users Sample.full_db
  ∧ Sample.reading ∈ bookmark_categories db'.
Proof.
  intros r db'.
  destruct (category_handlers_keep_users_apart (Sample.env 0) Sample.full_db
              r category_put_handler) as (Hu & kept & extra & Hk & HF & _);
    [right; reflexivity|].
  split; [exact Hu|].
  inversion HF as [|? k1 ? l1 _ HF1]; subst.
  inversion HF1 as [|? k2 ? l2 Hp HF2]; subst.
  destruct Hp as (_ & _ & Hsame).
  fold db' in Hk. rewrite Hk, Hsame.
  - apply elem_of_app. left. right. left.
  - intros E. vm_compute in E. discriminate E.
Defined.

Lemma category_update_in_place_witness :
  let r := Sample.bob_request (Sample.category_body (Js.IdNum 7 I)
                                 (Some "Toolbox"%string)) in
  let res := category_put_handler (Sample.env 0) Sample.full_db r in
  (∃ b, response res = Some {| status := 200; body := b |})
  ∧ length (bookmark_categories (db_after res)) = 2%nat.
Proof.
  intros r res.
  destruct (category_update_in_place (Sample.env 0) Sample.full_db r 2
              (Js.IdNum 7 I) "Toolbox" eq_refl eq_refl eq_refl eq_refl eq_refl
              ltac:(discriminate) [Sample.tools]
              ltac:(vm_compute; reflexivity) category_put_handler
              ltac:(right; reflexivity)) as (_ & Hfound).
  destruct (Hfound Sample.tools [] eq_refl) as (Hr & Hlen & _).
  split; [eexists; exact Hr | exact Hlen].
Defined.

Lemma getTwitterApiKey_sources_witness :
  getTwitterApiKey (Sample.env_with_twitter 0) Sample.full_db "@jack"
  = getTwitterApiKey (Sample.env_with_twitter 0) Sample.full_db "jack"
  ∧ (getTwitterApiKey (Sample.env_with_twitter 0) Sample.full_db "jack").1
    = Some "KEY"%string
  ∧ (getTwitterApiKey (Sample.env_with_twitter 0) Sample.db "jack").1
    = Some "AAAA"%string
  ∧ getTwitterApiKey (Sample.env_with_twitter 0) Sample.full_db
      (String (ascii_of_nat 160) "jack")
    = getTwitterApiKey (Sample.env_with_twitter 0) Sample.full_db "jack".
Proof.
  destruct (getTwitterApiKey_sources (Sample.env_with_twitter 0)
              Sample.full_db "jack" eq_refl eq_refl eq_refl)
    as (Hat & _ & Hrow & _ & _ & _ & Hspace).
  destruct (getTwitterApiKey_sources (Sample.env_with_twitter 0)
              Sample.db "jack" eq_refl eq_refl eq_refl)
    as (_ & _ & _ & Hnone & _).
  split; [exact Hat|]. split; [|split].
  - apply (Hrow "KEY"%string []); [vm_compute; reflexivity | discriminate].
  - rewrite Hnone; [reflexivity | vm_compute; reflexivity].
  - apply Hspace. cbn. rewrite !elem_of_cons. tauto.
Defined.

Lemma twitter_profile_cache_discipline_witness :
  let res := twitter_profile Sample.toLowerCase
               (Sample.upstream 200 Sample.jack_profile)
               (Sample.env_with_twitter 960000) Sample.db
               Sample.profile_cache (Sample.profile_request "Dorsey") in
  tw_cache res !! "jack"%string = Sample.profile_cache !! "jack"%string.
Proof.
  intros res.
  destruct (twitter_profile_cache_discipline Sample.toLowerCase
              (Sample.upstream 200 Sample.jack_profile)
              (Sample.env_with_twitter 960000) Sample.db
              Sample.profile_cache (Sample.profile_request "Dorsey"))
    as (_ & Hother & _).
  apply (Hother "Dorsey"%string); [reflexivity|].
  vm_compute. discriminate.
Defined.

Lemma profile_fetched_once_then_cached_witness :
  let res := twitter_profile Sample.toLowerCase
               (Sample.upstream 200 Sample.jack_profile)
               (Sample.env_with_twitter 0) Sample.db ∅
               (Sample.profile_request "Jack") in
  let res2 := twitter_profile Sample.toLowerCase
                (Sample.upstream 500 JNull)
                (Sample.env_with_twitter 60000) Sample.db (tw_cache res)
                (Sample.profile_request "JACK") in
  tw_response res2 = tw_response res ∧ tw_effects res2 = [].
Proof.
  intros res res2.
  edestruct (profile_fetched_once_then_cached Sample.toLowerCase
               (Sample.upstream 200 Sample.jack_profile)
               (Sample.env_with_twitter 0) (Sample.env_with_twitter 60000)
               Sample.db Sample.db ∅ (Sample.profile_request "Jack")
               (Sample.profile_request "JACK") "Jack" "JACK" "AAAA")
    as (_ & Hsame & Hnone & _);
    [reflexivity | discriminate
    | intros c Hc; rewrite lookup_empty in Hc; discriminate Hc
    | reflexivity | reflexivity | reflexivity | discriminate | reflexivity
    | vm_compute; reflexivity |].
  split; [exact Hsame | exact Hnone].
Defined.

Lemma store_without_connect_is_left_alone_witness :
  connects (store_run Sample.memory_store Sample.idle
              [StoreError; Elapse 10000; StoreError; Elapse 20000]) = [].
Proof.
  destruct (store_without_connect_is_left_alone Sample.memory_store
              Sample.idle [StoreError; Elapse 10000; StoreError; Elapse 20000]
              eq_refl eq_refl) as (_ & H).
  exact H.
Defined.

Lemma every_reconnect_runs_once_witness :
  connects (store_run Sample.store Sample.idle
              (replicate 3 StoreError ++ [Elapse 5000; Elapse 6000]))
  = [5000; 5000; 5000].
Proof.
  destruct (every_reconnect_runs_once Sample.store Sample.idle 3 5000 6000
              eq_refl eq_refl eq_refl ltac:(vm_compute; discriminate)
              ltac:(vm_compute; discriminate)) as (H & _).
  rewrite H. reflexivity.
Defined.

Lemma session_check_reads_only_witness :
  let r := with_session Sample.request
             (Some (Sample.stored_session (Some 99))) in
  let res := auth_session Sample.toUpperCase Sample.wire_encode
               Sample.wire_decode (Sample.env 0) Sample.db r in
  db_after res = Sample.db
  ∧ ESessionDestroy ∈ effects res
  ∧ session (req_after res) = None.
Proof.
  intros r res.
  destruct (session_check_reads_only Sample.toUpperCase Sample.wire_encode
              Sample.wire_decode (Sample.env 0) Sample.db r)
    as (Hdb & Hmissing & _).
  destruct (Hmissing 99 eq_refl eq_refl (Sample.stored_session (Some 99))
              eq_refl) as (Hd & _ & Hgone).
  split; [exact Hdb|]. split; [exact Hd | exact (Hgone eq_refl)].
Defined.

Lemma handler_behind_loginRequired_witness :
  let res := guarded (loginRequired Sample.wire_decode (Sample.env 5000))
               (logout_handler false) Sample.db Sample.token_only_request in
  ∃ r' es, has_uid r' = true
           ∧ (∃ token d,
                jwt_verify Sample.wire_decode token
                  (JWT_SECRET (Sample.env 5000)) 5000 = inr d
                ∧ user r' = Some d)
           ∧ effects res = es ++ effects (logout_handler false Sample.db r').
Proof.
  intros res.
  destruct (handler_behind_loginRequired Sample.wire_decode (Sample.env 5000)
              (logout_handler false) Sample.db Sample.token_only_request)
    as [H401 | (r' & es & Hu & _ & Hd & _ & _ & _ & _ & _ & He)].
  - apply (f_equal response) in H401. vm_compute in H401. discriminate H401.
  - exists r', es. split; [apply Hu; eexists; reflexivity|].
    split; [|exact He].
    destruct (Hd eq_refl) as (tok & d & _ & Hv & _ & Hus).
    exists tok, d. split; [exact Hv | exact Hus].
Defined.

Lemma logout_destroys_only_the_session_witness :
  let r := with_session Sample.request
             (Some (Sample.stored_session (Some 1))) in
  let res := logout Sample.wire_decode (Sample.env 0) false Sample.db r in
  db_after res = Sample.db
  ∧ ESessionDestroy ∈ effects res
  ∧ session (req_after res) = None.
Proof.
  intros r res.
  destruct (logout_destroys_only_the_session Sample.wire_decode (Sample.env 0)
              false Sample.db r) as (Hdb & _ & Hin & _).
  destruct Hin as (_ & Hs); [exists 1; reflexivity|].
  destruct (Hs (Sample.stored_session (Some 1)) eq_refl) as (Hd & _ & Hgone).
  split; [exact Hdb|]. split; [exact Hd | exact (Hgone eq_refl)].
Defined.
